(** * The resilient-fetch subsystem of video-sum-mcp

    A shallow embedding of
    - [core/services/safe_crawler.py] (blocking and cooperative requesters,
      sequential and cooperative batch drivers),
    - [core/managers/cache_manager.py] (the document cache), and
    - [core/utils_modules/platform_strategies.py] (the platform pacer),
    together with the pieces of the Python standard library and of urllib3
    that these files call, and the properties the design document states
    about them.

    Conventions.  A Python [str] is a byte string (its UTF-8 encoding), so
    that searching for an ASCII delimiter and hashing agree with Python.
    Wall-clock times and durations are rationals.  A Python [dict] whose
    iteration order is observed is an insertion-ordered association list;
    a [dict] that is only read and written by key is a [gmap]. *)

From Stdlib Require Import ZArith QArith Lqa String Ascii List Sorted Permutation Lia.
From stdpp Require Import gmap strings list.

Close Scope Q_scope.
Open Scope string_scope.
Open Scope Z_scope.

(** ** Python string primitives *)

Module PyStr.

(** [c in s] for a single character. *)
Fixpoint has_char (c : ascii) (s : string) : bool :=
  match s with
  | "" => false
  | String a r => Ascii.eqb a c || has_char c r
  end.

(** [needle in hay]. *)
Fixpoint contains (needle hay : string) : bool :=
  String.prefix needle hay ||
  match hay with
  | "" => false
  | String _ r => contains needle r
  end.

(** [s.split(c, 1)] when [c in s]: the text before and after the first
    occurrence of [c]; [None] when [c] does not occur. *)
Fixpoint split1 (c : ascii) (s : string) : option (string * string) :=
  match s with
  | "" => None
  | String a r =>
      if Ascii.eqb a c then Some ("", r)
      else match split1 c r with
           | Some (x, y) => Some (String a x, y)
           | None => None
           end
  end.

(** [s.partition(c)]: like [split1], but total. *)
Definition partition (c : ascii) (s : string) : string * bool * string :=
  match split1 c s with
  | Some (x, y) => (x, true, y)
  | None => (s, false, "")
  end.

(** The longest prefix none of whose characters satisfies [stop], and
    the rest. *)
Fixpoint span_until (stop : ascii -> bool) (s : string) : string * string :=
  match s with
  | "" => ("", "")
  | String a r =>
      if stop a then ("", s)
      else let '(x, y) := span_until stop r in (String a x, y)
  end.

(** [s.split(c)]: every field between occurrences of [c]. *)
Fixpoint split (c : ascii) (s : string) : list string :=
  match s with
  | "" => [""]
  | String a r =>
      if Ascii.eqb a c then "" :: split c r
      else match split c r with
           | x :: l => String a x :: l
           | [] => [String a ""]
           end
  end.

(** [s.replace(a, b)] for single characters. *)
Fixpoint replace_char (a b : ascii) (s : string) : string :=
  match s with
  | "" => ""
  | String c r => String (if Ascii.eqb c a then b else c) (replace_char a b r)
  end.

(** [s.replace(a, "")]. *)
Fixpoint remove_char (a : ascii) (s : string) : string :=
  match s with
  | "" => ""
  | String c r =>
      if Ascii.eqb c a then remove_char a r else String c (remove_char a r)
  end.

Fixpoint all_chars (p : ascii -> bool) (s : string) : bool :=
  match s with
  | "" => true
  | String c r => p c && all_chars p r
  end.

(** [s.lstrip(chars)] for the set of characters satisfying [p]. *)
Fixpoint lstrip (p : ascii -> bool) (s : string) : string :=
  match s with
  | "" => ""
  | String c r => if p c then lstrip p r else s
  end.

Definition code (c : ascii) : Z := Z.of_N (N_of_ascii c).

Definition is_upper (c : ascii) : bool := (65 <=? code c) && (code c <=? 90).
Definition is_lower (c : ascii) : bool := (97 <=? code c) && (code c <=? 122).
Definition is_digit (c : ascii) : bool := (48 <=? code c) && (code c <=? 57).

(** [c.isascii() and c.isalpha()]. *)
Definition is_ascii_alpha (c : ascii) : bool := is_upper c || is_lower c.

Definition lower_char (c : ascii) : ascii :=
  if is_upper c then ascii_of_N (N_of_ascii c + 32) else c.

(** [s.lower()]; only ever applied to ASCII text. *)
Fixpoint lower (s : string) : string :=
  match s with
  | "" => ""
  | String c r => String (lower_char c) (lower r)
  end.

(** [sep.join(l)]. *)
Fixpoint join (sep : string) (l : list string) : string :=
  match l with
  | [] => ""
  | [x] => x
  | x :: r => x ++ sep ++ join sep r
  end.

(** [s[:n]]. *)
Fixpoint take (n : nat) (s : string) : string :=
  match n, s with
  | S n', String c r => String c (take n' r)
  | _, _ => ""
  end.

(** Splits at the last occurrence of [c], which stays at the head of the
    second part: [(s[:i], s[i:])] for [i = s.rfind(c)]; [None] when [c]
    does not occur. *)
Fixpoint rsplit_at (c : ascii) (s : string) : option (string * string) :=
  match s with
  | "" => None
  | String a r =>
      match rsplit_at c r with
      | Some (x, y) => Some (String a x, y)
      | None => if Ascii.eqb a c then Some ("", s) else None
      end
  end.

Definition nonempty (s : string) : bool :=
  match s with "" => false | _ => true end.

End PyStr.

(** ** [hashlib.md5]

    The MD5 message digest of RFC 1321 on byte strings, with 32-bit words
    as integers reduced modulo [2^32]. *)

Module Md5.

Definition mask32 : Z := Z.ones 32.

Definition add32 (a b : Z) : Z := Z.land (a + b) mask32.

Definition not32 (a : Z) : Z := Z.lxor a mask32.

Definition rotl32 (x c : Z) : Z :=
  Z.land (Z.lor (Z.shiftl x c) (Z.shiftr x (32 - c))) mask32.

Definition shifts : list Z :=
  [ 7; 12; 17; 22; 7; 12; 17; 22; 7; 12; 17; 22; 7; 12; 17; 22;
    5; 9; 14; 20; 5; 9; 14; 20; 5; 9; 14; 20; 5; 9; 14; 20;
    4; 11; 16; 23; 4; 11; 16; 23; 4; 11; 16; 23; 4; 11; 16; 23;
    6; 10; 15; 21; 6; 10; 15; 21; 6; 10; 15; 21; 6; 10; 15; 21 ].

(** [floor(2^32 * |sin(i + 1)|)] for [i = 0 .. 63]. *)
Definition sines : list Z :=
  [ 0xd76aa478; 0xe8c7b756; 0x242070db; 0xc1bdceee;
    0xf57c0faf; 0x4787c62a; 0xa8304613; 0xfd469501;
    0x698098d8; 0x8b44f7af; 0xffff5bb1; 0x895cd7be;
    0x6b901122; 0xfd987193; 0xa679438e; 0x49b40821;
    0xf61e2562; 0xc040b340; 0x265e5a51; 0xe9b6c7aa;
    0xd62f105d; 0x02441453; 0xd8a1e681; 0xe7d3fbc8;
    0x21e1cde6; 0xc33707d6; 0xf4d50d87; 0x455a14ed;
    0xa9e3e905; 0xfcefa3f8; 0x676f02d9; 0x8d2a4c8a;
    0xfffa3942; 0x8771f681; 0x6d9d6122; 0xfde5380c;
    0xa4beea44; 0x4bdecfa9; 0xf6bb4b60; 0xbebfbc70;
    0x289b7ec6; 0xeaa127fa; 0xd4ef3085; 0x04881d05;
    0xd9d4d039; 0xe6db99e5; 0x1fa27cf8; 0xc4ac5665;
    0xf4292244; 0x432aff97; 0xab9423a7; 0xfc93a039;
    0x655b59c3; 0x8f0ccc92; 0xffeff47d; 0x85845dd1;
    0x6fa87e4f; 0xfe2ce6e0; 0xa3014314; 0x4e0811a1;
    0xf7537e82; 0xbd3af235; 0x2ad7d2bb; 0xeb86d391 ].

Definition bytes_of (s : string) : list Z :=
  map PyStr.code (list_ascii_of_string s).

(** Little-endian bytes of [x], [n] of them. *)
Fixpoint le_bytes (n : nat) (x : Z) : list Z :=
  match n with
  | O => []
  | S n' => Z.land x 255 :: le_bytes n' (Z.shiftr x 8)
  end.

Definition le_word (bs : list Z) : Z :=
  fold_right (fun b acc => b + 256 * acc) 0 bs.

(** The message followed by the bit [1], zero bits up to 56 modulo 64
    bytes, and the bit length as a 64-bit little-endian integer. *)
Definition pad (msg : list Z) : list Z :=
  let n := Z.of_nat (length msg) in
  let zeros := Z.to_nat ((55 - n) mod 64) in
  msg ++ 128 :: repeat 0 zeros ++ le_bytes 8 ((8 * n) mod 2 ^ 64).

(** Cuts a list into consecutive blocks of [k] elements; [fuel] bounds
    the number of blocks. *)
Fixpoint chunks {A} (fuel k : nat) (l : list A) : list (list A) :=
  match fuel, l with
  | O, _ | _, [] => []
  | S f, _ => firstn k l :: chunks f k (skipn k l)
  end.

Record state := State { sa : Z; sb : Z; sc : Z; sd : Z }.

Definition init : state :=
  State 0x67452301 0xefcdab89 0x98badcfe 0x10325476.

(** One of the 64 steps of the compression function. *)
Definition step (m : list Z) (st : state) (i : Z) : state :=
  let '(State a b c d) := st in
  let '(f, g) :=
    if i <? 16 then (Z.lor (Z.land b c) (Z.land (not32 b) d), i)
    else if i <? 32 then
      (Z.lor (Z.land d b) (Z.land (not32 d) c), (5 * i + 1) mod 16)
    else if i <? 48 then (Z.lxor b (Z.lxor c d), (3 * i + 5) mod 16)
    else (Z.lxor c (Z.lor b (not32 d)), (7 * i) mod 16) in
  let k := nth (Z.to_nat i) sines 0 in
  let s := nth (Z.to_nat i) shifts 0 in
  let w := nth (Z.to_nat g) m 0 in
  let f' := add32 (add32 (add32 f a) k) w in
  State d (add32 b (rotl32 f' s)) b c.

Definition compress (st : state) (block : list Z) : state :=
  let m := map le_word (chunks 16 4 block) in
  let '(State a b c d) := fold_left (step m) (map Z.of_nat (seq 0 64)) st in
  State (add32 (sa st) a) (add32 (sb st) b) (add32 (sc st) c)
        (add32 (sd st) d).

Definition digest (msg : list Z) : list Z :=
  let p := pad msg in
  let '(State a b c d) := fold_left compress (chunks (length p) 64 p) init in
  le_bytes 4 a ++ le_bytes 4 b ++ le_bytes 4 c ++ le_bytes 4 d.

Definition hex_digit (n : Z) : ascii :=
  if n <? 10 then ascii_of_N (Z.to_N (48 + n))
  else ascii_of_N (Z.to_N (87 + n)).

Fixpoint hex_of (bs : list Z) : string :=
  match bs with
  | [] => ""
  | b :: r => String (hex_digit (b / 16)) (String (hex_digit (b mod 16)) (hex_of r))
  end.

(** [hashlib.md5(s.encode('utf-8')).hexdigest()]. *)
Definition hexdigest (s : string) : string := hex_of (digest (bytes_of s)).

End Md5.

(** ** [urllib.parse]

    Transcribed from CPython's [Lib/urllib/parse.py].  A function that can
    raise [ValueError] returns an [option], [None] standing for the raise. *)

Module Urllib.

(** The standard-library routines that are taken as given: their answers
    depend on Unicode tables and on the address parser of [ipaddress],
    and they differ between CPython releases. *)
Class Lib := {
  (** what the library's validation of a network location holding both
      brackets answers ([false] when it raises [ValueError]) *)
  check_bracketed_netloc : string -> bool;
  (** [_checknetloc] on a network location that is not ASCII ([false]
      when it raises [ValueError]) *)
  checknetloc_nfkc : string -> bool;
  (** [unquote] on a text that holds a percent sign: the escapes decoded
      as UTF-8, invalid sequences replaced *)
  unquote_escaped : string -> string
}.

Record ParseResult := {
  scheme : string;
  netloc : string;
  path : string;
  params : string;
  query : string;
  fragment : string
}.

Definition in_list (s : string) (l : list string) : bool :=
  existsb (String.eqb s) l.

Definition uses_netloc : list string :=
  [ ""; "ftp"; "http"; "gopher"; "nntp"; "telnet"; "imap"; "wais"; "file";
    "mms"; "https"; "shttp"; "snews"; "prospero"; "rtsp"; "rtspu"; "rsync";
    "svn"; "svn+ssh"; "sftp"; "nfs"; "git"; "git+ssh"; "ws"; "wss" ].

Definition uses_params : list string :=
  [ ""; "ftp"; "hdl"; "prospero"; "http"; "imap"; "https"; "shttp"; "rtsp";
    "rtspu"; "sip"; "sips"; "mms"; "sftp"; "tel" ].

Definition TAB : ascii := ascii_of_N 9.
Definition LF : ascii := ascii_of_N 10.
Definition CR : ascii := ascii_of_N 13.

(** Membership in [scheme_chars]. *)
Definition scheme_char (c : ascii) : bool :=
  PyStr.is_lower c || PyStr.is_upper c || PyStr.is_digit c ||
  Ascii.eqb c "+" || Ascii.eqb c "-" || Ascii.eqb c ".".

(** Membership in [_WHATWG_C0_CONTROL_OR_SPACE]. *)
Definition c0_or_space (c : ascii) : bool := PyStr.code c <=? 32.

Definition is_ascii (c : ascii) : bool := PyStr.code c <? 128.

(** The leading strip and the removal of tab, carriage return and line
    feed at the head of [urlsplit]. *)
Definition sanitize (url : string) : string :=
  PyStr.remove_char LF
    (PyStr.remove_char CR
       (PyStr.remove_char TAB (PyStr.lstrip c0_or_space url))).

(** What the removal of tab, carriage return and line feed leaves of a
    text inside the URL. *)
Definition unsafe_removed (f : string) : string :=
  PyStr.remove_char LF (PyStr.remove_char CR (PyStr.remove_char TAB f)).

(** The scheme detection of [urlsplit]: the text before the first colon
    is a scheme when it starts with an ASCII letter and holds scheme
    characters only. *)
Definition split_scheme (url : string) : string * string :=
  match PyStr.split1 ":" url with
  | Some (String c pre, rest) =>
      if PyStr.is_ascii_alpha c && PyStr.all_chars scheme_char (String c pre)
      then (PyStr.lower (String c pre), rest)
      else ("", url)
  | _ => ("", url)
  end.

Definition netloc_delim (c : ascii) : bool :=
  Ascii.eqb c "/" || Ascii.eqb c "?" || Ascii.eqb c "#".

(** [_splitnetloc(url, 2)], guarded by [url[:2] == '//']. *)
Definition split_netloc (url : string) : string * string :=
  match url with
  | String a (String b r) =>
      if Ascii.eqb a "/" && Ascii.eqb b "/"
      then PyStr.span_until netloc_delim r
      else ("", url)
  | _ => ("", url)
  end.

Section WithLib.
Context {lib : Lib}.

(** The bracket checks of [urlsplit]. *)
Definition brackets_ok (nl : string) : bool :=
  match PyStr.has_char "[" nl, PyStr.has_char "]" nl with
  | true, true => check_bracketed_netloc nl
  | false, false => true
  | _, _ => false
  end.

Definition _checknetloc (nl : string) : bool :=
  negb (PyStr.nonempty nl) || PyStr.all_chars is_ascii nl
  || checknetloc_nfkc nl.

(** [urlsplit(url)] with the default [scheme=''] and
    [allow_fragments=True]; the fields are scheme, netloc, path, query
    and fragment. *)
Definition urlsplit (url : string)
  : option (string * string * string * string * string) :=
  let url := sanitize url in
  let '(sch, url) := split_scheme url in
  let '(nl, url) := split_netloc url in
  if negb (brackets_ok nl) then None else
  let '(url, frag) :=
    match PyStr.split1 "#" url with
    | Some (u, f) => (u, f)
    | None => (url, "")
    end in
  let '(url, qry) :=
    match PyStr.split1 "?" url with
    | Some (u, q) => (u, q)
    | None => (url, "")
    end in
  if negb (_checknetloc nl) then None else
  Some (sch, nl, url, qry, frag).

Definition drop_last (s : string) : string :=
  PyStr.take (String.length s - 1) s.

Definition _splitparams (url : string) : string * string :=
  match PyStr.rsplit_at "/" url with
  | Some (dir, last) =>
      match PyStr.split1 ";" last with
      | Some (x, y) => (dir ++ x, y)
      | None => (url, "")
      end
  | None =>
      match PyStr.split1 ";" url with
      | Some (x, y) => (x, y)
      | None => (drop_last url, url)
      end
  end.

Definition urlparse (url : string) : option ParseResult :=
  match urlsplit url with
  | None => None
  | Some (sch, nl, url, qry, frag) =>
      let '(url, prm) :=
        if in_list sch uses_params && PyStr.has_char ";" url
        then _splitparams url else (url, "") in
      Some {| scheme := sch; netloc := nl; path := url; params := prm;
              query := qry; fragment := frag |}
  end.

Definition urlunsplit (sch nl url qry frag : string) : string :=
  let url :=
    if PyStr.nonempty nl
       || (PyStr.nonempty sch && in_list sch uses_netloc
           && negb (String.prefix "//" url))
    then "//" ++ nl
         ++ (if PyStr.nonempty url && negb (String.prefix "/" url)
             then "/" ++ url else url)
    else url in
  let url := if PyStr.nonempty sch then sch ++ ":" ++ url else url in
  let url := if PyStr.nonempty qry then url ++ "?" ++ qry else url in
  if PyStr.nonempty frag then url ++ "#" ++ frag else url.

Definition urlunparse (sch nl url prm qry frag : string) : string :=
  let url := if PyStr.nonempty prm then url ++ ";" ++ prm else url in
  urlunsplit sch nl url qry frag.

(** [unquote]: the identity unless a percent sign occurs. *)
Definition unquote (s : string) : string :=
  if PyStr.has_char "%" s then unquote_escaped s else s.

(** One field of [parse_qsl] with [keep_blank_values=False] and
    [strict_parsing=False]. *)
Definition parse_field (name_value : string) : option (string * string) :=
  match PyStr.split1 "=" name_value with
  | Some (n, v) =>
      if PyStr.nonempty v
      then Some (unquote (PyStr.replace_char "+" " " n),
                 unquote (PyStr.replace_char "+" " " v))
      else None
  | None => None
  end.

Definition parse_qsl (qs : string) : list (string * string) :=
  if PyStr.nonempty qs
  then omap parse_field (PyStr.split "&" qs)
  else [].

(** [parsed_result[name].append(value)], or a fresh one-element list
    at the end of the dict. *)
Fixpoint qs_add (name value : string) (d : list (string * list string))
  : list (string * list string) :=
  match d with
  | [] => [(name, [value])]
  | (k, vs) :: r =>
      if String.eqb k name then (k, (vs ++ [value])%list) :: r
      else (k, vs) :: qs_add name value r
  end.

Definition parse_qs (qs : string) : list (string * list string) :=
  fold_left (fun d nv => qs_add (fst nv) (snd nv) d) (parse_qsl qs) [].

(** Membership in [_ALWAYS_SAFE]. *)
Definition always_safe (c : ascii) : bool :=
  PyStr.is_upper c || PyStr.is_lower c || PyStr.is_digit c ||
  Ascii.eqb c "_" || Ascii.eqb c "." || Ascii.eqb c "-" || Ascii.eqb c "~".

Definition upper_hex_digit (n : Z) : ascii :=
  if n <? 10 then ascii_of_N (Z.to_N (48 + n))
  else ascii_of_N (Z.to_N (55 + n)).

(** [quote(s, safe)]: every byte outside the safe sets becomes [%XX]. *)
Fixpoint quote (safe : ascii -> bool) (s : string) : string :=
  match s with
  | "" => ""
  | String c r =>
      if always_safe c || safe c then String c (quote safe r)
      else String "%"
             (String (upper_hex_digit (PyStr.code c / 16))
                (String (upper_hex_digit (PyStr.code c mod 16))
                   (quote safe r)))
  end.

Definition quote_plus (s : string) : string :=
  if PyStr.has_char " " s
  then PyStr.replace_char " " "+" (quote (Ascii.eqb " ") s)
  else quote (fun _ => false) s.

(** [urlencode(d, doseq=True)] for a dict of lists of strings. *)
Definition urlencode (d : list (string * list string)) : string :=
  PyStr.join "&"
    (flat_map
       (fun kv => map (fun elt => quote_plus (fst kv) ++ "=" ++ quote_plus elt)
                      (snd kv))
       d).

End WithLib.

(** The library as it answers on the URLs of the examples below, which
    are ASCII and hold neither brackets nor percent signs: the
    validations pass, and nothing is there to decode. *)
Definition plain_lib : Lib :=
  {| check_bracketed_netloc := fun _ => true;
     checknetloc_nfkc := fun _ => true;
     unquote_escaped := fun s => s |}.

End Urllib.

(** ** Python exceptions *)

(** The exception classes the code meets, all of them subclasses of
    [Exception]: what [except Exception] catches.  Interpreter signals
    ([KeyboardInterrupt], [SystemExit]) and task cancellation are outside
    the model.  [exn_str] is [str(e)]. *)
Inductive exn_class :=
| TimeoutExc
| ConnectionErrorExc
| RequestExceptionExc
| ValueErrorExc
| IndexErrorExc
| ZeroDivisionErrorExc
| RuntimeErrorExc
| KeyErrorExc
| OtherException.

Record exn := Exn { exn_kind : exn_class; exn_str : string }.

Inductive outcome (A : Type) :=
| Returns (a : A)
| Raises (e : exn).

Arguments Returns {A} a.
Arguments Raises {A} e.

(** [x is not None] *)
Definition present {A} (o : option A) : bool :=
  match o with
  | Some _ => true
  | None => false
  end.

(** ** A [dict] with string keys, in insertion order

    The representation keeps one pair per key. *)

Module PyDict.
Section Dict.
Context {V : Type}.

(** [d.get(k)] *)
Fixpoint get (k : string) (d : list (string * V)) : option V :=
  match d with
  | [] => None
  | (k', v) :: r => if String.eqb k' k then Some v else get k r
  end.

(** [d[k] = v]: a present key keeps its place, a new one goes last. *)
Fixpoint set (k : string) (v : V) (d : list (string * V))
  : list (string * V) :=
  match d with
  | [] => [(k, v)]
  | (k', v') :: r =>
      if String.eqb k' k then (k', v) :: r else (k', v') :: set k v r
  end.

(** [del d[k]], guarded by [k in d]. *)
Definition del (k : string) (d : list (string * V)) : list (string * V) :=
  List.filter (fun kv => negb (String.eqb (fst kv) k)) d.

Definition keys (d : list (string * V)) : list string := map fst d.
End Dict.
End PyDict.

(** ** [DocumentCache] *)

Module DocumentCache.

Definition Qgtb (a b : Q) : bool := negb (Qle_bool a b).

(** What the operating system decides when the cache goes through its
    directory.  [unlink_raises name] says that [Path.unlink] raises for
    the file of that name: a file that is locked, or that its directory
    does not let go.  [scandir_position name] is the place of the name in
    the order in which the directory lists its names, which is the order
    of [glob]. *)
Class Os := {
  unlink_raises : string -> bool;
  scandir_position : string -> nat
}.

Section Cache.
Context {lib : Urllib.Lib}.
Context {os : Os}.
(** The results that are cached: values that [json.dump] accepts and
    [json.load] gives back. *)
Context {R : Type}.

(** What [save_result] writes to a cache file. *)
Record cache_data := CacheData {
  cd_url : string;
  cd_url_hash : string;
  cd_cached_at : Q;
  cd_result : R
}.

(** A file of the cache directory: its size in bytes, and what
    [json.load] reads from it ([None] when reading it raises). *)
Record file := File {
  st_size : Z;
  content : option cache_data
}.

(** An entry of the index: a dict with the four keys that
    [save_result] writes, any of which an index loaded from disk may
    lack. *)
Record entry := Entry {
  e_url : option string;
  e_url_hash : option string;
  e_cached_at : option Q;
  e_file_size : option Z
}.

(** The cache: its configuration, [self.index["entries"]], and the
    [*.json] files of [cache_dir] other than [cache_index.json], by
    name. *)
Record t := Cache {
  cache_expiry_hours : Q;
  max_cache_size_mb : Q;
  entries : list (string * entry);
  files : gmap string file
}.

(** The size of the file that [json.dump] writes for a record. *)
Variable dump_size : cache_data -> Z.

Definition cache_expiry_seconds (c : t) : Q :=
  (cache_expiry_hours c * 3600)%Q.

Definition with_store (c : t) (es : list (string * entry))
           (fs : gmap string file) : t :=
  {| cache_expiry_hours := cache_expiry_hours c;
     max_cache_size_mb := max_cache_size_mb c;
     entries := es;
     files := fs |}.

Definition volatile_params : list string :=
  [ "timestamp"; "ts"; "_t"; "time" ].

Definition _normalize_url (url : string) : option string :=
  match Urllib.urlparse url with
  | None => None
  | Some parsed =>
      if PyStr.contains "douyin.com" (Urllib.netloc parsed)
         || PyStr.contains "iesdouyin.com" (Urllib.netloc parsed)
      then
        let query_params := Urllib.parse_qs (Urllib.query parsed) in
        let important_params :=
          List.filter
            (fun kv => negb (Urllib.in_list (fst kv) volatile_params))
            query_params in
        let new_query := Urllib.urlencode important_params in
        Some (Urllib.urlunparse
                (Urllib.scheme parsed) (Urllib.netloc parsed)
                (Urllib.path parsed) (Urllib.params parsed) new_query "")
      else
        Some (Urllib.urlunparse
                (Urllib.scheme parsed) (Urllib.netloc parsed)
                (Urllib.path parsed) (Urllib.params parsed)
                (Urllib.query parsed) "")
  end.

Definition _get_url_hash (url : string) : option string :=
  match _normalize_url url with
  | None => None
  | Some normalized_url => Some (Md5.hexdigest normalized_url)
  end.

Definition _get_cache_file_path (url_hash : string) : string :=
  url_hash ++ ".json".

(** The truth value of an index entry: a dict is false when empty. *)
Definition truthy (e : entry) : bool :=
  present (e_url e) || present (e_url_hash e)
  || present (e_cached_at e) || present (e_file_size e).

Definition exists_file (c : t) (name : string) : bool :=
  present (files c !! name).

Definition _is_cache_valid (c : t) (now : Q) (cache_entry : option entry)
  : bool :=
  match cache_entry with
  | None => false
  | Some e =>
      if negb (truthy e) then false
      else
        let cached_time := default 0%Q (e_cached_at e) in
        if Qgtb (now - cached_time)%Q (cache_expiry_seconds c) then false
        else
          exists_file c (_get_cache_file_path (default "" (e_url_hash e)))
  end.

(** [_remove_cache_entry]: the deletion of the file and the deletion of
    the index entry share one [try]; when [unlink] raises, the exception
    is logged and the entry stays in the index, with its file. *)
Definition _remove_cache_entry (c : t) (url_hash : string) : t :=
  let cache_file := _get_cache_file_path url_hash in
  if exists_file c cache_file && unlink_raises cache_file
  then c
  else with_store c (PyDict.del url_hash (entries c))
                  (delete cache_file (files c)).

(** [get_cached_result]; [now] is what [time.time()] answers.  The
    hashing of the URL is outside the [try], so its [ValueError]
    reaches the caller. *)
Definition get_cached_result (c : t) (now : Q) (url : string)
  : outcome (option cache_data) * t :=
  match _get_url_hash url with
  | None => (Raises (Exn ValueErrorExc "Invalid URL"), c)
  | Some url_hash =>
      let cache_entry := PyDict.get url_hash (entries c) in
      if negb (_is_cache_valid c now cache_entry) then
        match cache_entry with
        | Some e =>
            if truthy e then (Returns None, _remove_cache_entry c url_hash)
            else (Returns None, c)
        | None => (Returns None, c)
        end
      else
        match files c !! _get_cache_file_path url_hash with
        | Some {| content := Some cached_data |} =>
            (Returns (Some cached_data), c)
        | _ => (Returns None, _remove_cache_entry c url_hash)
        end
  end.

Definition total_size (fs : gmap string file) : Z :=
  map_fold (fun _ f acc => st_size f + acc) 0 fs.

Definition _get_cache_size_mb (c : t) : Q :=
  (inject_Z (total_size (files c)) / inject_Z (1024 * 1024))%Q.

(** The sort key of [_cleanup_old_entries]. *)
Definition cached_at_key (kv : string * entry) : Q :=
  default 0%Q (e_cached_at (snd kv)).

(** [list.sort(key=...)] is stable; so is insertion from the right. *)
Fixpoint insert_by_time (x : string * entry) (l : list (string * entry))
  : list (string * entry) :=
  match l with
  | [] => [x]
  | y :: r =>
      if Qle_bool (cached_at_key x) (cached_at_key y) then x :: y :: r
      else y :: insert_by_time x r
  end.

Definition sort_by_time (l : list (string * entry))
  : list (string * entry) :=
  fold_right insert_by_time [] l.

(** The loop [for i in range(cleanup_count)]: [entries[i]] raises
    [IndexError] past the end, leaving the removals already made. *)
Fixpoint evict (es : list (string * entry)) (indices : list nat) (c : t)
  : t * option exn :=
  match indices with
  | [] => (c, None)
  | i :: r =>
      match nth_error es i with
      | None => (c, Some (Exn IndexErrorExc "list index out of range"))
      | Some (url_hash, _) => evict es r (_remove_cache_entry c url_hash)
      end
  end.

Definition cleanup_count (n : nat) : nat :=
  Z.to_nat (Z.max 1 (Z.of_nat n / 4)).

Definition _cleanup_old_entries (c : t) : t * option exn :=
  let es := sort_by_time (entries c) in
  evict es (seq 0 (cleanup_count (length es))) c.

Definition _cleanup_if_needed (c : t) : t * option exn :=
  if Qgtb (_get_cache_size_mb c) (max_cache_size_mb c)
  then _cleanup_old_entries c
  else (c, None).

(** The cache right after [save_result] has written the file and
    updated the index, before the size check. *)
Definition stored (c : t) (t_file t_index : Q) (url url_hash : string)
           (result : R) : t :=
  let data := CacheData url url_hash t_file result in
  with_store c
    (PyDict.set url_hash
       (Entry (Some url) (Some url_hash) (Some t_index)
              (Some (dump_size data)))
       (entries c))
    (<[_get_cache_file_path url_hash := File (dump_size data) (Some data)]>
       (files c)).

(** [save_result]; [t_file] and [t_index] are what the two calls of
    [time.time()] answer.  Every exception is caught and turns into
    [False]. *)
Definition save_result (c : t) (t_file t_index : Q) (url : string)
           (result : R) : bool * t :=
  match _get_url_hash url with
  | None => (false, c)
  | Some url_hash =>
      match _cleanup_if_needed (stored c t_file t_index url url_hash result)
      with
      | (c', None) => (true, c')
      | (c', Some _) => (false, c')
      end
  end.


(** The removals of the entries of a list, in turn. *)
Definition remove_all (vs : list (string * entry)) (c : t) : t :=
  fold_left (fun c kv => _remove_cache_entry c (fst kv)) vs c.

(** Whether an entry is none of a list, by key. *)
Definition spared (vs : list (string * entry)) (kv : string * entry)
  : bool :=
  negb (existsb (String.eqb (fst kv)) (PyDict.keys vs)).


(** The state the cache keeps between its operations when nothing else
    touches its directory: the index is a dict, every entry of it has
    its file, which is not empty, and no file has a negative size. *)
Definition consistent (c : t) : Prop :=
  List.NoDup (PyDict.keys (entries c))
  /\ (forall url_hash e,
        In (url_hash, e) (entries c) ->
        exists f, files c !! _get_cache_file_path url_hash = Some f
                  /\ 0 < st_size f)
  /\ (forall name f, files c !! name = Some f -> 0 <= st_size f).

(** [cleanup_expired]: the number of entries removed, and the cache. *)
Definition cleanup_expired (c : t) (now : Q) : Z * t :=
  let expired_hashes :=
    map fst
      (List.filter
         (fun kv => Qgtb (now - cached_at_key kv)%Q (cache_expiry_seconds c))
         (entries c)) in
  (Z.of_nat (length expired_hashes),
   fold_left _remove_cache_entry expired_hashes c).

(** The names of a directory in the order in which it lists them;
    sorting by position is insertion from the right. *)
Fixpoint insert_by_position (x : string) (l : list string) : list string :=
  match l with
  | [] => [x]
  | y :: r =>
      if (scandir_position x <=? scandir_position y)%nat then x :: y :: r
      else y :: insert_by_position x r
  end.

Definition glob (fs : gmap string file) : list string :=
  fold_right insert_by_position [] (map fst (map_to_list fs)).

(** The loop [for file_path in glob: file_path.unlink()]: the files
    that are left, and whether an [unlink] raised, which ends the
    loop. *)
Fixpoint unlink_each (names : list string) (fs : gmap string file)
  : gmap string file * bool :=
  match names with
  | [] => (fs, false)
  | name :: rest =>
      if unlink_raises name then (fs, true)
      else unlink_each rest (delete name fs)
  end.

(** [clear_all]: when an [unlink] raises, the exception is logged and
    the index is not reset.  The index file, which [glob] lists as well
    and which the cache writes anew, is taken to be removable. *)
Definition clear_all (c : t) : t :=
  let '(fs, raised) := unlink_each (glob (files c)) (files c) in
  if raised then with_store c (entries c) fs else with_store c [] fs.

(** [is_url_cached] *)
Definition is_url_cached (c : t) (now : Q) (url : string)
  : outcome bool * t :=
  match get_cached_result c now url with
  | (Returns r, c') => (Returns (present r), c')
  | (Raises e, c') => (Raises e, c')
  end.

End Cache.

End DocumentCache.

(** ** The network, as [requests] and urllib3 present it *)

Module Net.

(** An HTTP answer: its status, whether it carries a [Retry-After]
    header, and its body. *)
Record response := Response {
  status_code : Z;
  has_retry_after : bool;
  text : string
}.

(** One request put on the wire: answered, or failed with a timeout or
    a connection error, [e] being what [requests] raises when it gives
    up on that failure; [took] is the time until the outcome is known,
    any back-off sleep before the request included. *)
Inductive attempt :=
| Answered (r : response) (took : Q)
| Failed (e : exn) (took : Q).

(** What a call of [session.get(url)] meets: [requests] refuses the
    URL before anything is sent, or the attempts are served in turn.
    The answer that ends the retries is the answer of the call:
    [session.get] goes on to follow an answer that is a redirection,
    which is left out here, so that the model is that of
    [session.head], which follows none, and of [session.get] where no
    redirection is answered. *)
Inductive endpoint :=
| Rejected (e : exn)
| Served (server : nat -> attempt).

(** The statuses that [requests] takes for a redirection when the
    answer names a location. *)
Definition REDIRECT_STATI : list Z := [ 301; 302; 303; 307; 308 ].

Definition may_redirect (resp : response) : bool :=
  existsb (Z.eqb (status_code resp)) REDIRECT_STATI.

(** No answer of the server is a redirection. *)
Definition never_redirects (ep : endpoint) : Prop :=
  forall server i resp took,
    ep = Served server -> server i = Answered resp took ->
    may_redirect resp = false.

(** The observable events of a request, in the order they happen. *)
Inductive event :=
| Sleep (d : Q)
| Send (url : string)
| Stamp (key : string) (t : Q).

Definition is_sleep (e : event) : bool :=
  match e with Sleep _ => true | _ => false end.

Definition is_send (e : event) : bool :=
  match e with Send _ => true | _ => false end.




Definition has_stamp (evs : list event) : bool :=
  existsb (fun e => match e with Stamp _ _ => true | _ => false end) evs.

(** The number of requests put on the wire. *)
Definition sends (evs : list event) : nat :=
  length (List.filter is_send evs).

(** [urllib3.util.retry.Retry], the arguments the requester sets. *)
Record Retry := {
  total : Z;
  backoff_factor : Q;
  status_forcelist : list Z;
  respect_retry_after_header : bool;
  raise_on_status : bool
}.

Definition RETRY_AFTER_STATUS_CODES : list Z := [ 413; 429; 503 ].

Definition in_codes (s : Z) (l : list Z) : bool := existsb (Z.eqb s) l.

(** [Retry.is_retry] for a [GET]; [remaining] is the current value of
    the counter [total]. *)
Definition is_retry (r : Retry) (remaining : Z) (resp : response) : bool :=
  in_codes (status_code resp) (status_forcelist r)
  || (negb (remaining =? 0) && respect_retry_after_header r
      && has_retry_after resp
      && in_codes (status_code resp) RETRY_AFTER_STATUS_CODES).

(** The loop of [HTTPConnectionPool.urlopen] from attempt [i] on.
    Every retry takes one from the counter [total], and the loop gives
    up when the counter would fall below zero, so [left], the retries
    still allowed, is the counter itself (a negative [total] allows
    none).  Giving up on an answer returns that answer unless
    [raise_on_status]; giving up on a failure raises.  The result is the
    outcome, the number of requests sent, and the time taken. *)
Fixpoint urlopen (r : Retry) (server : nat -> attempt) (left i : nat)
  : outcome response * nat * Q :=
  match server i with
  | Answered resp took =>
      if is_retry r (Z.of_nat left) resp then
        match left with
        | O =>
            if raise_on_status r
            then (Raises (Exn RequestExceptionExc "too many error responses"),
                  1%nat, took)
            else (Returns resp, 1%nat, took)
        | S left' =>
            let '(o, n, d) := urlopen r server left' (S i) in
            (o, S n, (took + d)%Q)
        end
      else (Returns resp, 1%nat, took)
  | Failed e took =>
      match left with
      | O => (Raises e, 1%nat, took)
      | S left' =>
          let '(o, n, d) := urlopen r server left' (S i) in
          (o, S n, (took + d)%Q)
      end
  end.

(** [session.get(url)] and [session.head(url)] through an adapter
    mounted with [r], up to the answer that ends the retries. *)
Definition session_get (r : Retry) (ep : endpoint)
  : outcome response * nat * Q :=
  match ep with
  | Rejected e => (Raises e, O, 0%Q)
  | Served server => urlopen r server (Z.to_nat (total r)) 0
  end.

End Net.

(** ** [SafeRequester] *)

Module SafeRequester.
Import Net.

Definition Qltb (a b : Q) : bool := negb (Qle_bool b a).

Record t := Requester {
  min_delay : Q;
  max_retries : Z;
  last_request_time : gmap string Q
}.

(** How the callers of [get] read its result: the request has failed
    when [not response or response.status_code != 200]. *)
Definition failed (r : option response) : bool :=
  match r with
  | None => true
  | Some response => negb (status_code response =? 200)
  end.

(** The [Retry] that [__init__] mounts on the session. *)
Definition retry_strategy (rq : t) : Retry :=
  {| total := max_retries rq;
     backoff_factor := 2;
     status_forcelist := [ 429; 500; 502; 503; 504; 403; 502 ];
     respect_retry_after_header := true;
     raise_on_status := false |}.

Section WithLib.
Context {lib : Urllib.Lib}.

Definition _get_domain (url : string) : option string :=
  match Urllib.urlparse url with
  | None => None
  | Some parsed => Some (Urllib.netloc parsed)
  end.

(** [_wait_if_needed]: the time to sleep, if any. *)
Definition _wait_if_needed (rq : t) (now : Q) (domain : string)
  : option Q :=
  match last_request_time rq !! domain with
  | Some last =>
      let elapsed := (now - last)%Q in
      if Qltb elapsed (min_delay rq)
      then Some (min_delay rq - elapsed)%Q
      else None
  | None => None
  end.

Definition sleep_events (w : option Q) : list event :=
  match w with
  | Some d => [Sleep d]
  | None => []
  end.

Definition after_sleep (now : Q) (w : option Q) : Q :=
  match w with
  | Some d => (now + d)%Q
  | None => now
  end.

Definition _update_last_request_time (rq : t) (domain : string) (now : Q)
  : t :=
  {| min_delay := min_delay rq;
     max_retries := max_retries rq;
     last_request_time := <[domain := now]> (last_request_time rq) |}.

(** [get(url)] at time [now], the network answering as [ep]: the
    result, the requester and the clock afterwards, and the events.
    The domain is computed and the pacing wait is made before the
    [try]; whatever is raised inside the [try] is logged and turned
    into [None].  The request headers, which have no part in pacing or
    retrying, are left out. *)
Definition get (rq : t) (now : Q) (url : string) (ep : endpoint)
  : outcome (option response) * t * Q * list event :=
  match _get_domain url with
  | None => (Raises (Exn ValueErrorExc "Invalid URL"), rq, now, [])
  | Some domain =>
      let w := _wait_if_needed rq now domain in
      let now := after_sleep now w in
      let '(o, attempts, took) := session_get (retry_strategy rq) ep in
      let now := (now + took)%Q in
      let sent := repeat (Send url) attempts in
      match o with
      | Returns response =>
          (Returns (Some response),
           _update_last_request_time rq domain now, now,
           (sleep_events w ++ sent ++ [Stamp domain now])%list)
      | Raises _ =>
          (Returns None, rq, now, (sleep_events w ++ sent)%list)
      end
  end.

End WithLib.

End SafeRequester.

(** ** More of the Python library *)

Module Py.

(** [random.choice(seq)]: the element at a random index below
    [len(seq)]; [draw] is the random number the index is taken from.
    [None] stands for the [IndexError] on an empty sequence. *)
Definition choice {A} (seq : list A) (draw : nat) : option A :=
  seq !! (draw mod length seq)%nat.

(** [random.uniform(a, b)] is [a + (b - a) * random()]; [u] is the
    draw of [random()]. *)
Definition uniform (a b u : Q) : Q := (a + (b - a) * u)%Q.

(** [max(a, b)]: the first argument unless the second is greater. *)
Definition max (a b : Q) : Q := if SafeRequester.Qltb a b then b else a.

(** [d.update(other)] *)
Definition update {V} (other d : list (string * V)) : list (string * V) :=
  fold_left (fun d kv => PyDict.set (fst kv) (snd kv) d) other d.

End Py.

(** ** [PlatformStrategy] and [PlatformStrategyManager] *)

Module PlatformStrategy.

Record t := Strategy {
  name : string;
  min_interval : Q;
  max_interval : Q;
  max_retries : Z;
  retry_backoff : Q;
  user_agents : list string;
  extra_headers : list (string * string);
  connect_timeout : Q;
  read_timeout : Q;
  max_concurrent : Z;
  requires_mobile_ua : bool;
  requires_referer : bool
}.

(** The default of the field [user_agents]. *)
Definition default_user_agents : list string :=
  [ "Mozilla/5.0 (Windows NT 10.0; Win64; x64) AppleWebKit/537.36 (KHTML, like Gecko) Chrome/91.0.4472.124 Safari/537.36";
    "Mozilla/5.0 (Macintosh; Intel Mac OS X 10_15_7) AppleWebKit/537.36 (KHTML, like Gecko) Chrome/91.0.4472.124 Safari/537.36";
    "Mozilla/5.0 (X11; Linux x86_64) AppleWebKit/537.36 (KHTML, like Gecko) Chrome/91.0.4472.124 Safari/537.36" ].

Definition mobile_user_agent : string :=
  "Mozilla/5.0 (iPhone; CPU iPhone OS 14_7_1 like Mac OS X) AppleWebKit/605.1.15 (KHTML, like Gecko) Version/14.1.2 Mobile/15E148 Safari/604.1".

(** [get_request_interval]: [random.uniform(a, b)] is
    [a + (b - a) * random()]; [u] is the draw of [random()]. *)
Definition get_request_interval (s : t) (u : Q) : Q :=
  (min_interval s + (max_interval s - min_interval s) * u)%Q.

Section WithLib.
Context {lib : Urllib.Lib}.

(** [get_headers(url)]; [draw] is the random number behind the choice
    of the agent, which is made whether or not it is kept. *)
Definition get_headers (s : t) (url : string) (draw : nat)
  : outcome (list (string * string)) :=
  match Py.choice (user_agents s) draw with
  | None => Raises (Exn IndexErrorExc "Cannot choose from an empty sequence")
  | Some agent =>
      let headers :=
        [ ("User-Agent", agent);
          ("Accept", "text/html,application/xhtml+xml,application/xml;q=0.9,image/webp,*/*;q=0.8");
          ("Accept-Language", "zh-CN,zh;q=0.9,en;q=0.8");
          ("Accept-Encoding", "gzip, deflate, br");
          ("DNT", "1");
          ("Connection", "keep-alive");
          ("Upgrade-Insecure-Requests", "1") ] in
      let with_referer :=
        if requires_referer s && PyStr.nonempty url
        then
          match Urllib.urlparse url with
          | None => Raises (Exn ValueErrorExc "Invalid URL")
          | Some parsed =>
              Returns
                (PyDict.set "Referer"
                   (Urllib.scheme parsed ++ "://" ++ Urllib.netloc parsed ++ "/")
                   headers)
          end
        else Returns headers in
      match with_referer with
      | Raises e => Raises e
      | Returns headers =>
          let headers :=
            if requires_mobile_ua s
            then PyDict.set "User-Agent" mobile_user_agent headers
            else headers in
          Returns (Py.update (extra_headers s) headers)
      end
  end.

End WithLib.

End PlatformStrategy.

Module PlatformStrategyManager.
Import Net.

Record t := Manager {
  _strategies : gmap string PlatformStrategy.t;
  _last_request_times : gmap string Q
}.

(** The four strategies of [_init_default_strategies]. *)
Definition douyin : PlatformStrategy.t :=
  PlatformStrategy.Strategy "douyin" 6 10 2 3
    PlatformStrategy.default_user_agents
    [ ("Accept", "text/html,application/xhtml+xml,application/xml;q=0.9,image/webp,image/apng,*/*;q=0.8");
      ("Cache-Control", "max-age=0") ]
    10 30 2 true true.
Definition xiaohongshu : PlatformStrategy.t :=
  PlatformStrategy.Strategy "xiaohongshu" 4 7 3 2
    PlatformStrategy.default_user_agents
    [ ("Accept", "text/html,application/xhtml+xml,application/xml;q=0.9,*/*;q=0.8");
      ("Sec-Fetch-Dest", "document");
      ("Sec-Fetch-Mode", "navigate");
      ("Sec-Fetch-Site", "none") ]
    10 30 2 false true.
Definition zhihu : PlatformStrategy.t :=
  PlatformStrategy.Strategy "zhihu" 2 4 3 (3 # 2)
    PlatformStrategy.default_user_agents
    [ ("Accept", "text/html,application/xhtml+xml,application/xml;q=0.9,*/*;q=0.8") ]
    10 30 3 false false.
Definition default_strategy : PlatformStrategy.t :=
  PlatformStrategy.Strategy "default" 3 5 3 2
    PlatformStrategy.default_user_agents [] 10 30 2 false false.

(** [__init__] *)
Definition init : t :=
  Manager
    (<["default" := default_strategy]>
       (<["zhihu" := zhihu]>
          (<["xiaohongshu" := xiaohongshu]> {["douyin" := douyin]})))
    ∅.

Definition detect_platform (url : string) : string :=
  let url_lower := PyStr.lower url in
  if PyStr.contains "douyin.com" url_lower
     || PyStr.contains "iesdouyin.com" url_lower then "douyin"
  else if PyStr.contains "xiaohongshu.com" url_lower
          || PyStr.contains "xhs.com" url_lower then "xiaohongshu"
  else if PyStr.contains "zhihu.com" url_lower then "zhihu"
  else "default".

(** [get_strategy]; [self._strategies["default"]] is evaluated first
    and raises [KeyError], here [None], when that key is missing. *)
Definition get_strategy (m : t) (url_or_platform : string)
  : option PlatformStrategy.t :=
  let platform :=
    if present (_strategies m !! url_or_platform) then url_or_platform
    else detect_platform url_or_platform in
  match _strategies m !! "default" with
  | None => None
  | Some d => Some (default d (_strategies m !! platform))
  end.

Definition stamp (m : t) (platform : string) (now : Q) : t :=
  Manager (_strategies m) (<[platform := now]> (_last_request_times m)).

(** The check of [wait_if_needed]: the time to sleep, if any; [u] is
    the random draw of the interval. *)
Definition required_wait (m : t) (s : PlatformStrategy.t)
           (platform : string) (now u : Q) : option Q :=
  let last_time := default 0%Q (_last_request_times m !! platform) in
  let time_since_last := (now - last_time)%Q in
  let required_interval := PlatformStrategy.get_request_interval s u in
  if SafeRequester.Qltb time_since_last required_interval
  then Some (required_interval - time_since_last)%Q
  else None.

(** [wait_if_needed(url)] run without interruption from time [now]:
    the manager and the clock afterwards, and the events. *)
Definition wait_if_needed (m : t) (now u : Q) (url : string)
  : option (t * Q * list event) :=
  let platform := detect_platform url in
  match get_strategy m platform with
  | None => None
  | Some strategy =>
      let w := required_wait m strategy platform now u in
      let now := SafeRequester.after_sleep now w in
      Some (stamp m platform now, now,
            (SafeRequester.sleep_events w ++ [Stamp platform now])%list)
  end.

(** [add_custom_strategy] *)
Definition add_custom_strategy (m : t) (platform : string)
           (s : PlatformStrategy.t) : t :=
  Manager (<[platform := s]> (_strategies m)) (_last_request_times m).

End PlatformStrategyManager.

(** ** [AsyncSafeRequester] *)

Module AsyncSafeRequester.
Import Net.

Record t := AsyncRequester {
  max_concurrent : Z;
  (** whether [__aenter__] has opened the session *)
  session : bool
}.

(** What [session.get(url)] of aiohttp does on the network, with the
    reading of the body: the URLs of the requests it puts on the wire,
    in order (none when no connection is made, more than one when it
    follows a redirection or sends the request again after the server
    has dropped the connection), how it ends, and the time it takes. *)
Record call := Call {
  requested : list string;
  result : outcome response;
  took : Q
}.

Section WithLib.
Context {lib : Urllib.Lib}.

(** [get(url)] of a request that holds a slot of the semaphore and runs
    without interruption from time [now]; [u] and [draw] are the random
    draws of the pacer and of the headers.  The pacing and the headers
    of the strategy come before the [try]: what they raise reaches the
    caller, the exception of the headers after the pacer has stamped
    the platform.  Whatever the request raises is logged and turned
    into [None]. *)
Definition get (rq : t) (m : PlatformStrategyManager.t) (now u : Q)
           (draw : nat) (url : string) (a : call)
  : outcome (option response) * PlatformStrategyManager.t * Q * list event :=
  if negb (session rq)
  then (Raises (Exn RuntimeErrorExc "not inside async with"), m, now, [])
  else
    match PlatformStrategyManager.wait_if_needed m now u url with
    | None => (Raises (Exn KeyErrorExc "default"), m, now, [])
    | Some (m', now', evs) =>
        match PlatformStrategyManager.get_strategy m' url with
        | None => (Raises (Exn KeyErrorExc "default"), m', now', evs)
        | Some strategy =>
            match PlatformStrategy.get_headers strategy url draw with
            | Raises e => (Raises e, m', now', evs)
            | Returns headers =>
                let evs := (evs ++ map Send (requested a))%list in
                match result a with
                | Returns response =>
                    (Returns (Some response), m', (now' + took a)%Q, evs)
                | Raises _ => (Returns None, m', (now' + took a)%Q, evs)
                end
            end
        end
    end.

End WithLib.

End AsyncSafeRequester.

(** ** The batch drivers *)

Module Batch.

(** A result slot: what the unit's processor returned, or the record
    [{"status": "error", "message": ..., "url": ...}]. *)
Inductive slot (A : Type) :=
| Value (a : A)
| ErrorRecord (message url : string).

Arguments Value {A} a.
Arguments ErrorRecord {A} message url.

Definition is_error {A} (x : slot A) : bool :=
  match x with
  | ErrorRecord _ _ => true
  | Value _ => false
  end.

(** The slot of a unit whose processor ended as [o]: its result, or
    the error record with [str(e)] and the unit's URL. *)
Definition slot_of {A} (url : string) (o : outcome A) : slot A :=
  match o with
  | Returns result => Value result
  | Raises e => ErrorRecord (exn_str e) url
  end.

(** The counters a caller reads off the result list. *)
Definition failed {A} (l : list (slot A)) : nat :=
  length (List.filter is_error l).

Definition succeeded {A} (l : list (slot A)) : nat :=
  length (List.filter (fun x => negb (is_error x)) l).

(** What a run of the sequential driver does, in order. *)
Inductive event :=
| Call (url : string)
| Pause (d : Q).

Definition is_call (e : event) : bool :=
  match e with Call _ => true | Pause _ => false end.

(** [range(0, stop, step)] for a positive [step], from [i] on. *)
Fixpoint range_from (fuel : nat) (i stop step : Z) : list Z :=
  match fuel with
  | O => []
  | S f => if i <? stop then i :: range_from f (i + step) stop step else []
  end.

(** [range(0, stop, step)] with [0 <= stop] and [step] not zero; a
    negative step gives the empty range. *)
Definition range0 (stop step : Z) : list Z :=
  if 0 <? step then range_from (Z.to_nat stop) 0 stop step else [].

Section Sequential.
Context {S A : Type}.

(** The processor of one URL, which may use and change a state of its
    own. *)
Variable processor_func : string -> S -> outcome A * S.

(** The inner loop: [for url in batch_urls]. *)
Fixpoint process_batch (batch_urls : list string) (s : S)
  : list (slot A) * S * list event :=
  match batch_urls with
  | [] => ([], s, [])
  | url :: rest =>
      let '(o, s) := processor_func url s in
      let '(batch_results, s, evs) := process_batch rest s in
      (slot_of url o :: batch_results, s, Call url :: evs)
  end.

(** The states in which the units of a list start, one after the
    other. *)
Fixpoint start_states (urls : list string) (s : S) : list S :=
  match urls with
  | [] => []
  | url :: rest => s :: start_states rest (snd (processor_func url s))
  end.

(** The outer loop: [for i in range(0, len(urls), batch_size)], with
    the results and the events so far.  [time.sleep] raises
    [ValueError] on a negative delay. *)
Fixpoint run_batches (urls : list string) (batch_size : Z)
         (batch_delay : Q) (starts : list Z) (results : list (slot A))
         (s : S) (log : list event)
  : outcome (list (slot A)) * S * list event :=
  match starts with
  | [] => (Returns results, s, log)
  | i :: rest =>
      let batch_urls :=
        firstn (Z.to_nat batch_size) (skipn (Z.to_nat i) urls) in
      let '(batch_results, s, evs) := process_batch batch_urls s in
      let results := (results ++ batch_results)%list in
      let log := (log ++ evs)%list in
      if i + batch_size <? Z.of_nat (length urls) then
        if SafeRequester.Qltb batch_delay 0
        then (Raises (Exn ValueErrorExc "sleep length must be non-negative"),
              s, log)
        else run_batches urls batch_size batch_delay rest results s
                         (log ++ [Pause batch_delay])%list
      else run_batches urls batch_size batch_delay rest results s log
  end.

(** [batch_process_urls]; the count of batches divides by
    [batch_size]. *)
Definition batch_process_urls (urls : list string) (batch_size : Z)
           (batch_delay : Q) (s : S)
  : outcome (list (slot A)) * S * list event :=
  if batch_size =? 0
  then (Raises (Exn ZeroDivisionErrorExc "integer division or modulo by zero"),
        s, [])
  else run_batches urls batch_size batch_delay
                   (range0 (Z.of_nat (length urls)) batch_size) [] s [].

End Sequential.

(** The two places where a unit reports its progress. *)
Inductive phase := Started | Finished.

(** How a call of the cooperative driver ends: with the result list,
    with an exception, or never, when no task can take the semaphore. *)
Inductive async_outcome (A : Type) :=
| Completed (results : list (slot A))
| Aborted (e : exn)
| Never.

Arguments Completed {A} results.
Arguments Aborted {A} e.
Arguments Never {A}.

(** The results that are instances of [Exception]: [exception_str a]
    is [str(a)] for such a value, and [None] for every other. *)
Class PyValue (A : Type) := { exception_str : A -> option string }.

Section Cooperative.
Context {A : Type} {pv : PyValue A}.

(** How [await processor_func(url)] of task [index] ends.  The tasks
    interleave at their suspension points; whatever the interleaving,
    each call ends by returning or raising, which is all the driver
    sees. *)
Variable processor_func : nat -> string -> outcome A.

(** [progress_callback(message, current, total)], when given: the
    exception it raises, if any. *)
Variable progress_callback : option (phase -> string -> Z -> Z -> option exn).

Definition report (p : phase) (url : string) (current total : Z)
  : option exn :=
  match progress_callback with
  | None => None
  | Some cb => cb p url current total
  end.

(** [process_single_url(url, index)] *)
Definition process_single_url (total : Z) (url : string) (index : nat)
  : outcome (slot A) :=
  let caught (e : exn) := Returns (ErrorRecord (exn_str e) url) in
  match report Started url (Z.of_nat index) total with
  | Some e => caught e
  | None =>
      match processor_func index url with
      | Raises e => caught e
      | Returns result =>
          match report Finished url (Z.of_nat index + 1) total with
          | Some e => caught e
          | None => Returns (Value result)
          end
      end
  end.

(** [isinstance(result, Exception)] on what [gather] hands back for a
    task, with [str(result)]: the exception that the task raised, or a
    value that the task returned and that is itself an exception.  The
    error record of [process_single_url] is a dict. *)
Definition exception_message (result : outcome (slot A)) : option string :=
  match result with
  | Raises e => Some (exn_str e)
  | Returns (Value a) => exception_str a
  | Returns (ErrorRecord _ _) => None
  end.

(** The loop over [enumerate(results)] after [gather]: a result that is
    an exception is replaced by the error record of the URL at its
    index; [urls[i]] raises [IndexError] out of range. *)
Fixpoint collect (urls : list string) (i : nat)
         (results : list (outcome (slot A))) (acc : list (slot A))
  : outcome (list (slot A)) :=
  match results with
  | [] => Returns acc
  | result :: rest =>
      match exception_message result, result with
      | Some message, _ =>
          match urls !! i with
          | Some url =>
              collect urls (S i) rest (acc ++ [ErrorRecord message url])%list
          | None => Raises (Exn IndexErrorExc "list index out of range")
          end
      | None, Returns x => collect urls (S i) rest (acc ++ [x])%list
      | None, Raises e => Raises e
      end
  end.

(** [async_batch_process_urls].  [asyncio.Semaphore] refuses a
    negative value; with the value zero no task ever enters, and
    [gather] of at least one task does not finish.  [gather] gives the
    tasks' results in the order of the tasks. *)
Definition async_batch_process_urls (urls : list string)
           (max_concurrent : Z) : async_outcome A :=
  if max_concurrent <? 0
  then Aborted (Exn ValueErrorExc "Semaphore initial value must be >= 0")
  else if (max_concurrent =? 0) && negb (Nat.eqb (length urls) 0)
  then Never
  else
    let total := Z.of_nat (length urls) in
    let results := imap (fun i url => process_single_url total url i) urls in
    match collect urls 0 results [] with
    | Returns processed_results => Completed processed_results
    | Raises e => Aborted e
    end.

End Cooperative.

End Batch.

(** ** The cooperative pacer under interleaving

    [wait_if_needed] is a coroutine: it runs without interruption up to
    [await asyncio.sleep(wait_time)], where it gives the event loop to
    the other tasks, and again from its wake-up to its end.  A task is
    therefore one or two atomic steps. *)

Module Coop.
Import PlatformStrategyManager.

Inductive task :=
| Ready (url : string)
| Sleeping (platform : string) (last_time : Q) (time_since_last : Q)
           (wake : Q)
| Proceeded (platform : string) (last_time : Q) (time_since_last : Q)
            (waited : bool) (at_time : Q).

(** What the tasks do to the record of a platform. *)
Inductive access :=
| Checked (i : nat) (platform : string)
| Updated (i : nat) (platform : string).

Record state := State {
  manager : PlatformStrategyManager.t;
  clock : Q;
  tasks : list task;
  history : list access
}.

(** The event loop runs task [i] from its start, at time [t] and with
    the random draw [u], or resumes it from its sleep at time [t]. *)
Inductive action :=
| Start (i : nat) (t u : Q)
| Wake (i : nat) (t : Q).

(** One atomic step; [None] when the action is not enabled: the task is
    not in the right state, time would run backwards, or the sleep is
    not over. *)
Definition step (st : state) (a : action) : option state :=
  match a with
  | Start i t u =>
      match tasks st !! i with
      | Some (Ready url) =>
          if negb (Qle_bool (clock st) t) then None else
          let platform := detect_platform url in
          match get_strategy (manager st) platform with
          | None => None
          | Some strategy =>
              let last_time :=
                default 0%Q (_last_request_times (manager st) !! platform) in
              match required_wait (manager st) strategy platform t u with
              | Some w =>
                  Some (State (manager st) t
                          (<[i := Sleeping platform last_time (t - last_time)%Q
                                           (t + w)%Q]> (tasks st))
                          (history st ++ [Checked i platform])%list)
              | None =>
                  Some (State (stamp (manager st) platform t) t
                          (<[i := Proceeded platform last_time
                                            (t - last_time)%Q false t]>
                             (tasks st))
                          (history st
                           ++ [Checked i platform; Updated i platform])%list)
              end
          end
      | _ => None
      end
  | Wake i t =>
      match tasks st !! i with
      | Some (Sleeping platform last_time since wake) =>
          if negb (Qle_bool (clock st) t && Qle_bool wake t) then None else
          Some (State (stamp (manager st) platform t) t
                  (<[i := Proceeded platform last_time since true t]>
                     (tasks st))
                  (history st ++ [Updated i platform])%list)
      | _ => None
      end
  end.

(** A schedule is run step by step. *)
Fixpoint run (st : state) (schedule : list action) : option state :=
  match schedule with
  | [] => Some st
  | a :: rest =>
      match step st a with
      | None => None
      | Some st' => run st' rest
      end
  end.

Definition same_access (x y : nat * string) : bool :=
  Nat.eqb (fst x) (fst y) && String.eqb (snd x) (snd y).

(** Whether every check-and-update of a history is an exclusive
    section: while a task is between its check and its update of a
    platform's record, no other task checks or updates that record.
    [open] lists the tasks that are in their section. *)
Fixpoint exclusive_from (open : list (nat * string)) (h : list access)
  : bool :=
  match h with
  | [] => true
  | Checked i p :: rest =>
      if existsb (fun x => String.eqb (snd x) p && negb (Nat.eqb (fst x) i))
                 open
      then false
      else exclusive_from ((i, p) :: open) rest
  | Updated i p :: rest =>
      if existsb (fun x => String.eqb (snd x) p && negb (Nat.eqb (fst x) i))
                 open
      then false
      else exclusive_from
             (List.filter (fun x => negb (same_access x (i, p))) open) rest
  end.

Definition exclusive (h : list access) : bool := exclusive_from [] h.

(** Whether a task has been suspended in its sleep. *)
Definition suspended (tk : task) : bool :=
  match tk with
  | Ready _ => false
  | Sleeping _ _ _ _ => true
  | Proceeded _ _ _ waited _ => waited
  end.

(** The history of tasks that check and update one after the other. *)
Definition in_turn (l : list (nat * string)) : list access :=
  flat_map (fun x => [Checked (fst x) (snd x); Updated (fst x) (snd x)]) l.

Definition start_state (m : PlatformStrategyManager.t) (now : Q)
           (urls : list string) : state :=
  State m now (map Ready urls) [].

End Coop.

(** ** Sample data *)

Module Examples.
Import DocumentCache Net.

Definition lib : Urllib.Lib := Urllib.plain_lib.

(** An operating system that lets every file be deleted, and one that
    lets none; both list a directory by the lengths of its names. *)
Definition os : Os :=
  {| unlink_raises := fun _ => false; scandir_position := String.length |}.
Definition stuck_os : Os :=
  {| unlink_raises := fun _ => true; scandir_position := String.length |}.

(** Every cache file weighs a hundred bytes. *)
Definition dump (d : @cache_data string) : Z := 100.

(** An empty cache whose entries live a day, and one whose entries
    live a second. *)
Definition day_cache : @t string := Cache 24 500 [] ∅.
Definition second_cache : @t string := Cache (1 # 3600) 500 [] ∅.

Definition old_url : string := "https://a.example/old".
Definition old_hash : string := "aaeab3363bf4ef8eb452441e4e2a602a".
Definition new_url : string := "https://a.example/new".
Definition new_hash : string := "f5c75db177ad444bcf6dbf26c0392af5".

(** A cache with room for about a hundred bytes that holds one entry,
    cached at time 0. *)
Definition small_cache : @t string :=
  Cache 24 (1 # 10000)
        [(old_hash, Entry (Some old_url) (Some old_hash) (Some 0%Q) (Some 100))]
        {[ _get_cache_file_path old_hash
           := File 100 (Some (CacheData old_url old_hash 0%Q "old payload")) ]}.


(** A cache whose index holds an empty entry for
    [https://a.example/x], as an index file written by hand may. *)
Definition hollow_cache : @t string :=
  Cache 24 500
        [("c565384b205789329e48af200d0aeb30", Entry None None None None)]
        ∅.

(** A requester with two retries that has sent nothing yet. *)
Definition requester : SafeRequester.t := SafeRequester.Requester 1 2 ∅.

(** A server that answers every attempt with the same status, after a
    second; one that lets every attempt time out while connecting,
    which [requests] reports as a timeout when it gives up. *)
Definition always (status : Z) : nat -> attempt :=
  fun _ => Answered (Response status false "") 1.
Definition timing_out : nat -> attempt :=
  fun _ => Failed (Exn TimeoutExc "timed out") 1.

(** A server whose first attempt times out while connecting and that
    answers the following ones with a 404. *)
Definition late_404 : nat -> attempt :=
  fun i => match i with
           | O => Failed (Exn TimeoutExc "timed out") 1
           | _ => Answered (Response 404 false "") 1
           end.



(** A [str] is no exception. *)
Definition plain_text : Batch.PyValue string :=
  {| Batch.exception_str := fun _ => None |}.

(** Processors that raise on the third of five URLs. *)
Definition five_urls : list string := [ "u1"; "u2"; "u3"; "u4"; "u5" ].

Definition third_raises (url : string) (s : unit) : outcome string * unit :=
  if String.eqb url "u3"
  then (Raises (Exn OtherException "boom"), s)
  else (Returns url, s).

Definition third_task_raises (i : nat) (url : string) : outcome string :=
  if Nat.eqb i 2 then Raises (Exn OtherException "boom") else Returns url.

(** Two requests to one host that both start before either is resumed. *)
Definition overlapping : list Coop.action :=
  [ Coop.Start 0 1 0; Coop.Start 1 1 0; Coop.Wake 0 3; Coop.Wake 1 3 ].

(** One request at a time, none of which has to wait. *)
Definition spaced : list Coop.action :=
  [ Coop.Start 0 10 0; Coop.Start 1 20 0 ].

Definition two_requests : Coop.state :=
  Coop.start_state PlatformStrategyManager.init 1
                   [ "https://a.example/1"; "https://a.example/2" ].

End Examples.

(** ** [DocumentCache.get_cache_stats] *)

Module CacheStats.
Import DocumentCache.

Section Stats.
Context {R : Type}.

(** [round(x, 2)] of a float, taken as given. *)
Variable round2 : Q -> Q.

(** The dict that [get_cache_stats] returns, without its [cache_dir],
    the name of the directory, which the model of the cache does not
    carry. *)
Record stats := Stats {
  total_entries : Z;
  valid_entries : Z;
  expired_entries : Z;
  cache_size_mb : Q;
  max_cache_size_mb : Q;
  expiry_hours : Q
}.

(** [get_cache_stats]; [_is_cache_valid] reads the clock anew for
    every entry, and [clock i] is what [time.time()] answers while
    entry [i] of the index is examined. *)
Definition get_cache_stats (c : @t R) (clock : nat -> Q) : stats :=
  let total_entries := Z.of_nat (length (entries c)) in
  let cache_size_mb := _get_cache_size_mb c in
  let valid_entries :=
    Z.of_nat
      (length
         (List.filter (fun valid : bool => valid)
            (imap (fun i kv => _is_cache_valid c (clock i) (Some (snd kv)))
                  (entries c)))) in
  {| total_entries := total_entries;
     valid_entries := valid_entries;
     expired_entries := total_entries - valid_entries;
     cache_size_mb := round2 cache_size_mb;
     max_cache_size_mb := DocumentCache.max_cache_size_mb c;
     expiry_hours := cache_expiry_hours c |}.

(** The test of [cleanup_expired] on an entry of the index. *)
Definition expired (c : @t R) (now : Q) (kv : string * entry) : bool :=
  Qgtb (now - cached_at_key kv)%Q (cache_expiry_seconds c).

(** Every entry of the index carries the key it is filed under, as the
    entries that [save_result] writes do. *)
Definition well_keyed (c : @t R) : Prop :=
  forall url_hash e,
    In (url_hash, e) (entries c) -> e_url_hash e = Some url_hash.

(** The state of a cache that only its own operations have touched. *)
Definition sound (c : @t R) : Prop := consistent c /\ well_keyed c.

End Stats.

End CacheStats.

(** ** The rest of [SafeRequester] *)

Module Crawler.
Import Net SafeRequester.

Definition user_agents : list string :=
  [ "Mozilla/5.0 (Windows NT 10.0; Win64; x64) AppleWebKit/537.36 (KHTML, like Gecko) Chrome/122.0.0.0 Safari/537.36";
    "Mozilla/5.0 (Windows NT 10.0; Win64; x64) AppleWebKit/537.36 (KHTML, like Gecko) Chrome/121.0.0.0 Safari/537.36";
    "Mozilla/5.0 (Windows NT 10.0; Win64; x64) AppleWebKit/537.36 (KHTML, like Gecko) Chrome/120.0.0.0 Safari/537.36";
    "Mozilla/5.0 (Macintosh; Intel Mac OS X 10_15_7) AppleWebKit/537.36 (KHTML, like Gecko) Chrome/122.0.0.0 Safari/537.36";
    "Mozilla/5.0 (Macintosh; Intel Mac OS X 10_15_7) AppleWebKit/537.36 (KHTML, like Gecko) Chrome/121.0.0.0 Safari/537.36";
    "Mozilla/5.0 (Windows NT 10.0; Win64; x64; rv:124.0) Gecko/20100101 Firefox/124.0";
    "Mozilla/5.0 (Windows NT 10.0; Win64; x64; rv:123.0) Gecko/20100101 Firefox/123.0";
    "Mozilla/5.0 (Macintosh; Intel Mac OS X 10.15; rv:124.0) Gecko/20100101 Firefox/124.0";
    "Mozilla/5.0 (Macintosh; Intel Mac OS X 10_15_7) AppleWebKit/605.1.15 (KHTML, like Gecko) Version/17.4 Safari/605.1.15";
    "Mozilla/5.0 (Macintosh; Intel Mac OS X 10_15_7) AppleWebKit/605.1.15 (KHTML, like Gecko) Version/17.3 Safari/605.1.15";
    "Mozilla/5.0 (Windows NT 10.0; Win64; x64) AppleWebKit/537.36 (KHTML, like Gecko) Chrome/122.0.0.0 Safari/537.36 Edg/122.0.0.0";
    "Mozilla/5.0 (Windows NT 10.0; Win64; x64) AppleWebKit/537.36 (KHTML, like Gecko) Chrome/121.0.0.0 Safari/537.36 Edg/121.0.0.0" ].

Definition mobile_user_agents : list string :=
  [ "Mozilla/5.0 (iPhone; CPU iPhone OS 17_4 like Mac OS X) AppleWebKit/605.1.15 (KHTML, like Gecko) Version/17.4 Mobile/15E148 Safari/604.1";
    "Mozilla/5.0 (iPhone; CPU iPhone OS 17_3 like Mac OS X) AppleWebKit/605.1.15 (KHTML, like Gecko) Version/17.3 Mobile/15E148 Safari/604.1";
    "Mozilla/5.0 (iPhone; CPU iPhone OS 16_7 like Mac OS X) AppleWebKit/605.1.15 (KHTML, like Gecko) Version/16.6 Mobile/15E148 Safari/604.1";
    "Mozilla/5.0 (Linux; Android 14; SM-G998B) AppleWebKit/537.36 (KHTML, like Gecko) Chrome/122.0.0.0 Mobile Safari/537.36";
    "Mozilla/5.0 (Linux; Android 13; Pixel 7) AppleWebKit/537.36 (KHTML, like Gecko) Chrome/122.0.0.0 Mobile Safari/537.36";
    "Mozilla/5.0 (Linux; Android 12; SM-G991B) AppleWebKit/537.36 (KHTML, like Gecko) Chrome/121.0.0.0 Mobile Safari/537.36";
    "Mozilla/5.0 (Linux; Android 13; SM-G998B) AppleWebKit/537.36 (KHTML, like Gecko) Version/4.0 Chrome/122.0.0.0 Mobile Safari/537.36";
    "Mozilla/5.0 (iPhone; CPU iPhone OS 17_4 like Mac OS X) AppleWebKit/605.1.15 (KHTML, like Gecko) Mobile/15E148" ].

(** [self.platform_user_agents], in the order of the dict. *)
Definition platform_user_agents : list (string * list string) :=
  [ ("douyin.com", mobile_user_agents);
    ("v.douyin.com", mobile_user_agents);
    ("xiaohongshu.com", (mobile_user_agents ++ firstn 3 user_agents)%list);
    ("zhihu.com", user_agents);
    ("bilibili.com", user_agents) ].

Section WithLib.
Context {lib : Urllib.Lib}.

(** [_get_platform_specific_user_agent]: the agents of the first
    platform whose domain occurs in the URL's, or the desktop ones. *)
Definition _get_platform_specific_user_agent (url : string) (draw : nat)
  : outcome string :=
  match _get_domain url with
  | None => Raises (Exn ValueErrorExc "Invalid URL")
  | Some domain =>
      let agents :=
        match List.find (fun pa => PyStr.contains (fst pa) domain)
                        platform_user_agents with
        | Some (_, agents) => agents
        | None => user_agents
        end in
      match Py.choice agents draw with
      | Some agent => Returns agent
      | None => Raises (Exn IndexErrorExc "Cannot choose from an empty sequence")
      end
  end.

Definition _get_platform_specific_headers (url : string)
  : outcome (list (string * string)) :=
  match _get_domain url with
  | None => Raises (Exn ValueErrorExc "Invalid URL")
  | Some domain =>
      Returns
        (if PyStr.contains "douyin.com" domain then
           Py.update
             [ ("Referer", "https://www.douyin.com/");
               ("Sec-Fetch-Site", "same-origin");
               ("Accept", "text/html,application/xhtml+xml,application/xml;q=0.9,image/webp,image/apng,*/*;q=0.8,application/signed-exchange;v=b3;q=0.7") ]
             []
         else if PyStr.contains "xiaohongshu.com" domain then
           Py.update
             [ ("Referer", "https://www.xiaohongshu.com/");
               ("Sec-Fetch-Site", "same-origin");
               ("Accept", "text/html,application/xhtml+xml,application/xml;q=0.9,*/*;q=0.8") ]
             []
         else if PyStr.contains "zhihu.com" domain then
           Py.update
             [ ("Referer", "https://www.zhihu.com/");
               ("Sec-Fetch-Site", "same-origin") ]
             []
         else if PyStr.contains "bilibili.com" domain then
           Py.update
             [ ("Referer", "https://www.bilibili.com/");
               ("Sec-Fetch-Site", "same-origin") ]
             []
         else [])
  end.

(** The [headers] that [get] hands to [session.get]: the caller's
    [headers] (the empty dict when none is given), in which the agent
    drawn for the platform is written under [User-Agent], and then the
    headers of the platform. *)
Definition request_headers (url : string) (headers : list (string * string))
           (draw : nat) : outcome (list (string * string)) :=
  match _get_platform_specific_user_agent url draw with
  | Raises e => Raises e
  | Returns agent =>
      let request_headers := PyDict.set "User-Agent" agent headers in
      match _get_platform_specific_headers url with
      | Raises e => Raises e
      | Returns platform_headers =>
          Returns (Py.update platform_headers request_headers)
      end
  end.

(** [head(url)], the network answering [session.head] as [ep]; it
    sets no headers of its own. *)
Definition head (rq : t) (now : Q) (url : string) (ep : endpoint)
  : outcome (option response) * t * Q * list event :=
  match _get_domain url with
  | None => (Raises (Exn ValueErrorExc "Invalid URL"), rq, now, [])
  | Some domain =>
      let w := _wait_if_needed rq now domain in
      let now := after_sleep now w in
      let '(o, attempts, took) := session_get (retry_strategy rq) ep in
      let now := (now + took)%Q in
      let sent := repeat (Send url) attempts in
      match o with
      | Returns response =>
          (Returns (Some response),
           _update_last_request_time rq domain now, now,
           (sleep_events w ++ sent ++ [Stamp domain now])%list)
      | Raises _ =>
          (Returns None, rq, now, (sleep_events w ++ sent)%list)
      end
  end.

(** [get_with_enhanced_protection(url)]: what the session raises is
    logged and raised again. *)
Definition get_with_enhanced_protection (rq : t) (now : Q) (url : string)
           (ep : endpoint) : outcome response * t * Q * list event :=
  match _get_domain url with
  | None => (Raises (Exn ValueErrorExc "Invalid URL"), rq, now, [])
  | Some domain =>
      let w := _wait_if_needed rq now domain in
      let now := after_sleep now w in
      let '(o, attempts, took) := session_get (retry_strategy rq) ep in
      let now := (now + took)%Q in
      let sent := repeat (Send url) attempts in
      match o with
      | Returns response =>
          (Returns response,
           _update_last_request_time rq domain now, now,
           (sleep_events w ++ sent ++ [Stamp domain now])%list)
      | Raises e =>
          (Raises e, rq, now, (sleep_events w ++ sent)%list)
      end
  end.

(** The three ways of sending a request, and what they have in common:
    the response, if one came back, the requester and the clock
    afterwards, and the events. *)
Inductive method := GET | HEAD | GET_ENHANCED.

Definition request (m : method) (rq : t) (now : Q) (url : string)
           (ep : endpoint) : option response * t * Q * list event :=
  match m with
  | GET =>
      let '(o, rq', now', evs) := get rq now url ep in
      (match o with Returns r => r | Raises _ => None end, rq', now', evs)
  | HEAD =>
      let '(o, rq', now', evs) := head rq now url ep in
      (match o with Returns r => r | Raises _ => None end, rq', now', evs)
  | GET_ENHANCED =>
      let '(o, rq', now', evs) := get_with_enhanced_protection rq now url ep in
      (match o with Returns r => Some r | Raises _ => None end, rq', now', evs)
  end.

End WithLib.

(** [_simulate_user_behavior]: the time to sleep, if any; [u] is the
    random draw of the delay. *)
Definition _simulate_user_behavior (rq : t) (now : Q) (domain : string)
           (u : Q) : option Q :=
  match last_request_time rq !! domain with
  | Some last =>
      let base_delay := Py.max (min_delay rq) (3 # 2) in
      let random_delay := (base_delay + Py.uniform 0 (5 # 2) u)%Q in
      let elapsed := (now - last)%Q in
      if Qltb elapsed random_delay
      then Some (random_delay - elapsed)%Q
      else None
  | None => None
  end.

(** A requester together with its [domain_cookies]; a cookie jar is
    the list of its cookies. *)
Record session_state := SessionState {
  requester : t;
  domain_cookies : gmap string (list (string * string))
}.

(** [_has_valid_session]: a jar is true when it holds a cookie. *)
Definition _has_valid_session (s : session_state) (domain : string) : bool :=
  match domain_cookies s !! domain with
  | Some jar => negb (Nat.eqb (length jar) 0)
  | None => false
  end.

Section Session.
(** [response.cookies] *)
Variable cookies : response -> list (string * string).

(** [_establish_session(domain)] at time [now], the network answering
    the request for the main page as [ep]; [u] is the random draw of
    the pause.  Whatever is raised inside is logged and dropped. *)
Definition _establish_session (s : session_state) (now : Q) (domain : string)
           (u : Q) (ep : endpoint) : session_state * Q * list event :=
  if PyStr.contains "douyin.com" domain then
    let main_page_url := "https://www.douyin.com/" in
    let '(o, attempts, took) :=
      session_get (retry_strategy (requester s)) ep in
    let now := (now + took)%Q in
    let sent := repeat (Send main_page_url) attempts in
    match o with
    | Returns response =>
        if status_code response =? 200 then
          let s' :=
            SessionState (requester s)
                         (<[domain := cookies response]> (domain_cookies s)) in
          let pause := Py.uniform 1 3 u in
          if Qltb pause 0 then (s', now, sent)
          else (s', (now + pause)%Q, (sent ++ [Sleep pause])%list)
        else (s, now, sent)
    | Raises _ => (s, now, sent)
    end
  else (s, now, []).

End Session.

End Crawler.

(** ** The managers that the operations reach *)

Module Reach.
Import PlatformStrategyManager.

(** The managers that [__init__], [add_custom_strategy] and
    [wait_if_needed] produce. *)
Inductive reachable : t -> Prop :=
| reach_init : reachable init
| reach_add m platform s :
    reachable m -> reachable (add_custom_strategy m platform s)
| reach_wait m now u url m' now' evs :
    reachable m ->
    wait_if_needed m now u url = Some (m', now', evs) ->
    reachable m'.

(** The names that [detect_platform] answers. *)
Definition platforms : list string :=
  [ "douyin"; "xiaohongshu"; "zhihu"; "default" ].

End Reach.

(** ** More sample data *)

Module Samples.
Import DocumentCache Net.

(** Rounding to hundredths, downwards; the rounding has no part in
    what is shown about the counts. *)
Definition round_down2 (x : Q) : Q :=
  (inject_Z (Qnum (x * 100) / Zpos (Qden (x * 100))) / 100)%Q.

(** An empty cache with room for some ten bytes. *)
Definition tiny_cache : @t string := Cache 24 (1 # 100000) [] ∅.

(** A requester that has had an answer from [a.example] at time 5. *)
Definition stamped_requester : SafeRequester.t :=
  SafeRequester.Requester 1 2 {[ "a.example" := 5%Q ]}.

(** A server that refuses the first attempt with a 503 and then
    answers with a 200. *)
Definition flaky : nat -> attempt :=
  fun i => match i with
           | O => Answered (Response 503 false "") 1
           | _ => Answered (Response 200 false "ok") 1
           end.

(** A response sets one cookie. *)
Definition one_cookie (r : response) : list (string * string) :=
  [ ("ttwid", "1") ].

Definition no_session : Crawler.session_state :=
  Crawler.SessionState stamped_requester ∅.

(** A strategy under a name of its own. *)
Definition bilibili : PlatformStrategy.t :=
  PlatformStrategy.Strategy "bilibili" 1 2 3 2
    PlatformStrategy.default_user_agents [] 10 30 2 false false.

(** A strategy that has lost its agents. *)
Definition no_agents : PlatformStrategy.t :=
  PlatformStrategy.Strategy "default" 3 5 3 2 [] [] 10 30 2 false false.

(** A callback that fails when a unit reports its end. *)
Definition fails_at_end (p : Batch.phase) (url : string) (current total : Z)
  : option exn :=
  match p with
  | Batch.Started => None
  | Batch.Finished => Some (Exn OtherException "callback failed")
  end.

Definition echo (i : nat) (url : string) : outcome string := Returns url.

Definition echo_state (url : string) (s : unit) : outcome string * unit :=
  (Returns url, s).

End Samples.

(** * Properties *)

(** ** Strings *)

#[local] Arguments String.append !_ _ / : simpl nomatch.

Module PyStrFacts.
Import PyStr.

Lemma app_empty u : u ++ "" = u.
Proof. induction u; simpl; congruence. Qed.

Lemma has_char_app c x y : has_char c (x ++ y) = has_char c x || has_char c y.
Proof.
  induction x as [|a x IH]; simpl; [reflexivity|].
  rewrite IH. apply orb_assoc.
Qed.

Lemma all_chars_app p x y : all_chars p (x ++ y) = all_chars p x && all_chars p y.
Proof.
  induction x as [|a x IH]; simpl; [reflexivity|].
  rewrite IH. apply andb_assoc.
Qed.

Lemma remove_char_app a x y :
  remove_char a (x ++ y) = remove_char a x ++ remove_char a y.
Proof.
  induction x as [|c x IH]; simpl; [reflexivity|].
  destruct (Ascii.eqb c a); simpl; congruence.
Qed.

Lemma has_char_remove c a u :
  has_char c u = false -> has_char c (remove_char a u) = false.
Proof.
  induction u as [|b u IH]; simpl; [reflexivity|].
  intros [Hb Hu]%orb_false_iff.
  destruct (Ascii.eqb b a); simpl; rewrite ?Hb; auto.
Qed.

Lemma lstrip_app p u c f :
  p c = false -> lstrip p (u ++ String c f) = lstrip p u ++ String c f.
Proof.
  intros Hc. induction u as [|a u IH]; simpl.
  - now rewrite Hc.
  - destruct (p a); [exact IH | reflexivity].
Qed.

Lemma has_char_lstrip c p u :
  has_char c u = false -> has_char c (lstrip p u) = false.
Proof.
  induction u as [|a u IH]; simpl; [reflexivity|].
  intros Hu. destruct (p a); [|exact Hu].
  apply IH. now apply orb_false_iff in Hu.
Qed.

Lemma split1_app_some c u x a b :
  split1 c u = Some (a, b) -> split1 c (u ++ x) = Some (a, b ++ x).
Proof.
  revert a b. induction u as [|d u IH]; simpl; [discriminate|].
  intros a b. destruct (Ascii.eqb d c).
  - intros [= <- <-]. reflexivity.
  - destruct (split1 c u) as [[a' b']|]; [|discriminate].
    intros [= <- <-]. now rewrite (IH a' b' eq_refl).
Qed.

Lemma split1_app_none c u x :
  split1 c u = None ->
  split1 c (u ++ x) =
    match split1 c x with
    | Some (a, b) => Some (u ++ a, b)
    | None => None
    end.
Proof.
  induction u as [|d u IH]; simpl.
  - intros _. now destruct (split1 c x) as [[? ?]|].
  - destruct (Ascii.eqb d c); [discriminate|].
    destruct (split1 c u) as [[a' b']|]; [discriminate|].
    intros _. rewrite (IH eq_refl).
    now destruct (split1 c x) as [[? ?]|].
Qed.

Lemma split1_none c u : has_char c u = false -> split1 c u = None.
Proof.
  induction u as [|d u IH]; simpl; [reflexivity|].
  intros [Hd Hu]%orb_false_iff. rewrite Hd. now rewrite (IH Hu).
Qed.

Lemma split1_at c u f :
  has_char c u = false -> split1 c (u ++ String c f) = Some (u, f).
Proof.
  intros Hu. rewrite split1_app_none by now apply split1_none.
  simpl. rewrite Ascii.eqb_refl. now rewrite app_empty.
Qed.

Lemma split1_parts c d u a b :
  split1 c u = Some (a, b) -> has_char d u = false ->
  has_char d a = false /\ has_char d b = false.
Proof.
  revert a b. induction u as [|e u IH]; simpl; [discriminate|].
  intros a b E [He Hu]%orb_false_iff.
  destruct (Ascii.eqb e c).
  - injection E as <- <-. auto.
  - destruct (split1 c u) as [[a' b']|]; [|discriminate].
    injection E as <- <-. destruct (IH a' b' eq_refl Hu) as [Ha Hb].
    simpl. rewrite He. auto.
Qed.

Lemma span_until_app stop u c f :
  stop c = true ->
  span_until stop (u ++ String c f) =
    (fst (span_until stop u), snd (span_until stop u) ++ String c f).
Proof.
  intros Hc. induction u as [|a u IH]; simpl.
  - now rewrite Hc.
  - destruct (stop a); [reflexivity|].
    rewrite IH. now destruct (span_until stop u).
Qed.

Lemma span_until_parts stop d u :
  has_char d u = false ->
  has_char d (fst (span_until stop u)) = false /\
  has_char d (snd (span_until stop u)) = false.
Proof.
  induction u as [|a u IH]; simpl; [auto|].
  intros Hu. destruct (stop a); simpl; [auto|].
  apply orb_false_iff in Hu as [Ha Hu]. destruct (IH Hu) as [H1 H2].
  destruct (span_until stop u); simpl in *. rewrite Ha. auto.
Qed.

End PyStrFacts.

(** ** The fragment never reaches the other components *)

Module UrllibFacts.
Import PyStr PyStrFacts Urllib.

Lemma sanitize_fragment u f :
  sanitize (u ++ String "#" f) = sanitize u ++ String "#" (unsafe_removed f).
Proof.
  unfold sanitize, unsafe_removed.
  rewrite lstrip_app by reflexivity.
  now rewrite !remove_char_app.
Qed.

Lemma sanitize_no_hash u :
  has_char "#" u = false -> has_char "#" (sanitize u) = false.
Proof.
  intros Hu. unfold sanitize.
  now apply has_char_remove, has_char_remove, has_char_remove,
    has_char_lstrip.
Qed.

Lemma split_scheme_fragment u f :
  has_char "#" u = false ->
  split_scheme (u ++ String "#" f) =
    (fst (split_scheme u), snd (split_scheme u) ++ String "#" f)
  /\ has_char "#" (snd (split_scheme u)) = false.
Proof.
  intros Hu. unfold split_scheme.
  destruct (split1 ":" u) as [[pre rest]|] eqn:E.
  - rewrite (split1_app_some _ _ _ _ _ E).
    destruct (split1_parts _ "#" _ _ _ E Hu) as [_ Hrest].
    destruct pre as [|c pre]; simpl; [now split|].
    destruct (is_ascii_alpha c && _); simpl; now split.
  - rewrite (split1_app_none _ _ _ E). simpl.
    destruct (split1 ":" f) as [[a b]|]; simpl; [|now split].
    destruct u as [|c u]; simpl; [now split|].
    rewrite all_chars_app. simpl.
    rewrite !andb_false_r. simpl. split; [reflexivity | exact Hu].
Qed.

Lemma split_netloc_fragment u f :
  has_char "#" u = false ->
  split_netloc (u ++ String "#" f) =
    (fst (split_netloc u), snd (split_netloc u) ++ String "#" f)
  /\ has_char "#" (snd (split_netloc u)) = false.
Proof.
  intros Hu. unfold split_netloc.
  destruct u as [|a [|b u]]; simpl.
  - now destruct f.
  - rewrite andb_false_r. split; [reflexivity | exact Hu].
  - destruct (Ascii.eqb a "/" && Ascii.eqb b "/"); simpl; [|now split].
    simpl in Hu. apply orb_false_iff in Hu as [_ Hu].
    apply orb_false_iff in Hu as [_ Hu].
    rewrite span_until_app by reflexivity.
    split; [reflexivity|]. now apply span_until_parts.
Qed.

Section WithLib.
Context {lib : Lib}.

(** Appending a fragment to a URL changes the fragment component and
    nothing else. *)
Lemma urlsplit_fragment u f :
  has_char "#" u = false ->
  urlsplit (u ++ String "#" f) =
    match urlsplit u with
    | Some (s, n, p, q, _) => Some (s, n, p, q, unsafe_removed f)
    | None => None
    end.
Proof.
  intros Hu. unfold urlsplit.
  rewrite sanitize_fragment.
  pose proof (sanitize_no_hash u Hu) as Hs.
  destruct (split_scheme_fragment (sanitize u) (unsafe_removed f) Hs)
    as [-> Hr].
  destruct (split_scheme (sanitize u)) as [sch r]; simpl in *.
  destruct (split_netloc_fragment r (unsafe_removed f) Hr) as [-> Hn].
  destruct (split_netloc r) as [nl rest]; simpl in *.
  destruct (brackets_ok nl); simpl; [|reflexivity].
  rewrite (split1_at _ _ _ Hn), (split1_none _ _ Hn).
  destruct (split1 "?" rest) as [[p q]|];
    now destruct (_checknetloc nl).
Qed.

Lemma urlparse_fragment u f :
  has_char "#" u = false ->
  urlparse (u ++ String "#" f) =
    match urlparse u with
    | Some r =>
        Some {| scheme := scheme r; netloc := netloc r; path := path r;
                params := params r; query := query r;
                fragment := unsafe_removed f |}
    | None => None
    end.
Proof.
  intros Hu. unfold urlparse. rewrite (urlsplit_fragment u f Hu).
  destruct (urlsplit u) as [[[[[s n] p] q] g]|]; [|reflexivity].
  now destruct (in_list s uses_params && has_char ";" p);
    [destruct (_splitparams p)|].
Qed.

End WithLib.

End UrllibFacts.

(** ** Dicts *)

Module PyDictFacts.
Import PyDict.
Section Dict.
Context {V : Type}.
Implicit Types d : list (string * V).

Lemma get_set_eq k v d : get k (set k v d) = Some v.
Proof.
  induction d as [|[k' v'] d IH]; simpl.
  - now rewrite String.eqb_refl.
  - destruct (String.eqb k' k) eqn:E; simpl; now rewrite E.
Qed.

Lemma get_set_ne k k' v d : k <> k' -> get k' (set k v d) = get k' d.
Proof.
  intros Hne. induction d as [|[k0 v0] d IH]; simpl.
  - now apply String.eqb_neq in Hne as ->.
  - destruct (String.eqb k0 k) eqn:E; simpl; [|now rewrite IH].
    apply String.eqb_eq in E as ->.
    now apply String.eqb_neq in Hne as ->.
Qed.

Lemma get_del_eq k d : get k (del k d) = None.
Proof.
  induction d as [|[k' v'] d IH]; simpl; [reflexivity|].
  destruct (String.eqb k' k) eqn:E; simpl; [exact IH|].
  now rewrite E.
Qed.

Lemma get_del_ne k k' d : k <> k' -> get k' (del k d) = get k' d.
Proof.
  intros Hne. induction d as [|[k0 v0] d IH]; simpl; [reflexivity|].
  destruct (String.eqb k0 k) eqn:E; simpl.
  - apply String.eqb_eq in E as ->.
    now apply String.eqb_neq in Hne as ->.
  - now rewrite IH.
Qed.

(** Deleting keys leaves a key absent or as it was. *)
Lemma get_del_cases k k' d :
  get k' (del k d) = None \/ get k' (del k d) = get k' d.
Proof.
  destruct (String.eqb_spec k k') as [->|Hne].
  - left. apply get_del_eq.
  - right. now apply get_del_ne.
Qed.

Lemma get_In k v d : get k d = Some v -> In (k, v) d.
Proof.
  induction d as [|[k' v'] d IH]; simpl; [discriminate|].
  destruct (String.eqb_spec k' k) as [->|Hne].
  - intros [= ->]. now left.
  - intros E. right. now apply IH.
Qed.

Lemma in_del k kv d : In kv (del k d) <-> In kv d /\ fst kv <> k.
Proof.
  unfold del. rewrite filter_In, negb_true_iff.
  now rewrite String.eqb_neq.
Qed.

Lemma keys_del_NoDup k d : List.NoDup (keys d) -> List.NoDup (keys (del k d)).
Proof.
  unfold keys, del. induction d as [|[k' v'] d IH]; simpl; [auto|].
  intros Hnd. apply List.NoDup_cons_iff in Hnd as [Hnotin Hnd].
  destruct (String.eqb k' k); simpl; [auto|].
  constructor; [|auto].
  intros Hin. apply Hnotin.
  apply in_map_iff in Hin as [[k0 v0] [<- Hin]].
  apply filter_In in Hin as [Hin _].
  apply in_map_iff. now exists (k0, v0).
Qed.

Lemma keys_set k v d :
  keys (set k v d) = if present (get k d) then keys d else (keys d ++ [k])%list.
Proof.
  unfold keys. induction d as [|[k' v'] d IH]; simpl; [reflexivity|].
  destruct (String.eqb k' k) eqn:E; simpl; [reflexivity|].
  rewrite IH. now destruct (present (get k d)).
Qed.

Lemma get_None_keys k d : get k d = None -> ~ In k (keys d).
Proof.
  unfold keys. induction d as [|[k' v'] d IH]; simpl; [tauto|].
  destruct (String.eqb_spec k' k) as [->|Hne]; [discriminate|].
  intros E [Heq|Hin]; [congruence|]. now apply IH.
Qed.

Lemma in_set kv k v d :
  In kv (set k v d) -> kv = (k, v) \/ In kv d.
Proof.
  induction d as [|[k' v'] d IH]; simpl.
  - intros [<-|[]]. now left.
  - destruct (String.eqb_spec k' k) as [->|Hne]; simpl.
    + intros [<-|Hin]; auto.
    + intros [<-|Hin]; auto. destruct (IH Hin); auto.
Qed.

End Dict.
End PyDictFacts.

(** ** The cache *)

Module CacheFacts.
Import PyStr PyStrFacts UrllibFacts PyDictFacts DocumentCache.

Lemma Qgtb_false a b : Qgtb a b = false <-> (a <= b)%Q.
Proof. unfold Qgtb. rewrite negb_false_iff. apply Qle_bool_iff. Qed.

Lemma Qgtb_true a b : Qgtb a b = true <-> (b < a)%Q.
Proof.
  unfold Qgtb. rewrite negb_true_iff. split.
  - intros E. apply Qnot_le_lt. intros Hle.
    apply Qle_bool_iff in Hle. congruence.
  - intros Hlt. destruct (Qle_bool a b) eqn:E; [|reflexivity].
    apply Qle_bool_iff in E. exfalso. now apply (Qlt_not_le _ _ Hlt).
Qed.

Section Cache.
Context {lib : Urllib.Lib} {os : Os} {R : Type}.
Variable dump_size : @cache_data R -> Z.

Lemma normalize_fragment u f :
  has_char "#" u = false ->
  _normalize_url (u ++ String "#" f) = _normalize_url u.
Proof.
  intros Hu. unfold _normalize_url.
  rewrite (urlparse_fragment u f Hu).
  now destruct (Urllib.urlparse u).
Qed.

Lemma hash_fragment u f :
  has_char "#" u = false ->
  _get_url_hash (u ++ String "#" f) = _get_url_hash u.
Proof.
  intros Hu. unfold _get_url_hash. now rewrite normalize_fragment.
Qed.

Lemma hash_douyin_ts :
  _get_url_hash "https://www.douyin.com/x?ts=1"
  = _get_url_hash "https://www.douyin.com/x?ts=2".
Proof. vm_compute. reflexivity. Qed.

Lemma hash_other_ts :
  _get_url_hash "https://a.example/x?ts=1"
  <> _get_url_hash "https://a.example/x?ts=2".
Proof. vm_compute. discriminate. Qed.

(** A lookup that finds a fresh entry with a readable file returns
    what the file holds. *)
Lemma lookup_hit (c : @t R) now url h e sz d :
  _get_url_hash url = Some h ->
  PyDict.get h (entries c) = Some e ->
  truthy e = true ->
  (now - default 0 (e_cached_at e) <= cache_expiry_seconds c)%Q ->
  e_url_hash e = Some h ->
  files c !! _get_cache_file_path h = Some (File sz (Some d)) ->
  get_cached_result c now url = (Returns (Some d), c).
Proof.
  intros Hh Hget Ht Hfresh Hfield Hfile.
  unfold get_cached_result. rewrite Hh, Hget.
  unfold _is_cache_valid, exists_file. rewrite Ht. simpl.
  apply Qgtb_false in Hfresh. rewrite Hfresh, Hfield. simpl.
  now rewrite Hfile.
Qed.

Lemma save_without_eviction (c : @t R) t_file t_index url h P :
  _get_url_hash url = Some h ->
  (_get_cache_size_mb (stored dump_size c t_file t_index url h P)
   <= max_cache_size_mb c)%Q ->
  save_result dump_size c t_file t_index url P
  = (true, stored dump_size c t_file t_index url h P).
Proof.
  intros Hh Hsize. unfold save_result, _cleanup_if_needed. rewrite Hh.
  apply Qgtb_false in Hsize. simpl in *. now rewrite Hsize.
Qed.

Lemma append_cancel u v w : u ++ v = u ++ w -> v = w.
Proof. induction u as [|a u IH]; simpl; [auto|]. intros [= E]. auto. Qed.

Lemma append_longer u v : u = u ++ v -> v = "".
Proof.
  induction u as [|a u IH]; simpl; [auto|]. intros [= E]. auto.
Qed.

(** In what [urlunparse] builds without a fragment the query can be
    read off. *)
Lemma urlunparse_query sch nl url prm q1 q2 :
  Urllib.urlunparse sch nl url prm q1 "" = Urllib.urlunparse sch nl url prm q2 ""
  -> q1 = q2.
Proof.
  unfold Urllib.urlunparse, Urllib.urlunsplit. simpl.
  match goal with
  | |- context [if nonempty q1 then ?b ++ _ else _] => generalize b
  end.
  intros base.
  destruct q1 as [|a q1], q2 as [|b q2]; simpl; intros E.
  - reflexivity.
  - apply append_longer in E. discriminate.
  - symmetry in E. apply append_longer in E. discriminate.
  - apply append_cancel in E. congruence.
Qed.

(** On a host of douyin the normalised URL holds the query without its
    volatile parameters; on another host it holds the query as it
    is. *)
Lemma normalize_douyin u p :
  Urllib.urlparse u = Some p ->
  contains "douyin.com" (Urllib.netloc p) = true
  \/ contains "iesdouyin.com" (Urllib.netloc p) = true ->
  _normalize_url u
  = Some (Urllib.urlunparse
            (Urllib.scheme p) (Urllib.netloc p) (Urllib.path p)
            (Urllib.params p)
            (Urllib.urlencode
               (List.filter
                  (fun kv =>
                     negb (Urllib.in_list (fst kv)
                             [ "timestamp"; "ts"; "_t"; "time" ]))
                  (Urllib.parse_qs (Urllib.query p))))
            "").
Proof.
  intros Hp Hhost. unfold _normalize_url. rewrite Hp.
  now destruct Hhost as [-> | ->]; rewrite ?orb_true_r.
Qed.

Lemma normalize_other u p :
  Urllib.urlparse u = Some p ->
  contains "douyin.com" (Urllib.netloc p) = false ->
  contains "iesdouyin.com" (Urllib.netloc p) = false ->
  _normalize_url u
  = Some (Urllib.urlunparse
            (Urllib.scheme p) (Urllib.netloc p) (Urllib.path p)
            (Urllib.params p) (Urllib.query p) "").
Proof.
  intros Hp H1 H2. unfold _normalize_url. now rewrite Hp, H1, H2.
Qed.

(** C5 (as amended).  The volatile query parameters [timestamp], [ts],
    [_t] and [time] are stripped for the hosts of douyin only.  Two
    URLs of a network location that contains [douyin.com] or
    [iesdouyin.com] which differ in those parameters only have the same
    key, so that a payload stored under one is what a lookup of the
    other returns, when the store evicts nothing and the lookup comes
    before the entry expires; so for [https://www.douyin.com/x?ts=1]
    and [?ts=2].  For any other network location the query enters the
    normalised URL as it is, so that two URLs that differ in their
    queries only are hashed from different texts; the keys of
    [https://a.example/x?ts=1] and [?ts=2] differ.  A fragment never
    changes the key of a URL. *)
Theorem C5_volatile_parameters_stripped_for_douyin :
  (forall u1 u2 p1 p2,
      Urllib.urlparse u1 = Some p1 ->
      Urllib.urlparse u2 = Some p2 ->
      contains "douyin.com" (Urllib.netloc p1) = true
      \/ contains "iesdouyin.com" (Urllib.netloc p1) = true ->
      Urllib.scheme p1 = Urllib.scheme p2 ->
      Urllib.netloc p1 = Urllib.netloc p2 ->
      Urllib.path p1 = Urllib.path p2 ->
      Urllib.params p1 = Urllib.params p2 ->
      List.filter
        (fun kv =>
           negb (Urllib.in_list (fst kv) [ "timestamp"; "ts"; "_t"; "time" ]))
        (Urllib.parse_qs (Urllib.query p1))
      = List.filter
          (fun kv =>
             negb (Urllib.in_list (fst kv) [ "timestamp"; "ts"; "_t"; "time" ]))
          (Urllib.parse_qs (Urllib.query p2)) ->
      exists h, _get_url_hash u1 = Some h /\ _get_url_hash u2 = Some h)
  /\ (forall (c : @t R) (P : R) (t_file t_index now : Q) (u1 u2 h : string),
         _get_url_hash u1 = Some h ->
         _get_url_hash u2 = Some h ->
         (_get_cache_size_mb (stored dump_size c t_file t_index u1 h P)
          <= max_cache_size_mb c)%Q ->
         (now - t_index <= cache_expiry_seconds c)%Q ->
         exists d,
           fst (get_cached_result
                  (snd (save_result dump_size c t_file t_index u1 P)) now u2)
           = Returns (Some d)
           /\ cd_result d = P)
  /\ _get_url_hash "https://www.douyin.com/x?ts=1"
     = _get_url_hash "https://www.douyin.com/x?ts=2"
  /\ (forall u1 u2 p1 p2,
         Urllib.urlparse u1 = Some p1 ->
         Urllib.urlparse u2 = Some p2 ->
         contains "douyin.com" (Urllib.netloc p1) = false ->
         contains "iesdouyin.com" (Urllib.netloc p1) = false ->
         Urllib.scheme p1 = Urllib.scheme p2 ->
         Urllib.netloc p1 = Urllib.netloc p2 ->
         Urllib.path p1 = Urllib.path p2 ->
         Urllib.params p1 = Urllib.params p2 ->
         Urllib.query p1 <> Urllib.query p2 ->
         exists n1 n2,
           _normalize_url u1 = Some n1 /\ _normalize_url u2 = Some n2
           /\ n1 <> n2
           /\ _get_url_hash u1 = Some (Md5.hexdigest n1)
           /\ _get_url_hash u2 = Some (Md5.hexdigest n2))
  /\ _get_url_hash "https://a.example/x?ts=1"
     <> _get_url_hash "https://a.example/x?ts=2"
  /\ (forall u f,
         has_char "#" u = false ->
         _get_url_hash (u ++ String "#" f) = _get_url_hash u).
Proof.
  split; [|split; [|split; [|split; [|split]]]].
  - intros u1 u2 p1 p2 Hp1 Hp2 Hhost Hs Hn Hpa Hpr Hq.
    assert (Hhost2 : contains "douyin.com" (Urllib.netloc p2) = true
                     \/ contains "iesdouyin.com" (Urllib.netloc p2) = true)
      by now rewrite <- Hn.
    unfold _get_url_hash.
    rewrite (normalize_douyin u1 p1 Hp1 Hhost).
    rewrite (normalize_douyin u2 p2 Hp2 Hhost2).
    rewrite Hs, Hn, Hpa, Hpr, Hq. eexists. split; reflexivity.
  - intros c P t_file t_index now u1 u2 h Hh1 Hh2 Hsize Hfresh.
    rewrite (save_without_eviction _ _ _ _ _ _ Hh1 Hsize).
    assert (Hhit :
      get_cached_result (stored dump_size c t_file t_index u1 h P) now u2
      = (Returns (Some (CacheData u1 h t_file P)),
         stored dump_size c t_file t_index u1 h P)).
    { eapply lookup_hit.
      - exact Hh2.
      - simpl. apply get_set_eq.
      - reflexivity.
      - exact Hfresh.
      - reflexivity.
      - simpl. apply lookup_insert_eq. }
    simpl. rewrite Hhit. eexists. split; reflexivity.
  - apply hash_douyin_ts.
  - intros u1 u2 p1 p2 Hp1 Hp2 H1 H2 Hs Hn Hpa Hpr Hq.
    assert (H1' : contains "douyin.com" (Urllib.netloc p2) = false)
      by now rewrite <- Hn.
    assert (H2' : contains "iesdouyin.com" (Urllib.netloc p2) = false)
      by now rewrite <- Hn.
    unfold _get_url_hash.
    rewrite (normalize_other u1 p1 Hp1 H1 H2).
    rewrite (normalize_other u2 p2 Hp2 H1' H2').
    do 2 eexists. repeat split.
    rewrite Hs, Hn, Hpa, Hpr. intros E. apply Hq.
    now apply urlunparse_query in E.
  - apply hash_other_ts.
  - apply hash_fragment.
Qed.


(** *** Expiry and missing payloads *)

Lemma remove_done (c : @t R) h :
  files c !! _get_cache_file_path h = None
  \/ unlink_raises (_get_cache_file_path h) = false ->
  _remove_cache_entry c h
  = with_store c (PyDict.del h (entries c))
               (delete (_get_cache_file_path h) (files c)).
Proof.
  unfold _remove_cache_entry, exists_file.
  intros [-> | ->]; [reflexivity | now rewrite andb_false_r].
Qed.

Lemma remove_kept (c : @t R) h :
  is_Some (files c !! _get_cache_file_path h) ->
  unlink_raises (_get_cache_file_path h) = true ->
  _remove_cache_entry c h = c.
Proof.
  unfold _remove_cache_entry, exists_file. now intros [f ->] ->.
Qed.

Lemma remove_cases (c : @t R) h :
  _remove_cache_entry c h = c
  \/ _remove_cache_entry c h
     = with_store c (PyDict.del h (entries c))
                  (delete (_get_cache_file_path h) (files c)).
Proof.
  unfold _remove_cache_entry. destruct (_ && _); [now left | now right].
Qed.

Lemma evict_config es idx (c : @t R) :
  cache_expiry_hours (fst (evict es idx c)) = cache_expiry_hours c.
Proof.
  revert c. induction idx as [|i idx IH]; intros c; simpl; [reflexivity|].
  destruct (nth_error es i) as [[k e]|]; [|reflexivity].
  rewrite IH. now destruct (remove_cases c k) as [-> | ->].
Qed.

Lemma evict_get es idx (c : @t R) k :
  PyDict.get k (entries (fst (evict es idx c))) = None
  \/ PyDict.get k (entries (fst (evict es idx c)))
     = PyDict.get k (entries c).
Proof.
  revert c. induction idx as [|i idx IH]; intros c; simpl; [now right|].
  destruct (nth_error es i) as [[k' e]|]; [|now right].
  destruct (IH (_remove_cache_entry c k')) as [E|E]; [now left|].
  rewrite E. destruct (remove_cases c k') as [-> | ->]; [now right|].
  simpl. apply get_del_cases.
Qed.

Lemma cleanup_config (c : @t R) :
  cache_expiry_hours (fst (_cleanup_if_needed c)) = cache_expiry_hours c.
Proof.
  unfold _cleanup_if_needed, _cleanup_old_entries.
  destruct (Qgtb _ _); [apply evict_config | reflexivity].
Qed.

Lemma cleanup_get (c : @t R) k :
  PyDict.get k (entries (fst (_cleanup_if_needed c))) = None
  \/ PyDict.get k (entries (fst (_cleanup_if_needed c)))
     = PyDict.get k (entries c).
Proof.
  unfold _cleanup_if_needed, _cleanup_old_entries.
  destruct (Qgtb _ _); [apply evict_get | now right].
Qed.

Lemma save_result_cache (c : @t R) t_file t_index url h P :
  _get_url_hash url = Some h ->
  snd (save_result dump_size c t_file t_index url P)
  = fst (_cleanup_if_needed (stored dump_size c t_file t_index url h P)).
Proof.
  intros Hh. unfold save_result. rewrite Hh.
  now destruct (_cleanup_if_needed _) as [c' [e|]].
Qed.

Lemma lookup_stale (c : @t R) now url h e :
  _get_url_hash url = Some h ->
  PyDict.get h (entries c) = Some e ->
  truthy e = true ->
  (cache_expiry_seconds c < now - default 0 (e_cached_at e))%Q
  \/ files c !! _get_cache_file_path h = None
  \/ (exists sz, files c !! _get_cache_file_path h = Some (File sz None)) ->
  get_cached_result c now url = (Returns None, _remove_cache_entry c h).
Proof.
  intros Hh Hget Ht Hstale.
  unfold get_cached_result. rewrite Hh, Hget.
  destruct (_is_cache_valid c now (Some e)) eqn:Hvalid; simpl;
    [|now rewrite Ht].
  destruct Hstale as [Hexp | [Hmiss | [sz Hbad]]].
  - exfalso. unfold _is_cache_valid in Hvalid. rewrite Ht in Hvalid.
    simpl in Hvalid. apply Qgtb_true in Hexp. now rewrite Hexp in Hvalid.
  - now rewrite Hmiss.
  - now rewrite Hbad.
Qed.

(** C6 (as amended).  A lookup that finds an entry whose time to live
    has elapsed, or whose payload file is missing or cannot be read,
    returns nothing.  It takes the entry out of the index, and its file
    out of the directory, when the file is missing or the operating
    system lets it be deleted; when the deletion raises, the entry
    stays in the index with its file, and an entry that is an empty
    dict stays as well.  So a lookup one and a half seconds after a
    store into a cache whose entries live one second returns nothing,
    and the entry is no longer in the index when its file can be
    deleted. *)
Theorem C6_lookup_purges_stale_entry (url h : string) :
  _get_url_hash url = Some h ->
  (forall (c : @t R) (now : Q) (e : entry),
      PyDict.get h (entries c) = Some e ->
      (cache_expiry_seconds c < now - default 0 (e_cached_at e))%Q
      \/ files c !! _get_cache_file_path h = None
      \/ (exists sz,
             files c !! _get_cache_file_path h = Some (File sz None)) ->
      fst (get_cached_result c now url) = Returns None
      /\ (truthy e = true ->
          files c !! _get_cache_file_path h = None
          \/ unlink_raises (_get_cache_file_path h) = false ->
          PyDict.get h (entries (snd (get_cached_result c now url))) = None
          /\ files (snd (get_cached_result c now url))
               !! _get_cache_file_path h = None)
      /\ (truthy e = true ->
          is_Some (files c !! _get_cache_file_path h) ->
          unlink_raises (_get_cache_file_path h) = true ->
          snd (get_cached_result c now url) = c)
      /\ (truthy e = false -> snd (get_cached_result c now url) = c))
  /\ (forall (c : @t R) (P : R) (t0 : Q),
         (cache_expiry_seconds c == 1)%Q ->
         unlink_raises (_get_cache_file_path h) = false ->
         let c1 := snd (save_result dump_size c t0 t0 url P) in
         fst (get_cached_result c1 (t0 + (3 # 2)) url) = Returns None
         /\ PyDict.get h
              (entries (snd (get_cached_result c1 (t0 + (3 # 2)) url)))
            = None).
Proof.
  intros Hh. split.
  - intros c now e Hget Hstale.
    destruct (truthy e) eqn:Ht.
    + rewrite (lookup_stale c now url h e Hh Hget Ht Hstale). simpl.
      split; [reflexivity|]. split; [|split]; [| |discriminate].
      * intros _ Hdel. rewrite (remove_done c h Hdel). simpl.
        split; [apply get_del_eq | apply lookup_delete_eq].
      * intros _ Hfile Hraise. now apply remove_kept.
    + unfold get_cached_result. rewrite Hh, Hget.
      unfold _is_cache_valid. rewrite Ht. simpl.
      split; [reflexivity|]. split; [discriminate|].
      split; [discriminate | reflexivity].
  - intros c P t0 Httl Hdel c1.
    assert (Hc1 : c1 = fst (_cleanup_if_needed
                              (stored dump_size c t0 t0 url h P)))
      by now apply save_result_cache.
    assert (Hsec : (cache_expiry_seconds c1 == 1)%Q).
    { unfold cache_expiry_seconds in *. now rewrite Hc1, cleanup_config. }
    destruct (cleanup_get (stored dump_size c t0 t0 url h P) h) as [E|E];
      rewrite <- Hc1 in E.
    + unfold get_cached_result. rewrite Hh, E. simpl. now split.
    + simpl in E. rewrite get_set_eq in E.
      erewrite lookup_stale; [| exact Hh | exact E | reflexivity | ].
      * simpl. split; [reflexivity|].
        rewrite (remove_done c1 h) by now right.
        apply get_del_eq.
      * left. simpl. rewrite Hsec. lra.
Qed.


(** *** Eviction *)










Lemma filter_filter {A} (f g : A -> bool) l :
  List.filter f (List.filter g l) = List.filter (fun x => g x && f x) l.
Proof.
  induction l as [|a l IH]; simpl; [reflexivity|].
  destruct (g a); simpl; [destruct (f a)|]; now rewrite IH.
Qed.

(** The removals of a list of entries whose files can be deleted take
    these entries out of the index, and their files out of the
    directory. *)
Lemma remove_all_entries vs (c : @t R) :
  (forall v, In v vs ->
             unlink_raises (_get_cache_file_path (fst v)) = false) ->
  entries (remove_all vs c) = List.filter (spared vs) (entries c).
Proof.
  revert c. induction vs as [|v vs IH]; intros c Hdel; simpl.
  - symmetry. apply forallb_filter_id. now apply forallb_forall.
  - unfold remove_all in *. simpl.
    rewrite IH by (intros; apply Hdel; now right).
    rewrite remove_done by (right; apply Hdel; now left). simpl.
    unfold PyDict.del. rewrite filter_filter.
    apply filter_ext. intros x. unfold spared. simpl.
    now rewrite negb_orb.
Qed.

Lemma remove_all_files vs (c : @t R) name :
  (forall v, In v vs ->
             unlink_raises (_get_cache_file_path (fst v)) = false) ->
  files (remove_all vs c) !! name
  = if existsb (fun v => String.eqb (_get_cache_file_path (fst v)) name) vs
    then None else files c !! name.
Proof.
  revert c. induction vs as [|v vs IH]; intros c Hdel; simpl; [reflexivity|].
  unfold remove_all in *. simpl.
  rewrite IH by (intros; apply Hdel; now right).
  rewrite remove_done by (right; apply Hdel; now left). simpl.
  destruct (String.eqb_spec (_get_cache_file_path (fst v)) name)
    as [<-|Hne]; simpl.
  - rewrite lookup_delete_eq. now destruct (existsb _ vs).
  - now rewrite lookup_delete_ne.
Qed.


Lemma filter_none {A} (f : A -> bool) l :
  (forall x, In x l -> f x = false) -> List.filter f l = [].
Proof.
  induction l as [|a l IH]; simpl; [reflexivity|].
  intros Hall. rewrite (Hall a) by now left. apply IH. auto.
Qed.


Lemma spared_false vs x : In x vs -> spared vs x = false.
Proof.
  intros Hin. unfold spared. apply negb_false_iff, existsb_exists.
  exists (fst x). split; [now apply in_map | apply String.eqb_refl].
Qed.

Lemma spared_true vs x :
  ~ In (fst x) (PyDict.keys vs) -> spared vs x = true.
Proof.
  intros Hnotin. unfold spared. apply negb_true_iff.
  destruct (existsb _ _) eqn:E; [|reflexivity].
  apply existsb_exists in E as [k [Hk E]].
  apply String.eqb_eq in E. now subst.
Qed.









Lemma stored_keys (c : @t R) t_file t_index url h P :
  List.NoDup (PyDict.keys (entries c)) ->
  List.NoDup
    (PyDict.keys (entries (stored dump_size c t_file t_index url h P))).
Proof.
  intros Hnd. simpl.
  rewrite keys_set. destruct (PyDict.get h (entries c)) eqn:E; simpl;
    [exact Hnd|].
  apply NoDup_rev in Hnd. rewrite <- (rev_involutive (_ ++ _)%list).
  apply NoDup_rev. rewrite rev_app_distr. simpl.
  constructor; [|exact Hnd].
  rewrite <- in_rev. now apply get_None_keys.
Qed.

Lemma stored_consistent (c : @t R) t_file t_index url h P :
  (forall d, 0 < dump_size d) ->
  consistent c ->
  consistent (stored dump_size c t_file t_index url h P).
Proof.
  intros Hpos (Hnd & Hfile & Hnn). unfold consistent.
  split; [now apply stored_keys|]. unfold stored. simpl. split.
  - intros k e Hin. rewrite lookup_insert.
    destruct (decide (_get_cache_file_path h = _get_cache_file_path k)).
    + eexists. split; [reflexivity|]. simpl. apply Hpos.
    + apply in_set in Hin as [[= -> ->]|Hin]; [congruence|].
      now apply Hfile in Hin.
  - intros n f. rewrite lookup_insert.
    destruct (decide (_get_cache_file_path h = n)).
    + intros [= <-]. simpl. specialize (Hpos (CacheData url h t_file P)).
      lia.
    + apply Hnn.
Qed.





End Cache.
End CacheFacts.

(** ** The requesters *)

Module RequesterFacts.
Import Net SafeRequester.

Lemma sends_app l1 l2 : sends (l1 ++ l2) = (sends l1 + sends l2)%nat.
Proof. unfold sends. now rewrite List.filter_app, length_app. Qed.

Lemma sends_repeat url n : sends (repeat (Send url) n) = n.
Proof.
  induction n as [|n IH]; simpl; [reflexivity|].
  unfold sends in *. simpl. now rewrite IH.
Qed.

Lemma sends_sleep w : sends (sleep_events w) = 0%nat.
Proof. now destruct w. Qed.

Lemma sends_stamp key t : sends [Stamp key t] = 0%nat.
Proof. reflexivity. Qed.


Lemma has_stamp_sends w url n :
  has_stamp (sleep_events w ++ repeat (Send url) n) = false.
Proof.
  unfold has_stamp. rewrite existsb_app.
  replace (existsb _ (sleep_events w)) with false by now destruct w.
  simpl. induction n as [|n IH]; simpl; auto.
Qed.

Lemma Qltb_true a b : Qltb a b = true <-> (a < b)%Q.
Proof.
  unfold Qltb. rewrite negb_true_iff. split.
  - intros E. apply Qnot_le_lt. intros Hle.
    apply Qle_bool_iff in Hle. congruence.
  - intros Hlt. destruct (Qle_bool b a) eqn:E; [|reflexivity].
    apply Qle_bool_iff in E. exfalso. now apply (Qlt_not_le _ _ Hlt).
Qed.

Lemma Qltb_spec a b : reflect (a < b)%Q (Qltb a b).
Proof.
  destruct (Qltb a b) eqn:E; constructor.
  - now apply Qltb_true.
  - intros Hlt. apply Qltb_true in Hlt. congruence.
Qed.

Lemma is_sleep_sends url n : List.filter is_sleep (repeat (Send url) n) = [].
Proof. induction n as [|n IH]; simpl; auto. Qed.

Lemma sleeps_of_request w url n tail :
  List.filter is_sleep tail = [] ->
  List.filter is_sleep (sleep_events w ++ repeat (Send url) n ++ tail)%list
  = sleep_events w.
Proof.
  intros Htail. rewrite !List.filter_app, is_sleep_sends, Htail.
  destruct w; reflexivity.
Qed.


(** An answer that [is_retry] turns down is returned at once. *)
Lemma urlopen_final r server left i resp took :
  server i = Answered resp took ->
  is_retry r (Z.of_nat left) resp = false ->
  urlopen r server left i = (Returns resp, 1%nat, took).
Proof. intros E Hno. destruct left; simpl; now rewrite E, Hno. Qed.

Section WithLib.
Context {lib : Urllib.Lib}.


Lemma get_raised rq now url domain ep e n took :
  _get_domain url = Some domain ->
  session_get (retry_strategy rq) ep = (Raises e, n, took) ->
  let w := _wait_if_needed rq now domain in
  get rq now url ep
  = (Returns None, rq, (after_sleep now w + took)%Q,
     (sleep_events w ++ repeat (Send url) n)%list).
Proof. intros Hd Hs. unfold get. now rewrite Hd, Hs. Qed.


Lemma forcelist_permanent rq s :
  400 <= s < 500 -> s <> 429 -> s <> 403 ->
  in_codes s (status_forcelist (retry_strategy rq)) = false.
Proof.
  intros Hs H429 H403. unfold in_codes. simpl.
  repeat match goal with
         | |- context [Z.eqb s ?k] =>
             destruct (Z.eqb_spec s k); [lia|]
         end.
  reflexivity.
Qed.

(** An answer that is not retried ends the retry loop wherever it
    comes: it is returned, and nothing is sent after it. *)
Lemma urlopen_permanent r server resp took k :
  server k = Answered resp took ->
  (forall total, is_retry r total resp = false) ->
  forall left i,
    (i <= k)%nat ->
    (k < i + snd (fst (urlopen r server left i)))%nat ->
    fst (fst (urlopen r server left i)) = Returns resp
    /\ (i + snd (fst (urlopen r server left i)) = S k)%nat.
Proof.
  intros Ek Hno. induction left as [|left IH]; intros i Hik; cbn [urlopen].
  - destruct (server i) as [resp' took'|e took'] eqn:Ei.
    + destruct (is_retry r (Z.of_nat 0) resp') eqn:Hretry.
      * destruct (raise_on_status r); simpl; intros Hk;
          assert (i = k) by lia; subst i;
          rewrite Ek in Ei; injection Ei as <- <-;
          rewrite Hno in Hretry; discriminate.
      * simpl. intros Hk. assert (i = k) by lia. subst i.
        rewrite Ek in Ei. injection Ei as <- <-. split; [reflexivity | lia].
    + simpl. intros Hk. assert (i = k) by lia. subst i. congruence.
  - destruct (server i) as [resp' took'|e took'] eqn:Ei.
    + destruct (is_retry r (Z.of_nat (S left)) resp') eqn:Hretry.
      * assert (Hlt : (i < k)%nat).
        { destruct (Nat.eq_dec i k) as [->|]; [|lia].
          rewrite Ek in Ei. injection Ei as <- <-.
          now rewrite Hno in Hretry. }
        specialize (IH (S i) Hlt).
        destruct (urlopen r server left (S i)) as [[o n] d]. simpl in *.
        intros Hk. destruct IH as [Ho Hn]; [lia|]. split; [exact Ho | lia].
      * simpl. intros Hk. assert (i = k) by lia. subst i.
        rewrite Ek in Ei. injection Ei as <- <-. split; [reflexivity | lia].
    + assert (Hlt : (i < k)%nat).
      { destruct (Nat.eq_dec i k) as [->|]; [congruence | lia]. }
      specialize (IH (S i) Hlt).
      destruct (urlopen r server left (S i)) as [[o n] d]. simpl in *.
      intros Hk. destruct IH as [Ho Hn]; [lia|]. split; [exact Ho | lia].
Qed.

Lemma urlopen_sends r server left i :
  (1 <= snd (fst (urlopen r server left i)))%nat.
Proof.
  destruct left as [|left]; cbn [urlopen];
    destruct (server i) as [resp took|e took]; simpl; try lia.
  - destruct (is_retry r _ resp); [destruct (raise_on_status r)|];
      simpl; lia.
  - destruct (is_retry r _ resp); [|simpl; lia].
    destruct (urlopen r server left (S i)) as [[o n] d]. simpl. lia.
  - destruct (urlopen r server left (S i)) as [[o n] d]. simpl. lia.
Qed.

(** C3 (as amended).  An answer with a 4xx status other than 429 and
    403, and that is not a 413 with a [Retry-After] header, is never
    retried: whether it answers the first request or a later one, sent
    after a failure or a status that is retried, it is what [get]
    returns, carrying its status, and no request is sent after it.  So
    such an answer to the first request is returned after one
    request. *)
Theorem C3_permanent_status_is_not_retried
        (rq : t) (now : Q) (url domain : string) (server : nat -> attempt)
        (k : nat) (response : response) (took : Q) :
  _get_domain url = Some domain ->
  server k = Answered response took ->
  400 <= status_code response < 500 ->
  status_code response <> 429 ->
  status_code response <> 403 ->
  (status_code response = 413 -> has_retry_after response = false) ->
  let '(o, rq', now', evs) := get rq now url (Served server) in
  (1 <= sends evs)%nat
  /\ ((k < sends evs)%nat ->
      o = Returns (Some response) /\ sends evs = S k).
Proof.
  intros Hd E Hs H429 H403 H413.
  assert (Hno : forall total,
             is_retry (retry_strategy rq) total response = false).
  { intros total. unfold is_retry.
    rewrite (forcelist_permanent rq _ Hs H429 H403). simpl.
    destruct (has_retry_after response) eqn:Hra;
      [|now rewrite andb_false_r].
    unfold in_codes. simpl.
    destruct (Z.eqb_spec (status_code response) 413) as [E413|_];
      [specialize (H413 E413); congruence|].
    destruct (Z.eqb_spec (status_code response) 429); [lia|].
    destruct (Z.eqb_spec (status_code response) 503); [lia|].
    now rewrite andb_false_r. }
  pose proof (urlopen_permanent (retry_strategy rq) server response took k
                E Hno (Z.to_nat (total (retry_strategy rq))) 0
                (Nat.le_0_l k)) as Hperm.
  pose proof (urlopen_sends (retry_strategy rq) server
                (Z.to_nat (total (retry_strategy rq))) 0) as Hone.
  unfold get. rewrite Hd. cbn [session_get].
  destruct (urlopen (retry_strategy rq) server
                    (Z.to_nat (total (retry_strategy rq))) 0)
    as [[o n] d]. cbn [fst snd] in Hperm, Hone.
  destruct o as [resp|e];
    rewrite !sends_app, sends_sleep, sends_repeat, ?sends_stamp;
    (split; [simpl; lia|]); intros Hk;
    (destruct Hperm as [Ho Hn]; [simpl in *; lia|]);
    [injection Ho as -> | discriminate].
  split; [reflexivity | simpl in *; lia].
Qed.


(** C8 (as amended).  The blocking requester keeps one record per
    network location of the URL: a request leaves the pacing of every
    other location as it was, and the time of an answered request is
    what the next request to the same location reads, which sleeps for
    what is missing of [min_delay] since that time and not at all once
    [min_delay] has passed.  The cooperative pacer keeps one record
    per platform detected in the URL: a request leaves the pacing of
    every other platform as it was, and its stamp is what the next
    request of its platform reads, whatever its host, which sleeps for
    what is missing of the drawn interval since that stamp. *)
Theorem C8_one_pacing_record_per_key :
  (forall (rq : t) (now : Q) (url1 url2 d1 d2 : string) (ep : endpoint)
          o rq' now' evs,
      _get_domain url1 = Some d1 ->
      _get_domain url2 = Some d2 ->
      get rq now url1 ep = (o, rq', now', evs) ->
      (d1 <> d2 ->
       forall t, _wait_if_needed rq' t d2 = _wait_if_needed rq t d2)
      /\ (d1 = d2 ->
          forall response,
            o = Returns (Some response) ->
            last_request_time rq' !! d2 = Some now'
            /\ forall t ep2,
                ((t - now' < min_delay rq)%Q ->
                 exists rest,
                   snd (get rq' t url2 ep2)
                   = Sleep (min_delay rq - (t - now')) :: rest
                   /\ List.filter is_sleep rest = [])
                /\ ((min_delay rq <= t - now')%Q ->
                    List.filter is_sleep (snd (get rq' t url2 ep2)) = [])))
  /\ (forall (m : PlatformStrategyManager.t) (now u : Q)
             (url1 url2 : string) m' now' evs,
         PlatformStrategyManager.wait_if_needed m now u url1
         = Some (m', now', evs) ->
         (PlatformStrategyManager.detect_platform url1
          <> PlatformStrategyManager.detect_platform url2 ->
          forall s t u2,
            PlatformStrategyManager.required_wait
              m' s (PlatformStrategyManager.detect_platform url2) t u2
            = PlatformStrategyManager.required_wait
                m s (PlatformStrategyManager.detect_platform url2) t u2)
         /\ (PlatformStrategyManager.detect_platform url1
             = PlatformStrategyManager.detect_platform url2 ->
             PlatformStrategyManager._last_request_times m'
             !! PlatformStrategyManager.detect_platform url2
             = Some now'
             /\ forall t u2 strategy,
                 PlatformStrategyManager.get_strategy
                   m' (PlatformStrategyManager.detect_platform url2)
                 = Some strategy ->
                 let platform := PlatformStrategyManager.detect_platform url2 in
                 let interval :=
                   PlatformStrategy.get_request_interval strategy u2 in
                 ((t - now' < interval)%Q ->
                  exists m2,
                    PlatformStrategyManager.wait_if_needed m' t u2 url2
                    = Some (m2, (t + (interval - (t - now')))%Q,
                            [Sleep (interval - (t - now'));
                             Stamp platform (t + (interval - (t - now')))%Q]))
                 /\ ((interval <= t - now')%Q ->
                     exists m2,
                       PlatformStrategyManager.wait_if_needed m' t u2 url2
                       = Some (m2, t, [Stamp platform t])))).
Proof.
  split.
  - intros rq now url1 url2 d1 d2 ep o rq' now' evs Hd1 Hd2 Hget.
    unfold get in Hget. rewrite Hd1 in Hget.
    destruct (session_get (retry_strategy rq) ep) as [[[resp|e] n] took];
      injection Hget as <- <- <- <-.
    + split.
      * intros Hne t0. unfold _wait_if_needed. simpl.
        now rewrite lookup_insert_ne.
      * intros <- response _.
        split; [simpl; apply lookup_insert_eq|].
        intros t0 ep2.
        set (t1 := (after_sleep now (_wait_if_needed rq now d1) + took)%Q).
        unfold get. rewrite Hd2.
        assert (Hw : _wait_if_needed (_update_last_request_time rq d1 t1) t0 d1
                     = if Qltb (t0 - t1) (min_delay rq)
                       then Some (min_delay rq - (t0 - t1))%Q else None).
        { unfold _wait_if_needed. simpl. now rewrite lookup_insert_eq. }
        rewrite Hw.
        destruct (session_get _ ep2) as [[[resp2|e2] n2] took2];
          destruct (Qltb_spec (t0 - t1) (min_delay rq)) as [Hlt|Hge];
          simpl; split; intros Hcmp; try lra;
          try (eexists; split; [reflexivity|]);
          rewrite ?List.filter_app, ?is_sleep_sends; reflexivity.
    + split; [reflexivity | discriminate].
  - intros m now u url1 url2 m' now' evs Hwait.
    unfold PlatformStrategyManager.wait_if_needed in Hwait.
    destruct (PlatformStrategyManager.get_strategy m _) as [s|];
      [|discriminate].
    injection Hwait as <- Hnow <-. rewrite Hnow. clear Hnow. split.
    + intros Hne s' t0 u2.
      unfold PlatformStrategyManager.required_wait. simpl.
      now rewrite lookup_insert_ne.
    + intros Hsame.
      split; [rewrite <- Hsame; simpl; apply lookup_insert_eq|].
      intros t0 u2 strategy Hs platform interval.
      unfold PlatformStrategyManager.wait_if_needed. fold platform.
      fold platform in Hs. rewrite Hs.
      unfold PlatformStrategyManager.required_wait. fold interval.
      assert (Hlast : PlatformStrategyManager._last_request_times
                        (PlatformStrategyManager.stamp
                           m (PlatformStrategyManager.detect_platform url1)
                           now')
                      !! platform
                      = Some now').
      { unfold platform. rewrite <- Hsame. simpl. apply lookup_insert_eq. }
      rewrite Hlast. change (default 0%Q (Some now')) with now'.
      destruct (Qltb_spec (t0 - now') interval) as [Hlt|Hge];
        simpl; split; intros Hcmp; try lra; eexists; reflexivity.
Qed.


(** A request that raises inside [get] leaves the records as they
    were. *)
Lemma get_raised_keeps_records rq now url domain ep e n took :
  _get_domain url = Some domain ->
  session_get (retry_strategy rq) ep = (Raises e, n, took) ->
  let '(o, rq', now', evs) := get rq now url ep in
  o = Returns None /\ has_stamp evs = false /\ rq' = rq.
Proof.
  intros Hd Hs. rewrite (get_raised rq now url domain _ _ _ _ Hd Hs).
  split; [reflexivity|]. split; [apply has_stamp_sends | reflexivity].
Qed.

End WithLib.
End RequesterFacts.

(** ** The batch drivers *)

Module BatchFacts.
Import Batch.

Lemma Qltb_false a b : SafeRequester.Qltb a b = false <-> (b <= a)%Q.
Proof.
  unfold SafeRequester.Qltb. rewrite negb_false_iff. apply Qle_bool_iff.
Qed.

Section Sequential.
Context {S A : Type}.
Variable processor_func : string -> S -> outcome A * S.

Lemma process_batch_app l1 l2 s :
  process_batch processor_func (l1 ++ l2)%list s =
    let '(r1, s1, e1) := process_batch processor_func l1 s in
    let '(r2, s2, e2) := process_batch processor_func l2 s1 in
    ((r1 ++ r2)%list, s2, (e1 ++ e2)%list).
Proof.
  revert s. induction l1 as [|u l1 IH]; intros s; simpl.
  - now destruct (process_batch processor_func l2 s) as [[r2 s2] e2].
  - destruct (processor_func u s) as [o s']. rewrite IH.
    destruct (process_batch processor_func l1 s') as [[r1 s1] e1].
    now destruct (process_batch processor_func l2 s1) as [[r2 s2] e2].
Qed.

Lemma process_batch_events urls s :
  snd (process_batch processor_func urls s) = map Call urls.
Proof.
  revert s. induction urls as [|u urls IH]; intros s; simpl; [reflexivity|].
  destruct (processor_func u s) as [o s']. specialize (IH s').
  destruct (process_batch processor_func urls s') as [[r s1] e]. simpl in *. congruence.
Qed.

Lemma process_batch_length urls s :
  length (fst (fst (process_batch processor_func urls s))) = length urls.
Proof.
  revert s. induction urls as [|u urls IH]; intros s; simpl; [reflexivity|].
  destruct (processor_func u s) as [o s']. specialize (IH s').
  destruct (process_batch processor_func urls s') as [[r s1] e]. simpl in *. congruence.
Qed.

(** Slot [i] holds what unit [i] ended with. *)
Lemma process_batch_slot urls s i url s_i :
  urls !! i = Some url ->
  start_states processor_func urls s !! i = Some s_i ->
  fst (fst (process_batch processor_func urls s)) !! i
  = Some (slot_of url (fst (processor_func url s_i))).
Proof.
  revert s i. induction urls as [|u urls IH]; intros s i; [discriminate|].
  destruct i as [|i]; simpl.
  - intros [= ->] [= ->].
    destruct (processor_func url s_i) as [o s'].
    now destruct (process_batch processor_func urls s') as [[r s1] e].
  - intros Hu Hs. specialize (IH _ _ Hu Hs).
    destruct (processor_func u s) as [o s']. simpl in IH.
    destruct (process_batch processor_func urls s') as [[r s1] e].
    exact IH.
Qed.

Lemma calls_app l1 l2 :
  List.filter is_call (l1 ++ l2)%list
  = (List.filter is_call l1 ++ List.filter is_call l2)%list.
Proof. apply List.filter_app. Qed.

Lemma calls_map urls : List.filter is_call (map Call urls) = map Call urls.
Proof. induction urls; simpl; congruence. Qed.

(** The outer loop runs the units that are left, in order. *)
Lemma run_batches_rest urls batch_size batch_delay fuel :
  0 < batch_size ->
  (0 <= batch_delay)%Q ->
  forall i results s log,
    0 <= i ->
    (Z.to_nat (Z.of_nat (length urls) - i) <= fuel)%nat ->
    exists log',
      run_batches processor_func urls batch_size batch_delay
        (range_from fuel i (Z.of_nat (length urls)) batch_size)
        results s log
      = (Returns
           (results
            ++ fst (fst (process_batch processor_func (skipn (Z.to_nat i) urls) s)))%list,
         snd (fst (process_batch processor_func (skipn (Z.to_nat i) urls) s)),
         log')
      /\ List.filter is_call log'
         = (List.filter is_call log
            ++ map Call (skipn (Z.to_nat i) urls))%list.
Proof.
  intros Hbs Hdelay. apply Qltb_false in Hdelay.
  induction fuel as [|fuel IH]; intros i results s log Hi Hfuel.
  - simpl. rewrite skipn_all2 by lia. simpl.
    exists log. now rewrite !app_nil_r.
  - simpl. destruct (Z.ltb_spec i (Z.of_nat (length urls))) as [Hlt|Hge].
    + simpl.
      assert (Hsplit : skipn (Z.to_nat i) urls
                       = (firstn (Z.to_nat batch_size)
                                 (skipn (Z.to_nat i) urls)
                          ++ skipn (Z.to_nat (i + batch_size)) urls)%list).
      { rewrite Z2Nat.inj_add by lia.
        rewrite (Nat.add_comm (Z.to_nat i)), <- skipn_skipn.
        now rewrite firstn_skipn. }
      pose proof (process_batch_app
                    (firstn (Z.to_nat batch_size) (skipn (Z.to_nat i) urls))
                    (skipn (Z.to_nat (i + batch_size)) urls) s) as Hpb.
      rewrite <- Hsplit in Hpb.
      assert (Hmap : map Call (skipn (Z.to_nat i) urls)
                     = (map Call (firstn (Z.to_nat batch_size)
                                         (skipn (Z.to_nat i) urls))
                        ++ map Call (skipn (Z.to_nat (i + batch_size)) urls))%list)
        by (rewrite Hsplit at 1; apply map_app).
      rewrite Hpb, Hmap. clear Hpb Hmap Hsplit.
      pose proof (process_batch_events
                    (firstn (Z.to_nat batch_size) (skipn (Z.to_nat i) urls))
                    s) as Hev.
      destruct (process_batch processor_func
                  (firstn (Z.to_nat batch_size) (skipn (Z.to_nat i) urls))
                  s) as [[r1 s1] e1].
      simpl in Hev. subst e1.
      destruct (i + batch_size <? Z.of_nat (length urls)); rewrite ?Hdelay;
        match goal with
        | |- context [run_batches _ _ _ _ _ ?res ?st ?lg] =>
            destruct (IH (i + batch_size) res st lg) as (log' & -> & Hc);
              [lia | lia |]
        end;
        destruct (process_batch processor_func (skipn (Z.to_nat (i + batch_size)) urls) s1)
          as [[r2 s2] e2]; simpl;
        exists log'; rewrite Hc, !calls_app, calls_map, <- !app_assoc;
        simpl; rewrite ?app_nil_r; split; reflexivity.
    + rewrite skipn_all2 by lia. simpl.
      exists log. now rewrite !app_nil_r.
Qed.

(** With a batch size of at least one and a delay that is not
    negative, the driver returns what one pass over all the URLs
    gives. *)
Lemma batch_process_urls_all urls batch_size batch_delay s :
  0 < batch_size ->
  (0 <= batch_delay)%Q ->
  exists log,
    batch_process_urls processor_func urls batch_size batch_delay s
    = (Returns (fst (fst (process_batch processor_func urls s))),
       snd (fst (process_batch processor_func urls s)), log)
    /\ List.filter is_call log = map Call urls.
Proof.
  intros Hbs Hdelay. unfold batch_process_urls, range0.
  destruct (Z.eqb_spec batch_size 0) as [->|_]; [lia|].
  destruct (Z.ltb_spec 0 batch_size) as [_|]; [|lia].
  destruct (run_batches_rest urls batch_size batch_delay
              (Z.to_nat (Z.of_nat (length urls))) Hbs Hdelay 0 [] s [])
    as (log & E & Hc); [lia | lia |].
  exists log. split; [exact E | exact Hc].
Qed.

End Sequential.

Section Cooperative.
Context {A : Type} {pv : PyValue A}.
Variable processor_func : nat -> string -> outcome A.
Variable progress_callback
  : option (phase -> string -> Z -> Z -> option exn).

(** A task never raises: whatever is raised inside is caught and
    becomes the error record of the task's own URL. *)
Lemma process_single_url_returns total url i :
  exists x,
    process_single_url processor_func progress_callback total url i
    = Returns x
    /\ (forall message u, x = ErrorRecord message u -> u = url).
Proof.
  unfold process_single_url.
  destruct (report progress_callback Started url _ total) as [e|].
  { eexists. split; [reflexivity|]. now intros m u [= _ ->]. }
  destruct (processor_func i url) as [r|e].
  - destruct (report progress_callback Finished url _ total) as [e|].
    + eexists. split; [reflexivity|]. now intros m u [= _ ->].
    + eexists. split; [reflexivity|]. discriminate.
  - eexists. split; [reflexivity|]. now intros m u [= _ ->].
Qed.

Lemma skipn_lookup {B} (l : list B) i x rest :
  skipn i l = x :: rest -> l !! i = Some x /\ skipn (S i) l = rest.
Proof.
  revert i. induction l as [|a l IH]; intros [|i]; simpl; try discriminate.
  - now intros [= -> ->].
  - intros E. destruct (IH i E) as [E1 E2]. split; [exact E1|].
    destruct l; [discriminate | exact E2].
Qed.

(** The loop after [gather] keeps the results of tasks that returned,
    in their order, except that a returned exception becomes an error
    record. *)
Lemma collect_returned all_urls :
  forall urls (task : nat -> string -> slot A) i acc,
    skipn i all_urls = urls ->
    collect all_urls i (imap (fun j url => Returns (task j url)) urls) acc
    = Returns
        (acc ++ imap (fun j url =>
                        match exception_message (Returns (task j url)) with
                        | Some message => ErrorRecord message url
                        | None => task j url
                        end) urls)%list.
Proof.
  induction urls as [|u urls IH]; intros task i acc Hskip.
  - cbn [imap collect]. now rewrite app_nil_r.
  - destruct (skipn_lookup _ _ _ _ Hskip) as [Hu Hrest].
    cbn [imap collect].
    destruct (exception_message (Returns (task 0%nat u))) as [message|].
    + rewrite Hu.
      etransitivity; [apply (IH (fun j => task (S j)) (S i) _ Hrest)|].
      now rewrite <- app_assoc.
    + etransitivity; [apply (IH (fun j => task (S j)) (S i) _ Hrest)|].
      now rewrite <- app_assoc.
Qed.

(** With room for at least one task, the driver completes, and slot
    [i] is what task [i] returned, or the error record of its URL when
    that is an exception. *)
Lemma async_batch_completed urls max_concurrent :
  0 < max_concurrent ->
  exists results,
    async_batch_process_urls processor_func progress_callback urls
                             max_concurrent
    = Completed results
    /\ length results = length urls
    /\ (forall i url,
           urls !! i = Some url ->
           exists x,
             process_single_url processor_func progress_callback
               (Z.of_nat (length urls)) url i
             = Returns x
             /\ results !! i
                = Some match exception_message (Returns x) with
                       | Some message => ErrorRecord message url
                       | None => x
                       end).
Proof.
  intros Hmc. unfold async_batch_process_urls.
  destruct (Z.ltb_spec max_concurrent 0); [lia|].
  destruct (Z.eqb_spec max_concurrent 0); [lia|]. cbn [andb].
  set (total := Z.of_nat (length urls)).
  set (unwrap := fun i url =>
         match process_single_url processor_func progress_callback
                 total url i with
         | Returns x => x
         | Raises e => ErrorRecord (exn_str e) url
         end).
  assert (Hunwrap : forall i url,
             process_single_url processor_func progress_callback total url i
             = Returns (unwrap i url)).
  { intros i url. unfold unwrap.
    destruct (process_single_url_returns total url i) as (x & E & _).
    now rewrite E. }
  rewrite (imap_ext _ (fun j url => Returns (unwrap j url)) urls)
    by (intros; apply Hunwrap).
  rewrite (collect_returned urls urls unwrap 0 [] eq_refl).
  eexists. split; [reflexivity|].
  split; [apply length_imap|].
  intros i url Hu. cbn [app]. rewrite list_lookup_imap, Hu.
  exists (unwrap i url). split; [apply Hunwrap | reflexivity].
Qed.

(** What the slot of a unit holds, by the way the unit went. *)
Lemma async_slot urls max_concurrent results i url :
  0 < max_concurrent ->
  async_batch_process_urls processor_func progress_callback urls
                           max_concurrent
  = Completed results ->
  urls !! i = Some url ->
  let total := Z.of_nat (length urls) in
  (forall e, report progress_callback Started url (Z.of_nat i) total = Some e ->
             results !! i = Some (ErrorRecord (exn_str e) url))
  /\ (report progress_callback Started url (Z.of_nat i) total = None ->
      (forall e, processor_func i url = Raises e ->
                 results !! i = Some (ErrorRecord (exn_str e) url))
      /\ (forall r,
             processor_func i url = Returns r ->
             (forall e,
                 report progress_callback Finished url (Z.of_nat i + 1) total
                 = Some e ->
                 results !! i = Some (ErrorRecord (exn_str e) url))
             /\ (report progress_callback Finished url (Z.of_nat i + 1) total
                 = None ->
                 (forall message,
                     exception_str r = Some message ->
                     results !! i = Some (ErrorRecord message url))
                 /\ (exception_str r = None ->
                     results !! i = Some (Value r))))).
Proof.
  intros Hmc E Hu total.
  destruct (async_batch_completed urls max_concurrent Hmc)
    as (results' & E' & _ & Hslots).
  rewrite E in E'. injection E' as <-.
  destruct (Hslots i url Hu) as (x & Hx & ->).
  unfold process_single_url in Hx. fold total in Hx.
  split.
  - intros e He. rewrite He in Hx. now injection Hx as <-.
  - intros Hstart. rewrite Hstart in Hx. split.
    + intros e He. rewrite He in Hx. now injection Hx as <-.
    + intros r Hr. rewrite Hr in Hx. split.
      * intros e He. rewrite He in Hx. now injection Hx as <-.
      * intros Hend. rewrite Hend in Hx. injection Hx as <-. simpl.
        split; [now intros message -> | now intros ->].
Qed.

End Cooperative.

(** C10.  Both drivers return one slot per URL, slot [i] holding what
    the unit of URL [i] ended with, however many units fail: the result
    of its processor, or the error record with the message of what was
    raised and the unit's own URL.  In the cooperative driver the
    record also stands for a unit whose progress callback raised, and
    for one whose processor returned an exception. *)
Theorem C10_one_slot_per_url_in_order :
  (forall (S A : Type) (processor_func : string -> S -> outcome A * S)
          (urls : list string) (batch_size : Z) (batch_delay : Q) (s : S),
      0 < batch_size ->
      (0 <= batch_delay)%Q ->
      exists results s' log,
        batch_process_urls processor_func urls batch_size batch_delay s
        = (Returns results, s', log)
        /\ length results = length urls
        /\ (forall i url s_i,
               urls !! i = Some url ->
               start_states processor_func urls s !! i = Some s_i ->
               (forall r s_j,
                   processor_func url s_i = (Returns r, s_j) ->
                   results !! i = Some (Value r))
               /\ (forall e s_j,
                      processor_func url s_i = (Raises e, s_j) ->
                      results !! i = Some (ErrorRecord (exn_str e) url)))
        /\ (forall i message url,
               results !! i = Some (ErrorRecord message url) ->
               urls !! i = Some url))
  /\ (forall (A : Type) (pv : PyValue A)
             (processor_func : nat -> string -> outcome A)
             progress_callback (urls : list string) (max_concurrent : Z),
         0 < max_concurrent ->
         exists results,
           async_batch_process_urls processor_func progress_callback urls
                                    max_concurrent
           = Completed results
           /\ length results = length urls
           /\ (forall i url,
                  urls !! i = Some url ->
                  let total := Z.of_nat (length urls) in
                  (forall e,
                      report progress_callback Started url (Z.of_nat i) total
                      = Some e ->
                      results !! i = Some (ErrorRecord (exn_str e) url))
                  /\ (report progress_callback Started url (Z.of_nat i) total
                      = None ->
                      (forall e,
                          processor_func i url = Raises e ->
                          results !! i = Some (ErrorRecord (exn_str e) url))
                      /\ (forall r,
                             processor_func i url = Returns r ->
                             (forall e,
                                 report progress_callback Finished url
                                        (Z.of_nat i + 1) total
                                 = Some e ->
                                 results !! i
                                 = Some (ErrorRecord (exn_str e) url))
                             /\ (report progress_callback Finished url
                                        (Z.of_nat i + 1) total
                                 = None ->
                                 (forall message,
                                     exception_str r = Some message ->
                                     results !! i
                                     = Some (ErrorRecord message url))
                                 /\ (exception_str r = None ->
                                     results !! i = Some (Value r))))))
           /\ (forall i message url,
                  results !! i = Some (ErrorRecord message url) ->
                  urls !! i = Some url)).
Proof.
  split.
  - intros S A processor_func urls batch_size batch_delay s Hbs Hdelay.
    destruct (batch_process_urls_all processor_func urls batch_size
                batch_delay s Hbs Hdelay) as (log & E & _).
    do 3 eexists. split; [exact E|].
    split; [apply process_batch_length|].
    split.
    { intros i url s_i Hu Hs.
      rewrite (process_batch_slot processor_func urls s i url s_i Hu Hs).
      split; intros x s_j ->; reflexivity. }
    intros i message url Hslot.
    assert (Hi : (i < length urls)%nat).
    { rewrite <- (process_batch_length processor_func urls s).
      now apply lookup_lt_Some in Hslot. }
    destruct (lookup_lt_is_Some_2 urls i Hi) as [u Hu].
    assert (Hs : (i < length (start_states processor_func urls s))%nat).
    { clear -Hi. revert s i Hi.
      induction urls as [|u urls IH]; intros s [|i] Hi; simpl in *; try lia.
      specialize (IH (snd (processor_func u s)) i). lia. }
    destruct (lookup_lt_is_Some_2 _ i Hs) as [s_i Hsi].
    rewrite (process_batch_slot processor_func urls s i u s_i Hu Hsi) in Hslot.
    destruct (fst (processor_func u s_i)); simpl in Hslot;
      [discriminate | now injection Hslot as _ <-].
  - intros A pv processor_func progress_callback urls max_concurrent Hmc.
    destruct (async_batch_completed processor_func progress_callback urls
                max_concurrent Hmc) as (results & E & Hlen & Hslots).
    exists results. split; [exact E|]. split; [exact Hlen|]. split.
    + intros i url Hu.
      exact (async_slot processor_func progress_callback urls max_concurrent
                        results i url Hmc E Hu).
    + intros i message url Hslot.
      assert (Hi : (i < length urls)%nat).
      { rewrite <- Hlen. now apply lookup_lt_Some in Hslot. }
      destruct (lookup_lt_is_Some_2 urls i Hi) as [u Hu].
      destruct (Hslots i u Hu) as (x & Hx & Ex).
      rewrite Ex in Hslot.
      destruct (process_single_url_returns processor_func progress_callback
                  (Z.of_nat (length urls)) u i) as (x' & Ex' & Hurl).
      rewrite Hx in Ex'. injection Ex' as <-.
      destruct (exception_message (Returns x)) as [m|].
      * assert (u = url) by congruence. now subst.
      * assert (Hrecord : x = ErrorRecord message url) by congruence.
        now rewrite (Hurl message url Hrecord).
Qed.


(** C4.  In both drivers an exception raised while a unit is processed
    is caught and recorded, with its message and the unit's URL, in the
    slot of that unit; every unit is run, and the call returns.  Of
    five URLs whose third raises and whose others return results, four
    slots hold results and one holds an error record.  In the
    cooperative driver a result that is itself an exception is
    recorded as a failure as well. *)
Theorem C4_unit_failures_are_isolated :
  (forall (S A : Type) (processor_func : string -> S -> outcome A * S)
          (urls : list string) (batch_size : Z) (batch_delay : Q) (s : S),
      0 < batch_size ->
      (0 <= batch_delay)%Q ->
      exists results s' log,
        batch_process_urls processor_func urls batch_size batch_delay s
        = (Returns results, s', log)
        /\ List.filter is_call log = map Call urls
        /\ (forall i url s_i e s_j,
               urls !! i = Some url ->
               start_states processor_func urls s !! i = Some s_i ->
               processor_func url s_i = (Raises e, s_j) ->
               results !! i = Some (ErrorRecord (exn_str e) url))
        /\ (forall i url s_i r s_j,
               urls !! i = Some url ->
               start_states processor_func urls s !! i = Some s_i ->
               processor_func url s_i = (Returns r, s_j) ->
               results !! i = Some (Value r)))
  /\ (forall (A : Type) (pv : PyValue A)
             (processor_func : nat -> string -> outcome A)
             progress_callback (urls : list string) (max_concurrent : Z),
         0 < max_concurrent ->
         exists results,
           async_batch_process_urls processor_func progress_callback urls
                                    max_concurrent
           = Completed results
           /\ length results = length urls
           /\ (forall i url e,
                  urls !! i = Some url ->
                  report progress_callback Started url (Z.of_nat i)
                         (Z.of_nat (length urls)) = None ->
                  processor_func i url = Raises e ->
                  results !! i = Some (ErrorRecord (exn_str e) url))
           /\ (forall i url r,
                  urls !! i = Some url ->
                  report progress_callback Started url (Z.of_nat i)
                         (Z.of_nat (length urls)) = None ->
                  processor_func i url = Returns r ->
                  report progress_callback Finished url (Z.of_nat i + 1)
                         (Z.of_nat (length urls)) = None ->
                  (exception_str r = None ->
                   results !! i = Some (Value r))
                  /\ (forall message,
                         exception_str r = Some message ->
                         results !! i = Some (ErrorRecord message url))))
  /\ (forall (S A : Type) (processor_func : string -> S -> outcome A * S)
             (u1 u2 u3 u4 u5 : string) (batch_size : Z) (batch_delay : Q)
             (s : S),
         0 < batch_size ->
         (0 <= batch_delay)%Q ->
         (forall s, exists e s', processor_func u3 s = (Raises e, s')) ->
         (forall u s, In u [u1; u2; u4; u5] ->
                      exists r s', processor_func u s = (Returns r, s')) ->
         exists results s' log,
           batch_process_urls processor_func [u1; u2; u3; u4; u5]
                              batch_size batch_delay s
           = (Returns results, s', log)
           /\ succeeded results = 4%nat
           /\ failed results = 1%nat)
  /\ (forall (A : Type) (pv : PyValue A)
             (processor_func : nat -> string -> outcome A)
             (u1 u2 u3 u4 u5 : string) (max_concurrent : Z),
         0 < max_concurrent ->
         (exists e, processor_func 2%nat u3 = Raises e) ->
         (forall i u, i <> 2%nat ->
                      exists r, processor_func i u = Returns r
                                /\ exception_str r = None) ->
         exists results,
           async_batch_process_urls processor_func None
                                    [u1; u2; u3; u4; u5] max_concurrent
           = Completed results
           /\ succeeded results = 4%nat
           /\ failed results = 1%nat).
Proof.
  split; [|split; [|split]].
  - intros S A processor_func urls batch_size batch_delay s Hbs Hdelay.
    destruct (batch_process_urls_all processor_func urls batch_size
                batch_delay s Hbs Hdelay) as (log & E & Hcalls).
    do 3 eexists. split; [exact E|]. split; [exact Hcalls|]. split.
    + intros i url s_i e s_j Hu Hs Hraise.
      rewrite (process_batch_slot processor_func urls s i url s_i Hu Hs).
      now rewrite Hraise.
    + intros i url s_i r s_j Hu Hs Hret.
      rewrite (process_batch_slot processor_func urls s i url s_i Hu Hs).
      now rewrite Hret.
  - intros A pv processor_func progress_callback urls max_concurrent Hmc.
    destruct (async_batch_completed processor_func progress_callback urls
                max_concurrent Hmc) as (results & E & Hlen & _).
    exists results. split; [exact E|]. split; [exact Hlen|]. split.
    + intros i url e Hu Hstart Hraise.
      destruct (async_slot processor_func progress_callback urls
                  max_concurrent results i url Hmc E Hu) as [_ Hrun].
      now apply (Hrun Hstart).
    + intros i url r Hu Hstart Hret Hdone.
      destruct (async_slot processor_func progress_callback urls
                  max_concurrent results i url Hmc E Hu) as [_ Hrun].
      destruct (Hrun Hstart) as [_ Hreturned].
      destruct (Hreturned r Hret) as [_ Hend].
      destruct (Hend Hdone) as [Hexn Hvalue]. split; assumption.
  - intros S A processor_func u1 u2 u3 u4 u5 batch_size batch_delay s
           Hbs Hdelay Hbad Hgood.
    destruct (batch_process_urls_all processor_func [u1; u2; u3; u4; u5]
                batch_size batch_delay s Hbs Hdelay) as (log & E & _).
    do 3 eexists. split; [exact E|]. simpl.
    destruct (Hgood u1 s) as (r1 & s1 & ->); [simpl; tauto|].
    destruct (Hgood u2 s1) as (r2 & s2 & ->); [simpl; tauto|].
    destruct (Hbad s2) as (e & s3 & ->).
    destruct (Hgood u4 s3) as (r4 & s4 & ->); [simpl; tauto|].
    destruct (Hgood u5 s4) as (r5 & s5 & ->); [simpl; tauto|].
    split; reflexivity.
  - intros A pv processor_func u1 u2 u3 u4 u5 max_concurrent Hmc [e Hbad]
           Hgood.
    unfold async_batch_process_urls.
    destruct (Z.ltb_spec max_concurrent 0); [lia|].
    destruct (Z.eqb_spec max_concurrent 0); [lia|]. simpl.
    unfold process_single_url. simpl.
    destruct (Hgood 0%nat u1) as (r1 & -> & E1); [lia|].
    destruct (Hgood 1%nat u2) as (r2 & -> & E2); [lia|].
    rewrite Hbad.
    destruct (Hgood 3%nat u4) as (r4 & -> & E4); [lia|].
    destruct (Hgood 4%nat u5) as (r5 & -> & E5); [lia|].
    simpl. rewrite E1, E2, E4, E5. simpl.
    eexists. split; [reflexivity|]. split; reflexivity.
Qed.

End BatchFacts.

(** ** The cooperative pacer under interleaving *)

Module CoopFacts.
Import PlatformStrategyManager Coop.

(** What a step does to the task it runs, and that it touches no
    other. *)
Lemma step_other st a st' i j :
  step st a = Some st' ->
  i = match a with Start k _ _ | Wake k _ => k end ->
  j <> i ->
  tasks st' !! j = tasks st !! j.
Proof.
  intros Hstep -> Hne. destruct a as [k t u|k t]; simpl in *.
  - destruct (tasks st !! k) as [[url| |]|]; try discriminate.
    destruct (negb _); [discriminate|].
    destruct (get_strategy _ _) as [s|]; [|discriminate].
    destruct (required_wait _ _ _ _ _); injection Hstep as <-; simpl;
      now apply list_lookup_insert_ne.
  - destruct (tasks st !! k) as [[|p l e w|]|]; try discriminate.
    destruct (negb _); [discriminate|].
    injection Hstep as <-. simpl. now apply list_lookup_insert_ne.
Qed.

(** A task that has been suspended stays so. *)
Lemma step_suspended st a st' j tk :
  step st a = Some st' ->
  tasks st !! j = Some tk ->
  suspended tk = true ->
  exists tk', tasks st' !! j = Some tk' /\ suspended tk' = true.
Proof.
  intros Hstep Hj Hsusp.
  destruct (Nat.eq_dec j (match a with Start k _ _ | Wake k _ => k end))
    as [->|Hne].
  - destruct a as [k t u|k t]; simpl in *; rewrite Hj in Hstep.
    + destruct tk; try discriminate.
    + destruct tk as [|p l e w|]; try discriminate.
      destruct (negb _); [discriminate|].
      injection Hstep as <-. simpl.
      eexists. split;
        [apply list_lookup_insert_eq; now apply lookup_lt_Some in Hj|].
      reflexivity.
  - exists tk. split; [|exact Hsusp].
    now rewrite (step_other st a st' _ j Hstep eq_refl Hne).
Qed.

Lemma run_suspended st schedule st' j tk :
  run st schedule = Some st' ->
  tasks st !! j = Some tk ->
  suspended tk = true ->
  exists tk', tasks st' !! j = Some tk' /\ suspended tk' = true.
Proof.
  revert st tk. induction schedule as [|a rest IH]; intros st tk; simpl.
  - intros [= <-] Hj Hs. now exists tk.
  - destruct (step st a) as [st1|] eqn:Hstep; [|discriminate].
    intros Hrun Hj Hs.
    destruct (step_suspended st a st1 j tk Hstep Hj Hs) as (tk1 & Hj1 & Hs1).
    now apply (IH st1 tk1).
Qed.

Lemma not_suspended_lookup (l : list task) j tk :
  forallb (fun tk => negb (suspended tk)) l = true ->
  l !! j = Some tk -> suspended tk = false.
Proof.
  intros Hall Hj. rewrite forallb_forall in Hall.
  apply negb_true_iff, Hall. apply list_elem_of_In.
  now apply list_elem_of_lookup_2 with j.
Qed.

(** A step after which nothing is suspended was the whole of a task:
    its check and its update, next to each other. *)
Lemma step_in_turn st a st' :
  step st a = Some st' ->
  forallb (fun tk => negb (suspended tk)) (tasks st') = true ->
  forallb (fun tk => negb (suspended tk)) (tasks st) = true
  /\ exists i p,
      history st' = (history st ++ [Checked i p; Updated i p])%list.
Proof.
  intros Hstep Hall.
  assert (Hback : forallb (fun tk => negb (suspended tk)) (tasks st) = true).
  { apply forallb_forall. intros tk Hin. apply negb_true_iff.
    destruct (suspended tk) eqn:Hs; [|reflexivity].
    apply list_elem_of_In, list_elem_of_lookup in Hin as [j Hj].
    destruct (step_suspended st a st' j tk Hstep Hj Hs) as (tk' & Hj' & Hs').
    now rewrite (not_suspended_lookup _ j tk' Hall Hj') in Hs'. }
  split; [exact Hback|].
  destruct a as [k t u|k t]; simpl in Hstep.
  - destruct (tasks st !! k) as [[url| |]|] eqn:Hk; try discriminate.
    destruct (negb _); [discriminate|].
    destruct (get_strategy _ _) as [s|]; [|discriminate].
    destruct (required_wait _ _ _ _ _) as [w|]; injection Hstep as <-.
    + exfalso. simpl in Hall.
      assert (Hlt : (k < length (tasks st))%nat)
        by now apply lookup_lt_Some in Hk.
      pose proof (list_lookup_insert_eq (tasks st) k
                    (Sleeping (detect_platform url)
                       (default 0%Q (_last_request_times (manager st)
                                      !! detect_platform url))
                       (t - default 0%Q (_last_request_times (manager st)
                                           !! detect_platform url))%Q
                       (t + w)%Q) Hlt) as Hins.
      pose proof (not_suspended_lookup _ _ _ Hall Hins) as Hf.
      discriminate Hf.
    + simpl. now exists k, (detect_platform url).
  - exfalso.
    destruct (tasks st !! k) as [[|p l e w|]|] eqn:Hk; try discriminate.
    pose proof (not_suspended_lookup _ _ _ Hback Hk) as Hf.
    discriminate Hf.
Qed.

Lemma run_in_turn st schedule st' :
  run st schedule = Some st' ->
  forallb (fun tk => negb (suspended tk)) (tasks st') = true ->
  exists l, history st' = (history st ++ in_turn l)%list.
Proof.
  revert st. induction schedule as [|a rest IH]; intros st; simpl.
  - intros [= <-] _. exists []. simpl. now rewrite app_nil_r.
  - destruct (step st a) as [st1|] eqn:Hstep; [|discriminate].
    intros Hrun Hall.
    destruct (IH st1 Hrun Hall) as (l & Hl).
    assert (H1 : forallb (fun tk => negb (suspended tk)) (tasks st1) = true).
    { apply forallb_forall. intros tk Hin. apply negb_true_iff.
      destruct (suspended tk) eqn:Hs; [|reflexivity].
      apply list_elem_of_In, list_elem_of_lookup in Hin as [j Hj].
      destruct (run_suspended st1 rest st' j tk Hrun Hj Hs)
        as (tk' & Hj' & Hs').
      now rewrite (not_suspended_lookup _ j tk' Hall Hj') in Hs'. }
    destruct (step_in_turn st a st1 Hstep H1) as (_ & i & p & Hh).
    exists ((i, p) :: l). rewrite Hl, Hh. simpl.
    now rewrite <- app_assoc.
Qed.

Lemma exclusive_in_turn l : exclusive (in_turn l) = true.
Proof.
  unfold exclusive. induction l as [|[i p] l IH]; simpl; [reflexivity|].
  unfold same_access. simpl.
  now rewrite String.eqb_refl, Nat.eqb_refl.
Qed.

(** C9 (as amended).  The check and the update of a request are one
    uninterrupted step when the request needs no wait, and in an
    execution in which no request is suspended every check-and-update
    is exclusive.  A request that has to wait gives way between its
    check and its update: it leaves the record as it read it, and
    stamps it only when it is resumed. *)
Theorem C9_exclusive_unless_suspended :
  (forall (m : PlatformStrategyManager.t) (now : Q) (urls : list string)
          (schedule : list action) (st : state),
      run (start_state m now urls) schedule = Some st ->
      forallb (fun tk => negb (suspended tk)) (tasks st) = true ->
      exclusive (history st) = true)
  /\ (forall (st st' : state) (i : nat) (t u : Q) (url : string) strategy,
         tasks st !! i = Some (Ready url) ->
         get_strategy (manager st) (detect_platform url) = Some strategy ->
         step st (Start i t u) = Some st' ->
         let platform := detect_platform url in
         let last_time :=
           default 0%Q (_last_request_times (manager st) !! platform) in
         match required_wait (manager st) strategy platform t u with
         | None =>
             history st'
             = (history st ++ [Checked i platform; Updated i platform])%list
             /\ _last_request_times (manager st') !! platform = Some t
         | Some w =>
             history st' = (history st ++ [Checked i platform])%list
             /\ manager st' = manager st
             /\ tasks st' !! i
                = Some (Sleeping platform last_time (t - last_time)%Q
                                 (t + w)%Q)
         end)
  /\ (forall (st st' : state) (i : nat) (t : Q) platform last_time since wake,
         tasks st !! i = Some (Sleeping platform last_time since wake) ->
         step st (Wake i t) = Some st' ->
         (wake <= t)%Q
         /\ history st' = (history st ++ [Updated i platform])%list
         /\ _last_request_times (manager st') !! platform = Some t).
Proof.
  split; [|split].
  - intros m now urls schedule st Hrun Hall.
    destruct (run_in_turn _ _ _ Hrun Hall) as (l & ->). simpl.
    apply exclusive_in_turn.
  - intros st st' i t u url strategy Hi Hs Hstep platform last_time.
    simpl in Hstep. rewrite Hi in Hstep.
    destruct (negb _); [discriminate|].
    fold platform in Hstep. unfold platform in Hs. fold platform in Hs.
    rewrite Hs in Hstep.
    destruct (required_wait (manager st) strategy platform t u) as [w|];
      injection Hstep as <-; simpl.
    + split; [reflexivity|]. split; [reflexivity|].
      apply list_lookup_insert_eq. now apply lookup_lt_Some in Hi.
    + split; [reflexivity|]. apply lookup_insert_eq.
  - intros st st' i t platform last_time since wake Hi Hstep.
    simpl in Hstep. rewrite Hi in Hstep.
    destruct (Qle_bool (clock st) t && Qle_bool wake t) eqn:E;
      [|discriminate].
    injection Hstep as <-. simpl.
    apply andb_true_iff in E as [_ E]. apply Qle_bool_iff in E.
    split; [exact E|]. split; [reflexivity|]. apply lookup_insert_eq.
Qed.

End CoopFacts.

(** ** The cache keeps itself consistent *)

Module CacheInvariant.
Import PyStrFacts PyDictFacts DocumentCache CacheFacts.

Lemma length_append u v :
  String.length (u ++ v) = (String.length u + String.length v)%nat.
Proof. induction u as [|c u IH]; simpl; congruence. Qed.

Lemma append_inj u v s : u ++ s = v ++ s -> u = v.
Proof.
  revert v. induction u as [|c u IH]; intros [|d v] E; simpl in E.
  - reflexivity.
  - apply (f_equal String.length) in E. simpl in E.
    rewrite length_append in E. lia.
  - apply (f_equal String.length) in E. simpl in E.
    rewrite length_append in E. lia.
  - injection E as -> E. now rewrite (IH v E).
Qed.

Lemma cache_file_path_inj h1 h2 :
  _get_cache_file_path h1 = _get_cache_file_path h2 -> h1 = h2.
Proof. apply append_inj. Qed.

Section Cache.
Context {lib : Urllib.Lib} {os : Os} {R : Type}.
Variable dump_size : @cache_data R -> Z.
Hypothesis dump_size_pos : forall d, 0 < dump_size d.

Lemma consistent_empty hours budget :
  consistent (Cache hours budget [] (∅ : gmap string (@file R))).
Proof.
  split; [constructor|]. split.
  - intros h e [].
  - intros name f E. simpl in E. now rewrite lookup_empty in E.
Qed.

Lemma consistent_remove (c : @t R) h :
  consistent c -> consistent (_remove_cache_entry c h).
Proof.
  intros Hc. destruct (remove_cases c h) as [-> | ->]; [exact Hc|].
  destruct Hc as (Hnd & Hfile & Hnn). split; [|split]; simpl.
  - now apply keys_del_NoDup.
  - intros k e Hin. apply in_del in Hin as [Hin Hne]. simpl in Hne.
    destruct (Hfile k e Hin) as (f & Ef & Hf).
    exists f. split; [|exact Hf].
    rewrite lookup_delete_ne; [exact Ef|].
    intros E. apply Hne. symmetry. now apply cache_file_path_inj.
  - intros name f E. apply lookup_delete_Some in E as [_ E]. eauto.
Qed.

Lemma consistent_evict es idx (c : @t R) :
  consistent c -> consistent (fst (evict es idx c)).
Proof.
  revert c. induction idx as [|i idx IH]; intros c Hc; simpl; [exact Hc|].
  destruct (nth_error es i) as [[h e]|]; [|exact Hc].
  now apply IH, consistent_remove.
Qed.

Lemma consistent_cleanup (c : @t R) :
  consistent c -> consistent (fst (_cleanup_if_needed c)).
Proof.
  intros Hc. unfold _cleanup_if_needed, _cleanup_old_entries.
  destruct (Qgtb _ _); [now apply consistent_evict | exact Hc].
Qed.

(** Stores, lookups, sweeps and clearing all keep the cache
    consistent. *)
Lemma consistent_save_result (c : @t R) t_file t_index url P :
  consistent c ->
  consistent (snd (save_result dump_size c t_file t_index url P)).
Proof.
  intros Hc. destruct (_get_url_hash url) as [h|] eqn:Hh.
  - rewrite (save_result_cache dump_size c t_file t_index url h P Hh).
    now apply consistent_cleanup, stored_consistent.
  - unfold save_result. now rewrite Hh.
Qed.

Lemma consistent_get_cached_result (c : @t R) now url :
  consistent c -> consistent (snd (get_cached_result c now url)).
Proof.
  intros Hc. unfold get_cached_result.
  destruct (_get_url_hash url) as [h|]; [|exact Hc].
  destruct (negb _).
  - destruct (PyDict.get h (entries c)) as [e|]; [|exact Hc].
    destruct (truthy e); [now apply consistent_remove | exact Hc].
  - destruct (files c !! _get_cache_file_path h) as [[sz [d|]]|];
      [exact Hc | now apply consistent_remove
       | now apply consistent_remove].
Qed.

Lemma consistent_cleanup_expired (c : @t R) now :
  consistent c -> consistent (snd (cleanup_expired c now)).
Proof.
  intros Hc. unfold cleanup_expired. simpl.
  generalize (map fst
                (List.filter
                   (fun kv => Qgtb (now - cached_at_key kv)%Q
                                   (cache_expiry_seconds c))
                   (entries c))).
  intros hs. revert c Hc.
  induction hs as [|h hs IH]; intros c Hc; simpl; [exact Hc|].
  now apply IH, consistent_remove.
Qed.

Lemma insert_by_position_perm x l :
  Permutation (insert_by_position x l) (x :: l).
Proof.
  induction l as [|y l IH]; simpl; [reflexivity|].
  destruct (_ <=? _)%nat; [reflexivity|].
  eapply perm_trans; [apply perm_skip, IH | apply perm_swap].
Qed.

(** [glob] lists the names of the directory, each once. *)
Lemma glob_perm (fs : gmap string (@file R)) :
  Permutation (glob fs) (map fst (map_to_list fs)).
Proof.
  unfold glob. induction (map fst (map_to_list fs)) as [|x l IH]; simpl;
    [reflexivity|].
  eapply perm_trans; [apply insert_by_position_perm | now apply perm_skip].
Qed.

Lemma glob_lists (fs : gmap string (@file R)) name f :
  fs !! name = Some f -> In name (glob fs).
Proof.
  intros E. apply (Permutation_in _ (Permutation_sym (glob_perm fs))).
  apply in_map_iff. exists (name, f). split; [reflexivity|].
  apply list_elem_of_In. now apply elem_of_map_to_list.
Qed.

Lemma glob_listed (fs : gmap string (@file R)) name :
  In name (glob fs) -> is_Some (fs !! name).
Proof.
  intros Hin. apply (Permutation_in _ (glob_perm fs)) in Hin.
  apply in_map_iff in Hin as [[n f] [<- Hin]].
  apply list_elem_of_In, elem_of_map_to_list in Hin. now exists f.
Qed.

Lemma unlink_each_none names (fs : gmap string (@file R)) :
  (forall name, In name names -> unlink_raises name = false) ->
  snd (unlink_each names fs) = false
  /\ forall name,
       fst (unlink_each names fs) !! name
       = if existsb (String.eqb name) names then None else fs !! name.
Proof.
  revert fs. induction names as [|n names IH]; intros fs Hok; simpl;
    [now split|].
  rewrite (Hok n) by now left.
  destruct (IH (delete n fs)) as [E1 E2]; [intros; apply Hok; now right|].
  split; [exact E1|]. intros name. rewrite E2.
  destruct (String.eqb_spec name n) as [->|Hne]; simpl.
  - rewrite lookup_delete_eq. now destruct (existsb _ names).
  - rewrite lookup_delete_ne by congruence. reflexivity.
Qed.

(** When every file of the directory can be deleted, [clear_all] leaves
    an empty cache. *)
Lemma clear_all_done (c : @t R) :
  (forall name, is_Some (files c !! name) -> unlink_raises name = false) ->
  clear_all c = with_store c [] ∅.
Proof.
  intros Hok. unfold clear_all.
  destruct (unlink_each_none (glob (files c)) (files c)) as [E1 E2].
  { intros name Hin. now apply Hok, glob_listed. }
  destruct (unlink_each (glob (files c)) (files c)) as [fs raised].
  simpl in E1, E2. subst raised. f_equal.
  apply map_eq. intros name. rewrite E2, lookup_empty.
  destruct (existsb _ _) eqn:Ex; [reflexivity|].
  destruct (files c !! name) as [f|] eqn:Ef; [|reflexivity].
  exfalso. apply glob_lists in Ef.
  assert (existsb (String.eqb name) (glob (files c)) = true).
  { apply existsb_exists. exists name. split; [exact Ef|].
    apply String.eqb_refl. }
  congruence.
Qed.

Lemma consistent_clear_all (c : @t R) :
  (forall name, is_Some (files c !! name) -> unlink_raises name = false) ->
  consistent (clear_all c).
Proof. intros Hok. rewrite clear_all_done by exact Hok. apply consistent_empty. Qed.

End Cache.
End CacheInvariant.

(** ** Stores, lookups and sweeps of the cache *)

Module CacheMore.
Import PyStr PyStrFacts PyDictFacts DocumentCache CacheFacts CacheInvariant.

Lemma fold_left_fst {A B C} (f : A -> B -> A) (l : list (B * C)) (a : A) :
  fold_left f (map fst l) a = fold_left (fun a x => f a (fst x)) l a.
Proof. revert a. induction l as [|x l IH]; intros a; simpl; auto. Qed.

Lemma count_filter {A} (f : A -> bool) (l : list A) :
  (length (List.filter f l)
   + length (List.filter (fun x => negb (f x)) l) = length l)%nat.
Proof.
  induction l as [|a l IH]; simpl; [reflexivity|].
  destruct (f a); simpl; lia.
Qed.

Lemma count_map {A} (f : A -> bool) (l : list A) :
  length (List.filter (fun b : bool => b) (map f l))
  = length (List.filter f l).
Proof.
  induction l as [|a l IH]; simpl; [reflexivity|].
  destruct (f a); simpl; now rewrite IH.
Qed.

(** In a dict, an entry is known by its key. *)
Lemma key_determines {V} (d : list (string * V)) x y :
  List.NoDup (PyDict.keys d) -> In x d -> In y d -> fst x = fst y -> x = y.
Proof.
  unfold PyDict.keys. induction d as [|a d IH]; simpl; [tauto|].
  intros Hnd Hx Hy E. apply List.NoDup_cons_iff in Hnd as [Hnotin Hnd].
  destruct Hx as [<-|Hx], Hy as [<-|Hy]; auto.
  - exfalso. apply Hnotin. rewrite E. now apply in_map.
  - exfalso. apply Hnotin. rewrite <- E. now apply in_map.
Qed.

Section Cache.
Context {lib : Urllib.Lib} {os : Os} {R : Type}.
Variable dump_size : @cache_data R -> Z.

Lemma remove_config (c : @t R) h :
  cache_expiry_hours (_remove_cache_entry c h) = cache_expiry_hours c
  /\ max_cache_size_mb (_remove_cache_entry c h) = max_cache_size_mb c.
Proof. destruct (remove_cases c h) as [-> | ->]; split; reflexivity. Qed.

Lemma sweep_config hs (c : @t R) :
  cache_expiry_hours (fold_left _remove_cache_entry hs c)
  = cache_expiry_hours c.
Proof.
  revert c. induction hs as [|h hs IH]; intros c; simpl; [reflexivity|].
  rewrite IH. apply remove_config.
Qed.

(** The sweep as the removals of the expired entries, one by one. *)
Lemma sweep_remove_all (c : @t R) now :
  snd (cleanup_expired c now)
  = remove_all (List.filter (CacheStats.expired c now) (entries c)) c.
Proof. unfold cleanup_expired. simpl. now rewrite fold_left_fst. Qed.

(** The entries that a sweep leaves are those that have not expired,
    when the files of the expired ones can be deleted. *)
Lemma sweep_entries (c : @t R) now :
  List.NoDup (PyDict.keys (entries c)) ->
  (forall kv, In kv (entries c) ->
              CacheStats.expired c now kv = true ->
              unlink_raises (_get_cache_file_path (fst kv)) = false) ->
  entries (snd (cleanup_expired c now))
  = List.filter (fun kv => negb (CacheStats.expired c now kv)) (entries c).
Proof.
  intros Hnd Hdel. rewrite sweep_remove_all.
  rewrite remove_all_entries
    by (intros v Hv; apply filter_In in Hv as [Hin Hexp]; now apply Hdel).
  apply filter_ext_in. intros x Hx.
  destruct (CacheStats.expired c now x) eqn:E; simpl.
  - apply spared_false. apply filter_In. now split.
  - apply spared_true. intros Hin.
    apply in_map_iff in Hin as [y [Ey Hy]].
    apply filter_In in Hy as [Hy Hexp].
    assert (y = x) by (eapply key_determines; eauto).
    subst y. congruence.
Qed.

(** A second sweep at the same time finds nothing. *)
Lemma sweep_again (c : @t R) now :
  List.NoDup (PyDict.keys (entries c)) ->
  (forall kv, In kv (entries c) ->
              CacheStats.expired c now kv = true ->
              unlink_raises (_get_cache_file_path (fst kv)) = false) ->
  cleanup_expired (snd (cleanup_expired c now)) now
  = (0, snd (cleanup_expired c now)).
Proof.
  intros Hnd Hdel. pose proof (sweep_entries c now Hnd Hdel) as Hes.
  set (c1 := snd (cleanup_expired c now)) in *.
  assert (Hcfg : cache_expiry_seconds c1 = cache_expiry_seconds c).
  { unfold cache_expiry_seconds, c1, cleanup_expired. simpl.
    now rewrite sweep_config. }
  unfold cleanup_expired.
  assert (Hnone : List.filter
                    (fun kv => Qgtb (now - cached_at_key kv)%Q
                                    (cache_expiry_seconds c1))
                    (entries c1) = []).
  { apply filter_none. intros kv Hin.
    rewrite Hes in Hin. apply filter_In in Hin as [_ Hfresh].
    apply negb_true_iff in Hfresh. rewrite Hcfg. exact Hfresh. }
  now rewrite Hnone.
Qed.

(** X1.  A result that has been saved is what a lookup of the same
    URL returns, as long as the save evicts nothing and the entry has
    not expired; the lookup leaves the cache as it is. *)
Theorem X1_saved_result_is_found
        (c : @t R) (t_file t_index now : Q) (url h : string) (P : R) :
  _get_url_hash url = Some h ->
  (_get_cache_size_mb (stored dump_size c t_file t_index url h P)
   <= max_cache_size_mb c)%Q ->
  (now - t_index <= cache_expiry_seconds c)%Q ->
  let '(saved, c1) := save_result dump_size c t_file t_index url P in
  saved = true
  /\ get_cached_result c1 now url
     = (Returns (Some (CacheData url h t_file P)), c1)
  /\ is_url_cached c1 now url = (Returns true, c1).
Proof.
  intros Hh Hsize Hfresh.
  rewrite (save_without_eviction dump_size c _ _ _ _ _ Hh Hsize).
  assert (Hhit :
    get_cached_result (stored dump_size c t_file t_index url h P) now url
    = (Returns (Some (CacheData url h t_file P)),
       stored dump_size c t_file t_index url h P)).
  { eapply lookup_hit.
    - exact Hh.
    - simpl. apply get_set_eq.
    - reflexivity.
    - exact Hfresh.
    - reflexivity.
    - simpl. apply lookup_insert_eq. }
  split; [reflexivity|]. split; [exact Hhit|].
  unfold is_url_cached. now rewrite Hhit.
Qed.

(** X2.  Saving a URL again replaces its result: the index keeps its
    keys, in their order, and a lookup returns the later result. *)
Theorem X2_saving_again_replaces_the_result
        (c : @t R) (t1 t1' t2 t2' now : Q) (url h : string) (P1 P2 : R) :
  _get_url_hash url = Some h ->
  let c1 := stored dump_size c t1 t1' url h P1 in
  let c2 := stored dump_size c1 t2 t2' url h P2 in
  (_get_cache_size_mb c1 <= max_cache_size_mb c)%Q ->
  (_get_cache_size_mb c2 <= max_cache_size_mb c)%Q ->
  (now - t2' <= cache_expiry_seconds c)%Q ->
  let after1 := snd (save_result dump_size c t1 t1' url P1) in
  let after2 := snd (save_result dump_size after1 t2 t2' url P2) in
  PyDict.keys (entries after2) = PyDict.keys (entries after1)
  /\ get_cached_result after2 now url
     = (Returns (Some (CacheData url h t2 P2)), after2).
Proof.
  intros Hh c1 c2 Hs1 Hs2 Hfresh after1 after2.
  assert (E1 : after1 = c1).
  { unfold after1.
    now rewrite (save_without_eviction dump_size c _ _ _ _ _ Hh Hs1). }
  assert (E2 : after2 = c2).
  { unfold after2. rewrite E1.
    now rewrite (save_without_eviction dump_size c1 _ _ _ _ _ Hh Hs2). }
  rewrite E1, E2. split.
  - subst c1 c2. simpl. now rewrite keys_set, get_set_eq.
  - eapply lookup_hit.
    + exact Hh.
    + simpl. apply get_set_eq.
    + reflexivity.
    + exact Hfresh.
    + reflexivity.
    + simpl. apply lookup_insert_eq.
Qed.

(** X3.  A result that alone takes the cache over its size budget is
    written and evicted by the same call: [save_result] answers
    [True], and yet the index is empty, the file is gone, and the
    next lookup of the URL finds nothing.  This is so when the file
    just written can be deleted. *)
Theorem X3_oversized_result_is_saved_and_evicted
        (c : @t R) (t_file t_index now : Q) (url h : string) (P : R) :
  _get_url_hash url = Some h ->
  unlink_raises (_get_cache_file_path h) = false ->
  entries c = [] \/ (exists e, entries c = [(h, e)]) ->
  (max_cache_size_mb c
   < _get_cache_size_mb (stored dump_size c t_file t_index url h P))%Q ->
  let '(saved, c1) := save_result dump_size c t_file t_index url P in
  saved = true
  /\ entries c1 = []
  /\ files c1 !! _get_cache_file_path h = None
  /\ get_cached_result c1 now url = (Returns None, c1).
Proof.
  intros Hh Hdel Hone Hover.
  assert (Hes : entries (stored dump_size c t_file t_index url h P)
                = [(h, Entry (Some url) (Some h) (Some t_index)
                             (Some (dump_size (CacheData url h t_file P))))]).
  { simpl. destruct Hone as [-> | [e ->]]; simpl; [reflexivity|].
    now rewrite String.eqb_refl. }
  unfold save_result, _cleanup_if_needed. rewrite Hh.
  apply Qgtb_true in Hover.
  change (max_cache_size_mb (stored dump_size c t_file t_index url h P))
    with (max_cache_size_mb c).
  rewrite Hover. unfold _cleanup_old_entries. rewrite Hes. simpl.
  rewrite remove_done by now right.
  simpl in Hes. simpl. rewrite Hes. simpl. rewrite String.eqb_refl. simpl.
  split; [reflexivity|]. split; [reflexivity|].
  split; [apply lookup_delete_eq|].
  unfold get_cached_result. rewrite Hh. reflexivity.
Qed.

(** X5.  A sweep of the expired entries whose files can be deleted
    leaves exactly the entries that have not expired, in their order,
    answers the number of entries it took out, deletes their files and
    no other file, and finds nothing more to do when it is run again at
    the same time. *)
Theorem X5_sweep_removes_exactly_the_expired (c : @t R) (now : Q) :
  List.NoDup (PyDict.keys (entries c)) ->
  (forall kv, In kv (entries c) ->
              CacheStats.expired c now kv = true ->
              unlink_raises (_get_cache_file_path (fst kv)) = false) ->
  let '(removed, c1) := cleanup_expired c now in
  entries c1
  = List.filter (fun kv => negb (CacheStats.expired c now kv)) (entries c)
  /\ removed = Z.of_nat (length (entries c)) - Z.of_nat (length (entries c1))
  /\ (forall kv, In kv (entries c) ->
                 CacheStats.expired c now kv = true ->
                 files c1 !! _get_cache_file_path (fst kv) = None)
  /\ (forall name,
         (forall kv, In kv (entries c) ->
                     CacheStats.expired c now kv = true ->
                     _get_cache_file_path (fst kv) <> name) ->
         files c1 !! name = files c !! name)
  /\ cleanup_expired c1 now = (0, c1).
Proof.
  intros Hnd Hdel.
  pose proof (sweep_entries c now Hnd Hdel) as Hes.
  pose proof (sweep_again c now Hnd Hdel) as Hagain.
  pose proof (sweep_remove_all c now) as Hc1.
  assert (Hdel' : forall v,
             In v (List.filter (CacheStats.expired c now) (entries c)) ->
             unlink_raises (_get_cache_file_path (fst v)) = false).
  { intros v Hv. apply filter_In in Hv as [Hin Hexp]. now apply Hdel. }
  destruct (cleanup_expired c now) as [removed c1] eqn:Hsweep.
  simpl in Hes, Hagain, Hc1.
  assert (Hn : removed
               = Z.of_nat (length (List.filter (CacheStats.expired c now)
                                               (entries c)))).
  { unfold cleanup_expired in Hsweep. injection Hsweep as <- _.
    now rewrite length_map. }
  split; [exact Hes|]. split; [|split; [|split]].
  - rewrite Hn, Hes.
    pose proof (count_filter (CacheStats.expired c now) (entries c)). lia.
  - intros kv Hin Hexp. rewrite Hc1, (remove_all_files _ _ _ Hdel').
    replace (existsb _ _) with true; [reflexivity|].
    symmetry. apply existsb_exists. exists kv. split.
    + apply filter_In. now split.
    + apply String.eqb_refl.
  - intros name Hname. rewrite Hc1, (remove_all_files _ _ _ Hdel').
    destruct (existsb _ _) eqn:E; [|reflexivity].
    apply existsb_exists in E as [kv [Hkv E]].
    apply String.eqb_eq in E.
    apply filter_In in Hkv as [Hin Hexp].
    now destruct (Hname kv Hin Hexp).
  - exact Hagain.
Qed.

(** X7.  A lookup touches nothing but the entry of its own URL: the
    entry and the file of every other key stay as they are, the
    configuration stays, and nothing is added to the index.  What a
    lookup returns is what the file of a live entry holds, and such a
    lookup leaves the whole cache as it is. *)
Theorem X7_lookup_touches_only_its_own_key
        (c : @t R) (now : Q) (url h : string) :
  _get_url_hash url = Some h ->
  let '(r, c1) := get_cached_result c now url in
  (forall h', h' <> h ->
              PyDict.get h' (entries c1) = PyDict.get h' (entries c)
              /\ files c1 !! _get_cache_file_path h'
                 = files c !! _get_cache_file_path h')
  /\ cache_expiry_hours c1 = cache_expiry_hours c
  /\ max_cache_size_mb c1 = max_cache_size_mb c
  /\ (forall kv, In kv (entries c1) -> In kv (entries c))
  /\ (forall d, r = Returns (Some d) ->
                c1 = c
                /\ exists e sz,
                    PyDict.get h (entries c) = Some e
                    /\ (now - default 0 (e_cached_at e)
                        <= cache_expiry_seconds c)%Q
                    /\ files c !! _get_cache_file_path h
                       = Some (File sz (Some d))).
Proof.
  intros Hh.
  assert (Hkeep :
    (forall h', h' <> h ->
                PyDict.get h' (entries c) = PyDict.get h' (entries c)
                /\ files c !! _get_cache_file_path h'
                   = files c !! _get_cache_file_path h')
    /\ cache_expiry_hours c = cache_expiry_hours c
    /\ max_cache_size_mb c = max_cache_size_mb c
    /\ (forall kv, In kv (entries c) -> In kv (entries c)))
    by (repeat split; auto).
  assert (Hdrop :
    let c1 := _remove_cache_entry c h in
    (forall h', h' <> h ->
                PyDict.get h' (entries c1) = PyDict.get h' (entries c)
                /\ files c1 !! _get_cache_file_path h'
                   = files c !! _get_cache_file_path h')
    /\ cache_expiry_hours c1 = cache_expiry_hours c
    /\ max_cache_size_mb c1 = max_cache_size_mb c
    /\ (forall kv, In kv (entries c1) -> In kv (entries c))).
  { destruct (remove_cases c h) as [-> | ->]; [exact Hkeep|].
    simpl. split; [|split; [|split]]; try reflexivity.
    - intros h' Hne. split.
      + apply get_del_ne. congruence.
      + apply lookup_delete_ne. intros E. apply Hne.
        symmetry. now apply cache_file_path_inj.
    - intros kv Hin. now apply in_del in Hin as [Hin _]. }
  unfold get_cached_result. rewrite Hh.
  destruct (_is_cache_valid c now (PyDict.get h (entries c))) eqn:Hvalid;
    simpl.
  - destruct (files c !! _get_cache_file_path h) as [[sz [d|]]|] eqn:Hfile.
    + destruct Hkeep as (H1 & H2 & H3 & H4).
      split; [exact H1|]. split; [exact H2|]. split; [exact H3|].
      split; [exact H4|].
      intros d' [= <-]. split; [reflexivity|].
      unfold _is_cache_valid in Hvalid.
      destruct (PyDict.get h (entries c)) as [e|]; [|discriminate].
      destruct (truthy e); [|discriminate]. simpl in Hvalid.
      destruct (Qgtb _ _) eqn:Hq; [discriminate|].
      apply Qgtb_false in Hq. now exists e, sz.
    + destruct Hdrop as (H1 & H2 & H3 & H4).
      repeat (split; [assumption|]). discriminate.
    + destruct Hdrop as (H1 & H2 & H3 & H4).
      repeat (split; [assumption|]). discriminate.
  - destruct (PyDict.get h (entries c)) as [e|].
    + destruct (truthy e).
      * destruct Hdrop as (H1 & H2 & H3 & H4).
        repeat (split; [assumption|]). discriminate.
      * destruct Hkeep as (H1 & H2 & H3 & H4).
        repeat (split; [assumption|]). discriminate.
    + destruct Hkeep as (H1 & H2 & H3 & H4).
      repeat (split; [assumption|]). discriminate.
Qed.

(** X8.  A URL that [urlparse] rejects is no key: [save_result]
    answers [False] and stores nothing, while [get_cached_result] and
    [is_url_cached], which hash the URL outside their [try], raise
    [ValueError]; the cache stays as it is. *)
Theorem X8_rejected_url_is_not_cached
        (c : @t R) (t_file t_index now : Q) (url : string) (P : R) :
  Urllib.urlparse url = None ->
  save_result dump_size c t_file t_index url P = (false, c)
  /\ (exists e, get_cached_result c now url = (Raises e, c)
                /\ exn_kind e = ValueErrorExc)
  /\ (exists e, is_url_cached c now url = (Raises e, c)
                /\ exn_kind e = ValueErrorExc).
Proof.
  intros Hparse.
  assert (Hh : _get_url_hash url = None).
  { unfold _get_url_hash, _normalize_url. now rewrite Hparse. }
  unfold is_url_cached, get_cached_result, save_result. rewrite Hh.
  split; [reflexivity|]. split; eexists; split; reflexivity.
Qed.

End Cache.
End CacheMore.

(** ** The index stays sound, and what the statistics count *)

Module CacheStatsFacts.
Import PyDictFacts DocumentCache CacheFacts CacheInvariant CacheMore CacheStats.

Lemma imap_constant {A B} (g : A -> B) (l : list A) :
  imap (fun _ => g) l = map g l.
Proof.
  induction l as [|a l IH]; simpl; [reflexivity|].
  f_equal. exact IH.
Qed.

Section Cache.
Context {lib : Urllib.Lib} {os : Os} {R : Type}.
Variable dump_size : @cache_data R -> Z.
Variable round2 : Q -> Q.

Lemma well_keyed_subset (c c' : @t R) :
  (forall kv, In kv (entries c') -> In kv (entries c)) ->
  well_keyed c -> well_keyed c'.
Proof. intros Hsub Hc h e Hin. apply Hc, Hsub, Hin. Qed.

Lemma remove_subset (c : @t R) h kv :
  In kv (entries (_remove_cache_entry c h)) -> In kv (entries c).
Proof.
  destruct (remove_cases c h) as [-> | ->]; [auto|].
  simpl. intros Hin. now apply in_del in Hin as [Hin _].
Qed.

Lemma evict_subset es idx (c : @t R) kv :
  In kv (entries (fst (evict es idx c))) -> In kv (entries c).
Proof.
  revert c. induction idx as [|i idx IH]; intros c; simpl; [auto|].
  destruct (nth_error es i) as [[h e]|]; [|auto].
  intros Hin. eapply remove_subset, IH, Hin.
Qed.

Lemma cleanup_subset (c : @t R) kv :
  In kv (entries (fst (_cleanup_if_needed c))) -> In kv (entries c).
Proof.
  unfold _cleanup_if_needed, _cleanup_old_entries.
  destruct (Qgtb _ _); [apply evict_subset | auto].
Qed.

Lemma sweep_subset hs (c : @t R) kv :
  In kv (entries (fold_left _remove_cache_entry hs c)) -> In kv (entries c).
Proof.
  revert c. induction hs as [|h hs IH]; intros c; simpl; [auto|].
  intros Hin. eapply remove_subset, IH, Hin.
Qed.

Lemma lookup_subset (c : @t R) now url kv :
  In kv (entries (snd (get_cached_result c now url))) -> In kv (entries c).
Proof.
  unfold get_cached_result.
  destruct (_get_url_hash url) as [h|]; [|auto].
  destruct (negb _).
  - destruct (PyDict.get h (entries c)) as [e|]; [|auto].
    destruct (truthy e); [apply remove_subset | auto].
  - destruct (files c !! _get_cache_file_path h) as [[sz [d|]]|];
      [auto | apply remove_subset | apply remove_subset].
Qed.

Lemma is_url_cached_cache (c : @t R) now url :
  snd (is_url_cached c now url) = snd (get_cached_result c now url).
Proof.
  unfold is_url_cached. now destruct (get_cached_result c now url) as [[r|e] c'].
Qed.

Lemma well_keyed_stored (c : @t R) t_file t_index url h P :
  well_keyed c -> well_keyed (stored dump_size c t_file t_index url h P).
Proof.
  intros Hc k e Hin. simpl in Hin.
  apply in_set in Hin as [[= -> ->]|Hin]; [reflexivity|].
  now apply Hc.
Qed.

Lemma sound_save_result (c : @t R) t_file t_index url P :
  (forall d, 0 < dump_size d) ->
  sound c -> sound (snd (save_result dump_size c t_file t_index url P)).
Proof.
  intros Hpos [Hc Hk]. split; [now apply consistent_save_result|].
  destruct (_get_url_hash url) as [h|] eqn:Hh.
  - rewrite (save_result_cache dump_size c t_file t_index url h P Hh).
    eapply well_keyed_subset; [apply cleanup_subset|].
    now apply well_keyed_stored.
  - unfold save_result. now rewrite Hh.
Qed.

Lemma sound_get_cached_result (c : @t R) now url :
  sound c -> sound (snd (get_cached_result c now url)).
Proof.
  intros [Hc Hk]. split; [now apply consistent_get_cached_result|].
  eapply well_keyed_subset; [apply lookup_subset | exact Hk].
Qed.

Lemma sound_cleanup_expired (c : @t R) now :
  sound c -> sound (snd (cleanup_expired c now)).
Proof.
  intros [Hc Hk]. split; [now apply consistent_cleanup_expired|].
  eapply well_keyed_subset; [|exact Hk].
  unfold cleanup_expired. simpl. apply sweep_subset.
Qed.

(** In a sound cache an entry is valid unless it has expired. *)
Lemma valid_unless_expired (c : @t R) t kv :
  sound c -> In kv (entries c) ->
  _is_cache_valid c t (Some (snd kv)) = negb (expired c t kv).
Proof.
  intros [(Hnd & Hfile & Hnn) Hk] Hin. destruct kv as [h e].
  pose proof (Hk h e Hin) as Hh.
  destruct (Hfile h e Hin) as (f & Ef & _).
  unfold _is_cache_valid, expired, cached_at_key, truthy, exists_file.
  simpl. rewrite Hh. simpl. rewrite orb_true_r. simpl.
  destruct (Qgtb _ _); [reflexivity|]. simpl. now rewrite Ef.
Qed.

Lemma valid_count (c : @t R) clock :
  sound c ->
  valid_entries (get_cache_stats round2 c clock)
  = Z.of_nat
      (length
         (List.filter (fun fresh : bool => fresh)
            (imap (fun i kv => negb (expired c (clock i) kv)) (entries c)))).
Proof.
  intros Hc. unfold get_cache_stats. simpl. do 3 f_equal.
  apply imap_ext. intros i kv Hi. simpl.
  apply valid_unless_expired; [exact Hc|].
  apply list_elem_of_In. eapply list_elem_of_lookup_2, Hi.
Qed.

Lemma expired_count (c : @t R) now :
  sound c ->
  expired_entries (get_cache_stats round2 c (fun _ => now))
  = fst (cleanup_expired c now).
Proof.
  intros Hc.
  change (expired_entries (get_cache_stats round2 c (fun _ => now)))
    with (total_entries (get_cache_stats round2 c (fun _ => now))
          - valid_entries (get_cache_stats round2 c (fun _ => now))).
  rewrite (valid_count c _ Hc). simpl.
  rewrite imap_constant, count_map, length_map.
  fold (expired c now).
  pose proof (count_filter (expired c now) (entries c)). lia.
Qed.

(** X4.  The empty cache is sound, and every operation of the cache
    leaves a sound cache sound: the keys of the index are distinct,
    every entry has its file, which is not empty, and carries the key
    it is filed under.  For [clear_all] this is so when the files of
    the directory can be deleted. *)
Theorem X4_operations_keep_the_cache_sound :
  (forall d, 0 < dump_size d) ->
  (forall hours budget,
      sound (Cache hours budget [] (∅ : gmap string (@file R))))
  /\ (forall c : @t R,
         sound c ->
         (forall t_file t_index url P,
             sound (snd (save_result dump_size c t_file t_index url P)))
         /\ (forall now url, sound (snd (get_cached_result c now url)))
         /\ (forall now url, sound (snd (is_url_cached c now url)))
         /\ (forall now, sound (snd (cleanup_expired c now)))
         /\ ((forall name, is_Some (files c !! name) ->
                           unlink_raises name = false) ->
             sound (clear_all c))).
Proof.
  intros Hpos. split.
  - intros hours budget. split; [apply consistent_empty|].
    intros h e [].
  - intros c Hc. split; [|split; [|split; [|split]]].
    + intros. now apply sound_save_result.
    + intros. now apply sound_get_cached_result.
    + intros. rewrite is_url_cached_cache. now apply sound_get_cached_result.
    + intros. now apply sound_cleanup_expired.
    + intros Hok. split; [now apply consistent_clear_all|].
      rewrite clear_all_done by exact Hok. intros h e [].
Qed.

(** X6.  In a sound cache the statistics count as valid the entries
    that have not expired when they are examined, so that
    [expired_entries], read at one time, is the number of entries that
    [cleanup_expired] removes at that time; right after such a sweep,
    when the files of the expired entries could be deleted, no entry
    counts as expired. *)
Theorem X6_statistics_count_the_expired (c : @t R) (now : Q) :
  sound c ->
  (forall clock,
      let s := get_cache_stats round2 c clock in
      valid_entries s
      = Z.of_nat
          (length
             (List.filter (fun fresh : bool => fresh)
                (imap (fun i kv => negb (expired c (clock i) kv))
                      (entries c))))
      /\ total_entries s = Z.of_nat (length (entries c))
      /\ expired_entries s = total_entries s - valid_entries s)
  /\ expired_entries (get_cache_stats round2 c (fun _ => now))
     = fst (cleanup_expired c now)
  /\ ((forall kv, In kv (entries c) ->
                   expired c now kv = true ->
                   unlink_raises (_get_cache_file_path (fst kv)) = false) ->
      let s := get_cache_stats round2 (snd (cleanup_expired c now))
                               (fun _ => now) in
      expired_entries s = 0 /\ valid_entries s = total_entries s).
Proof.
  intros Hc. split; [|split].
  - intros clock s. split; [now apply valid_count|]. split; reflexivity.
  - now apply expired_count.
  - intros Hdel.
    pose proof (sound_cleanup_expired c now Hc) as Hc1.
    pose proof (expired_count _ now Hc1) as Hexp.
    destruct Hc as [(Hnd & _) _].
    rewrite (sweep_again c now Hnd Hdel) in Hexp. cbn [fst] in Hexp.
    split; [exact Hexp|].
    change (expired_entries ?s) with (total_entries s - valid_entries s) in Hexp.
    cbv zeta. lia.
Qed.

End Cache.
End CacheStatsFacts.

(** ** The other entry points of the blocking requester *)

Module CrawlerFacts.
Import PyDictFacts Net SafeRequester RequesterFacts Crawler.

Lemma max_spec a b : (a <= Py.max a b)%Q /\ (b <= Py.max a b)%Q.
Proof. unfold Py.max. destruct (Qltb_spec a b); split; lra. Qed.

(** [random.choice] of a list that is not empty is one of its
    elements. *)
Lemma choice_in {A} (l : list A) draw :
  l <> [] -> exists a, Py.choice l draw = Some a /\ In a l.
Proof.
  intros Hne. unfold Py.choice.
  assert (Hlt : (draw mod length l < length l)%nat).
  { apply Nat.mod_upper_bound. destruct l; [congruence | discriminate]. }
  destruct (lookup_lt_is_Some_2 l _ Hlt) as [a Ha].
  exists a. split; [exact Ha|].
  apply list_elem_of_In. eapply list_elem_of_lookup_2, Ha.
Qed.

Lemma in_firstn {A} n (l : list A) x : In x (firstn n l) -> In x l.
Proof.
  revert l. induction n as [|n IH]; intros [|a l]; simpl; try tauto.
  intros [<-|Hin]; auto.
Qed.

Lemma get_notin {V} k (d : list (string * V)) :
  ~ In k (PyDict.keys d) -> PyDict.get k d = None.
Proof.
  unfold PyDict.keys. induction d as [|[k' v] d IH]; simpl; [reflexivity|].
  intros Hnotin. destruct (String.eqb_spec k' k) as [->|Hne]; [tauto|].
  apply IH. tauto.
Qed.

(** After [d.update(other)], a key of [other] has the value of
    [other], and every other key has kept its value. *)
Lemma get_update {V} k (other d : list (string * V)) :
  List.NoDup (PyDict.keys other) ->
  PyDict.get k (Py.update other d)
  = match PyDict.get k other with
    | Some v => Some v
    | None => PyDict.get k d
    end.
Proof.
  unfold Py.update, PyDict.keys. revert d.
  induction other as [|[k' v'] other IH]; intros d Hnd; simpl;
    [reflexivity|].
  apply List.NoDup_cons_iff in Hnd as [Hnotin Hnd].
  rewrite (IH _ Hnd).
  destruct (String.eqb_spec k' k) as [->|Hne].
  - rewrite (get_notin k other Hnotin). apply get_set_eq.
  - destruct (PyDict.get k other); [reflexivity|].
    now apply get_set_ne.
Qed.

(** The retry loop sends at least one request and at most one more
    than the retries it is allowed. *)
Lemma urlopen_attempts r server left i :
  (1 <= snd (fst (urlopen r server left i)) <= S left)%nat.
Proof.
  revert i. induction left as [|left IH]; intros i; cbn [urlopen].
  - destruct (server i) as [resp took|e took]; [|simpl; lia].
    destruct (is_retry r _ resp); [destruct (raise_on_status r)|];
      simpl; lia.
  - destruct (server i) as [resp took|e took].
    + destruct (is_retry r _ resp); [|simpl; lia].
      specialize (IH (S i)).
      destruct (urlopen r server left (S i)) as [[o n] d]. simpl in *. lia.
    + specialize (IH (S i)).
      destruct (urlopen r server left (S i)) as [[o n] d]. simpl in *. lia.
Qed.

Lemma session_get_attempts r ep :
  (snd (fst (session_get r ep)) <= Z.to_nat (total r) + 1)%nat
  /\ (forall server, ep = Served server ->
                     (1 <= snd (fst (session_get r ep)))%nat).
Proof.
  destruct ep as [e|server]; simpl.
  - split; [lia | discriminate].
  - pose proof (urlopen_attempts r server (Z.to_nat (total r)) 0).
    split; [lia | intros; lia].
Qed.

Section WithLib.
Context {lib : Urllib.Lib}.

(** The three entry points wait, send and stamp alike. *)
Lemma request_eq m rq now url ep :
  request m rq now url ep
  = match _get_domain url with
    | None => (None, rq, now, [])
    | Some domain =>
        let w := _wait_if_needed rq now domain in
        let '(o, attempts, took) := session_get (retry_strategy rq) ep in
        let t := (after_sleep now w + took)%Q in
        match o with
        | Returns response =>
            (Some response, _update_last_request_time rq domain t, t,
             (sleep_events w ++ repeat (Send url) attempts
              ++ [Stamp domain t])%list)
        | Raises _ =>
            (None, rq, t,
             (sleep_events w ++ repeat (Send url) attempts ++ [])%list)
        end
    end.
Proof.
  destruct m; unfold request, get, head, get_with_enhanced_protection;
    destruct (_get_domain url) as [domain|]; try reflexivity;
    destruct (session_get (retry_strategy rq) ep) as [[[r|e] n] took];
    simpl; rewrite ?app_nil_r; reflexivity.
Qed.

(** X9.  Whichever of [get], [head] and [get_with_enhanced_protection]
    has had an answer from a domain, the next request of any of the
    three to that domain goes out no sooner than [min_delay] after
    that answer: it sleeps for what is missing of [min_delay], and
    not at all when [min_delay] has passed. *)
Theorem X9_requests_to_a_domain_are_spaced
        (m1 m2 : method) (rq rq1 : t) (now1 now2 t1 : Q)
        (url1 url2 domain : string) (ep1 ep2 : endpoint)
        (response : response) (evs1 : list event) :
  _get_domain url1 = Some domain ->
  _get_domain url2 = Some domain ->
  request m1 rq now1 url1 ep1 = (Some response, rq1, t1, evs1) ->
  let w := _wait_if_needed rq1 now2 domain in
  let took := snd (session_get (retry_strategy rq1) ep2) in
  let '(r2, rq2, t2, evs2) := request m2 rq1 now2 url2 ep2 in
  (t1 + min_delay rq <= after_sleep now2 w)%Q
  /\ t2 = (after_sleep now2 w + took)%Q
  /\ List.filter is_sleep evs2 = sleep_events w
  /\ (w = None <-> (t1 + min_delay rq <= now2)%Q)
  /\ (forall d, w = Some d -> (now2 + d == t1 + min_delay rq)%Q).
Proof.
  intros Hd1 Hd2 Hfirst w took.
  rewrite request_eq, Hd1 in Hfirst. cbv zeta in Hfirst.
  destruct (session_get (retry_strategy rq) ep1) as [[[r|e] n] d1];
    [|discriminate].
  injection Hfirst as _ <- <- _.
  set (t1 := (after_sleep now1 (_wait_if_needed rq now1 domain) + d1)%Q)
    in *.
  assert (Hw : w = if Qltb (now2 - t1) (min_delay rq)
                   then Some (min_delay rq - (now2 - t1))%Q else None).
  { unfold w, _wait_if_needed. simpl. now rewrite lookup_insert_eq. }
  rewrite request_eq, Hd2. cbv zeta. fold w.
  subst took.
  destruct (session_get (retry_strategy (_update_last_request_time rq domain t1)) ep2)
    as [[o n2] d2]. simpl.
  assert (Hbody :
    (t1 + min_delay rq <= after_sleep now2 w)%Q
    /\ (w = None <-> (t1 + min_delay rq <= now2)%Q)
    /\ (forall d, w = Some d -> (now2 + d == t1 + min_delay rq)%Q)).
  { rewrite Hw. destruct (Qltb_spec (now2 - t1) (min_delay rq)) as [Hlt|Hge];
      simpl.
    - split; [lra|]. split.
      + split; [discriminate | intros; lra].
      + intros d [= <-]. lra.
    - split; [lra|]. split.
      + split; [intros; lra | reflexivity].
      + discriminate. }
  destruct Hbody as (H1 & H2 & H3).
  destruct o as [r2|e2];
    (split; [exact H1|]; split; [reflexivity|];
     split; [now apply sleeps_of_request|]; split; [exact H2 | exact H3]).
Qed.

(** X10.  A request of [head], which follows no redirection, is put
    on the wire at most [max_retries + 1] times, whatever the server
    answers, and so is a request of [get] or of
    [get_with_enhanced_protection] to a server that answers no
    redirection: the session follows a redirection with requests of
    their own.  A request of the three entry points goes out at least
    once when the URL parses and [requests] accepts it. *)
Theorem X10_attempts_are_bounded
        (m : method) (rq : t) (now : Q) (url : string) (ep : endpoint) :
  let '(r, rq', t, evs) := request m rq now url ep in
  (m = HEAD \/ never_redirects ep ->
   (sends evs <= Z.to_nat (max_retries rq) + 1)%nat)
  /\ (forall domain server,
         _get_domain url = Some domain -> ep = Served server ->
         (1 <= sends evs)%nat).
Proof.
  rewrite request_eq.
  destruct (_get_domain url) as [domain|].
  - cbv zeta.
    pose proof (session_get_attempts (retry_strategy rq) ep) as [Hle Hge].
    destruct (session_get (retry_strategy rq) ep) as [[[r|e] n] took];
      simpl in Hle, Hge;
      rewrite !sends_app, sends_sleep, sends_repeat; simpl;
      (split; [intros _; unfold sends; simpl; lia|]);
      intros d server _ ->; specialize (Hge server eq_refl); lia.
  - split; [intros _; unfold sends; simpl; lia | discriminate].
Qed.

(** X11.  What the entry points raise.  A URL that [urlparse] rejects
    makes each of them raise [ValueError] before it waits or sends.
    For a URL that parses, [get] and [head] never raise, and they
    return the same and leave the same requester behind at a server
    that answers no redirection, which [get] would follow and [head]
    would return.  When the session raises, after its retries, they
    return [None], while [get_with_enhanced_protection] raises what
    the session raised; none of the three then stamps the domain or
    changes the requester. *)
Theorem X11_what_the_entry_points_raise
        (rq : t) (now : Q) (url : string) (ep : endpoint) :
  (_get_domain url = None ->
   exists e,
     exn_kind e = ValueErrorExc
     /\ get rq now url ep = (Raises e, rq, now, [])
     /\ head rq now url ep = (Raises e, rq, now, [])
     /\ get_with_enhanced_protection rq now url ep = (Raises e, rq, now, []))
  /\ (forall domain,
         _get_domain url = Some domain ->
         (exists r rq' t evs, get rq now url ep = (Returns r, rq', t, evs))
         /\ (exists r rq' t evs, head rq now url ep = (Returns r, rq', t, evs))
         /\ (never_redirects ep ->
             exists r rq' t evs,
               get rq now url ep = (Returns r, rq', t, evs)
               /\ head rq now url ep = (Returns r, rq', t, evs))
         /\ (forall e n took,
                session_get (retry_strategy rq) ep = (Raises e, n, took) ->
                exists t evs,
                  get rq now url ep = (Returns None, rq, t, evs)
                  /\ head rq now url ep = (Returns None, rq, t, evs)
                  /\ get_with_enhanced_protection rq now url ep
                     = (Raises e, rq, t, evs)
                  /\ has_stamp evs = false
                  /\ sends evs = n)).
Proof.
  split.
  - intros Hd. exists (Exn ValueErrorExc "Invalid URL").
    unfold get, head, get_with_enhanced_protection. rewrite Hd.
    repeat split.
  - intros domain Hd.
    assert (Hsame : exists r rq' t evs,
               get rq now url ep = (Returns r, rq', t, evs)
               /\ head rq now url ep = (Returns r, rq', t, evs)).
    { unfold get, head. rewrite Hd.
      destruct (session_get (retry_strategy rq) ep) as [[[r|e] n] took];
        do 4 eexists; split; reflexivity. }
    split; [|split; [|split; [intros _; exact Hsame|]]].
    + destruct Hsame as (r & rq' & t & evs & H & _). eauto.
    + destruct Hsame as (r & rq' & t & evs & _ & H). eauto.
    + intros e n took Hs.
      unfold get, head, get_with_enhanced_protection. rewrite Hd, Hs.
      do 2 eexists. split; [reflexivity|]. split; [reflexivity|].
      split; [reflexivity|]. split; [apply has_stamp_sends|].
      now rewrite sends_app, sends_sleep, sends_repeat.
Qed.

Lemma platform_headers_keys url platform_headers :
  _get_platform_specific_headers url = Returns platform_headers ->
  List.NoDup (PyDict.keys platform_headers)
  /\ (forall k, In k (PyDict.keys platform_headers) ->
                In k [ "Referer"; "Sec-Fetch-Site"; "Accept" ]).
Proof.
  unfold _get_platform_specific_headers.
  destruct (_get_domain url) as [domain|]; [|discriminate].
  intros [= <-].
  repeat match goal with
         | |- context [if ?b then _ else _] => destruct b
         end;
    (split; [repeat constructor; simpl; intuition discriminate
            | simpl; intuition]).
Qed.

Lemma platform_agent url domain draw :
  _get_domain url = Some domain ->
  exists agent,
    _get_platform_specific_user_agent url draw = Returns agent
    /\ In agent (user_agents ++ mobile_user_agents)%list
    /\ (PyStr.contains "douyin.com" domain = true ->
        In agent mobile_user_agents).
Proof.
  intros Hd. unfold _get_platform_specific_user_agent. rewrite Hd.
  assert (Hagents :
    exists agents,
      match List.find (fun pa => PyStr.contains (fst pa) domain)
                      platform_user_agents with
      | Some (_, agents) => agents
      | None => user_agents
      end = agents
      /\ agents <> []
      /\ (forall a, In a agents -> In a (user_agents ++ mobile_user_agents)%list)
      /\ (PyStr.contains "douyin.com" domain = true ->
          agents = mobile_user_agents)).
  { unfold platform_user_agents. cbn [List.find fst].
    destruct (PyStr.contains "douyin.com" domain).
    { eexists. split; [reflexivity|]. split; [discriminate|].
      split; [intros a Ha; apply in_or_app; now right | reflexivity]. }
    destruct (PyStr.contains "v.douyin.com" domain).
    { eexists. split; [reflexivity|]. split; [discriminate|].
      split; [intros a Ha; apply in_or_app; now right | discriminate]. }
    destruct (PyStr.contains "xiaohongshu.com" domain).
    { eexists. split; [reflexivity|]. split; [discriminate|].
      split; [|discriminate].
      intros a Ha. apply in_app_or in Ha as [Ha|Ha]; apply in_or_app;
        [now right | left; eapply in_firstn, Ha]. }
    destruct (PyStr.contains "zhihu.com" domain).
    { eexists. split; [reflexivity|]. split; [discriminate|].
      split; [intros a Ha; apply in_or_app; now left | discriminate]. }
    destruct (PyStr.contains "bilibili.com" domain).
    { eexists. split; [reflexivity|]. split; [discriminate|].
      split; [intros a Ha; apply in_or_app; now left | discriminate]. }
    eexists. split; [reflexivity|]. split; [discriminate|].
    split; [intros a Ha; apply in_or_app; now left | discriminate]. }
  destruct Hagents as (agents & -> & Hne & Hsub & Hdouyin).
  destruct (choice_in agents draw Hne) as (agent & -> & Hin).
  exists agent. split; [reflexivity|]. split; [now apply Hsub|].
  intros Hc. now rewrite <- (Hdouyin Hc).
Qed.

(** X12.  The [User-Agent] that [get] sends is never the caller's: it
    is drawn from the two lists of the requester, and from the mobile
    one whenever the domain holds [douyin.com], where the [Referer] of
    the caller is replaced as well.  The headers of the caller other
    than [User-Agent], [Referer], [Sec-Fetch-Site] and [Accept] are
    passed on as they are. *)
Theorem X12_the_agent_of_a_request_is_the_platforms
        (url domain : string) (headers : list (string * string))
        (draw : nat) :
  _get_domain url = Some domain ->
  exists sent agent,
    request_headers url headers draw = Returns sent
    /\ PyDict.get "User-Agent" sent = Some agent
    /\ In agent (user_agents ++ mobile_user_agents)%list
    /\ (PyStr.contains "douyin.com" domain = true ->
        In agent mobile_user_agents
        /\ PyDict.get "Referer" sent = Some "https://www.douyin.com/")
    /\ (forall k,
           ~ In k [ "User-Agent"; "Referer"; "Sec-Fetch-Site"; "Accept" ] ->
           PyDict.get k sent = PyDict.get k headers).
Proof.
  intros Hd.
  destruct (platform_agent url domain draw Hd) as (agent & Ha & Hin & Hm).
  unfold request_headers. rewrite Ha.
  destruct (_get_platform_specific_headers url) as [ph|e] eqn:Hph;
    [|unfold _get_platform_specific_headers in Hph; rewrite Hd in Hph;
      discriminate].
  destruct (platform_headers_keys url ph Hph) as [Hnd Hkeys].
  exists (Py.update ph (PyDict.set "User-Agent" agent headers)), agent.
  split; [reflexivity|]. split; [|split; [exact Hin|split]].
  - rewrite (get_update _ _ _ Hnd), get_notin; [apply get_set_eq|].
    intros Hk. apply Hkeys in Hk. simpl in Hk. intuition discriminate.
  - intros Hc. split; [now apply Hm|].
    rewrite (get_update _ _ _ Hnd).
    unfold _get_platform_specific_headers in Hph.
    rewrite Hd, Hc in Hph. injection Hph as <-. reflexivity.
  - intros k Hk. rewrite (get_update _ _ _ Hnd), get_notin.
    + apply get_set_ne. intros <-. apply Hk. now left.
    + intros Hin'. apply Hkeys in Hin'. apply Hk. now right.
Qed.

End WithLib.

(** X13.  The delay that imitates a reader: nothing on the first
    contact with a domain; after that the wait ends no sooner than
    the larger of [min_delay] and a second and a half after the last
    request, never sooner than the plain pacing wait would, and no
    later than two and a half seconds beyond that bound. *)
Theorem X13_the_delay_of_a_simulated_reader
        (rq : t) (now u : Q) (domain : string) :
  (0 <= u)%Q ->
  let w := _simulate_user_behavior rq now domain u in
  (last_request_time rq !! domain = None -> w = None)
  /\ (forall last,
         last_request_time rq !! domain = Some last ->
         (last + min_delay rq <= after_sleep now w)%Q
         /\ (last + (3 # 2) <= after_sleep now w)%Q
         /\ (after_sleep now (_wait_if_needed rq now domain)
             <= after_sleep now w)%Q
         /\ ((u <= 1)%Q -> w <> None ->
             (after_sleep now w
              <= last + Py.max (min_delay rq) (3 # 2) + (5 # 2))%Q)).
Proof.
  intros Hu w. subst w. unfold _simulate_user_behavior, _wait_if_needed.
  split; [now intros ->|].
  intros last ->. unfold Py.uniform.
  destruct (max_spec (min_delay rq) (3 # 2)) as [Hm1 Hm2].
  set (base := Py.max (min_delay rq) (3 # 2)) in *.
  destruct (Qltb_spec (now - last)
                      (base + (0 + ((5 # 2) - 0) * u))) as [Hlt|Hge];
    destruct (Qltb_spec (now - last) (min_delay rq)) as [Hlt'|Hge'];
    simpl; repeat split; try lra; try nra; try congruence.
Qed.

Section Session.
Variable cookies : response -> list (string * string).

(** X14.  Setting up a session is outside the pacing: no domain is
    stamped and the requester is left as it was.  Nothing is raised
    and, for a domain that does not hold [douyin.com], nothing is done
    at all.  When the main page answers no redirection, which the
    session would follow with requests of their own: the requests for
    the main page go out at once, without the wait of the pacer, at
    most [max_retries + 1] of them; the cookies of the domain are set
    when, and only when, the answer has status 200, and the session is
    then valid if the answer set a cookie. *)
Theorem X14_session_setup_is_outside_the_pacing
        (s : session_state) (now u : Q) (domain : string) (ep : endpoint) :
  let '(s', now', evs) := _establish_session cookies s now domain u ep in
  requester s' = requester s
  /\ has_stamp evs = false
  /\ (never_redirects ep ->
      (sends evs <= Z.to_nat (max_retries (requester s)) + 1)%nat)
  /\ (never_redirects ep ->
      exists n tail,
        evs = (repeat (Send "https://www.douyin.com/") n ++ tail)%list
        /\ (tail = [] \/ exists d, tail = [Sleep d]))
  /\ (PyStr.contains "douyin.com" domain = false ->
      s' = s /\ now' = now /\ evs = [])
  /\ (forall o n took,
         never_redirects ep ->
         PyStr.contains "douyin.com" domain = true ->
         session_get (retry_strategy (requester s)) ep = (o, n, took) ->
         match o with
         | Returns response =>
             if status_code response =? 200
             then domain_cookies s' !! domain = Some (cookies response)
                  /\ _has_valid_session s' domain
                     = negb (Nat.eqb (length (cookies response)) 0)
             else s' = s
         | Raises _ => s' = s
         end).
Proof.
  unfold _establish_session.
  destruct (PyStr.contains "douyin.com" domain) eqn:Hc.
  - pose proof (session_get_attempts (retry_strategy (requester s)) ep)
      as [Hle _].
    destruct (session_get (retry_strategy (requester s)) ep)
      as [[[response|e] n] took]; simpl in Hle.
    + destruct (status_code response =? 200) eqn:Hs.
      * destruct (Qltb (Py.uniform 1 3 u) 0).
        -- split; [reflexivity|].
           split; [apply (has_stamp_sends None)|].
           split; [intros _; now rewrite sends_repeat|].
           split; [intros _; exists n, []; rewrite app_nil_r; auto|].
           split; [discriminate|].
           intros o n' took' _ _ [= <- <- <-]. rewrite Hs.
           unfold _has_valid_session. simpl. now rewrite lookup_insert_eq.
        -- split; [reflexivity|].
           split.
           { unfold has_stamp. rewrite existsb_app. simpl.
             rewrite orb_false_r. apply (has_stamp_sends None). }
           split; [intros _; rewrite sends_app, sends_repeat;
                   unfold sends; simpl; lia|].
           split; [intros _; exists n, [Sleep (Py.uniform 1 3 u)]; eauto|].
           split; [discriminate|].
           intros o n' took' _ _ [= <- <- <-]. rewrite Hs.
           unfold _has_valid_session. simpl. now rewrite lookup_insert_eq.
      * split; [reflexivity|].
        split; [apply (has_stamp_sends None)|].
        split; [intros _; now rewrite sends_repeat|].
        split; [intros _; exists n, []; rewrite app_nil_r; auto|].
        split; [discriminate|].
        intros o n' took' _ _ [= <- <- <-]. now rewrite Hs.
    + split; [reflexivity|].
      split; [apply (has_stamp_sends None)|].
      split; [intros _; now rewrite sends_repeat|].
      split; [intros _; exists n, []; rewrite app_nil_r; auto|].
      split; [discriminate|].
      now intros o n' took' _ _ [= <- <- <-].
  - split; [reflexivity|]. split; [reflexivity|].
    split; [intros _; unfold sends; simpl; lia|].
    split; [intros _; exists 0%nat, []; auto|].
    split; [auto | intros o n took _; discriminate].
Qed.

End Session.

End CrawlerFacts.

(** ** The platform strategies *)

Module PlatformFacts.
Import RequesterFacts PyDictFacts Net PlatformStrategy PlatformStrategyManager Reach
       CrawlerFacts.

Lemma detect_platform_in url : In (detect_platform url) platforms.
Proof.
  unfold detect_platform, platforms.
  repeat match goal with
         | |- context [if ?b then _ else _] => destruct b
         end; simpl; auto.
Qed.

(** The interval that is drawn lies between the two bounds. *)
Lemma interval_bounds s u :
  (0 <= u <= 1)%Q ->
  (min_interval s <= max_interval s)%Q ->
  (min_interval s <= get_request_interval s u <= max_interval s)%Q.
Proof. unfold get_request_interval. intros Hu Hs. split; nra. Qed.

Lemma stamp_add m platform s p t :
  stamp (add_custom_strategy m platform s) p t
  = add_custom_strategy (stamp m p t) platform s.
Proof. reflexivity. Qed.

(** A strategy under a name that [detect_platform] never answers does
    not change what the built-in names stand for. *)
Lemma get_strategy_add m platform s x :
  ~ In platform platforms ->
  In x platforms ->
  get_strategy (add_custom_strategy m platform s) x = get_strategy m x.
Proof.
  intros Hnew Hx. unfold get_strategy, add_custom_strategy. simpl.
  assert (Hne : forall y, In y platforms -> platform <> y)
    by (intros y Hy ->; tauto).
  rewrite (lookup_insert_ne _ platform x) by now apply Hne.
  rewrite (lookup_insert_ne _ platform "default")
    by (apply Hne; simpl; tauto).
  destruct (_strategies m !! "default") as [d|]; [|reflexivity].
  destruct (present (_strategies m !! x)).
  - now rewrite lookup_insert_ne by now apply Hne.
  - now rewrite lookup_insert_ne by (apply Hne, detect_platform_in).
Qed.

Lemma reachable_default m :
  reachable m -> exists d, _strategies m !! "default" = Some d.
Proof.
  induction 1 as [| m platform s _ [d Hd] | m now u url m' now' evs _ [d Hd] Hw].
  - exists default_strategy. unfold init. simpl. apply lookup_insert_eq.
  - simpl. destruct (decide (platform = "default")) as [->|Hne].
    + exists s. apply lookup_insert_eq.
    + exists d. now rewrite lookup_insert_ne.
  - exists d. unfold wait_if_needed in Hw.
    destruct (get_strategy m _); [|discriminate].
    now injection Hw as <- _ _.
Qed.

Lemma init_lookup k :
  _strategies init !! k
  = if String.eqb k "default" then Some default_strategy
    else if String.eqb k "zhihu" then Some zhihu
    else if String.eqb k "xiaohongshu" then Some xiaohongshu
    else if String.eqb k "douyin" then Some douyin
    else None.
Proof.
  unfold init. cbn [_strategies].
  destruct (String.eqb_spec k "default") as [->|H1];
    [apply lookup_insert_eq|].
  rewrite lookup_insert_ne by congruence.
  destruct (String.eqb_spec k "zhihu") as [->|H2];
    [apply lookup_insert_eq|].
  rewrite lookup_insert_ne by congruence.
  destruct (String.eqb_spec k "xiaohongshu") as [->|H3];
    [apply lookup_insert_eq|].
  rewrite lookup_insert_ne by congruence.
  destruct (String.eqb_spec k "douyin") as [->|H4];
    [apply lookup_singleton_eq|].
  apply lookup_singleton_ne. congruence.
Qed.

Lemma get_strategy_some m x d :
  _strategies m !! "default" = Some d ->
  exists s, get_strategy m x = Some s.
Proof. intros Hd. unfold get_strategy. rewrite Hd. eauto. Qed.

(** X15.  A request that is paced without interruption is stamped no
    sooner than the drawn interval, and so [min_interval], after the
    stamp before it on the same platform.  It does not wait at all
    once [max_interval] has passed, and it always waits while
    [min_interval] has not. *)
Theorem X15_paced_requests_keep_the_interval
        (m m' : PlatformStrategyManager.t) (now now' u : Q) (url : string)
        (strategy : PlatformStrategy.t) (evs : list event) :
  get_strategy m (detect_platform url) = Some strategy ->
  (0 <= u <= 1)%Q ->
  (min_interval strategy <= max_interval strategy)%Q ->
  wait_if_needed m now u url = Some (m', now', evs) ->
  let platform := detect_platform url in
  let last := default 0%Q (_last_request_times m !! platform) in
  _last_request_times m' !! platform = Some now'
  /\ (last + get_request_interval strategy u <= now')%Q
  /\ (last + min_interval strategy <= now')%Q
  /\ (now <= now')%Q
  /\ ((last + max_interval strategy <= now)%Q ->
      now' = now /\ evs = [Stamp platform now])
  /\ ((now < last + min_interval strategy)%Q ->
      exists d, evs = [Sleep d; Stamp platform now']
                /\ (0 < d)%Q /\ (now' == last + get_request_interval strategy u)%Q).
Proof.
  intros Hs Hu Hmm Hw platform last.
  pose proof (interval_bounds strategy u Hu Hmm) as Hi.
  unfold wait_if_needed in Hw. fold platform in Hw, Hs. rewrite Hs in Hw.
  injection Hw as <- <- <-.
  unfold required_wait. fold last.
  set (interval := get_request_interval strategy u) in *.
  split; [simpl; apply lookup_insert_eq|].
  destruct (Qltb_spec (now - last) interval) as [Hlt|Hge]; simpl.
  - split; [lra|]. split; [lra|]. split; [lra|]. split; [intros; lra|].
    intros _. eexists. split; [reflexivity|]. split; lra.
  - split; [lra|]. split; [lra|]. split; [lra|].
    split; [intros; split; reflexivity | intros; lra].
Qed.

(** X16.  A strategy registered under a name of its own can be asked
    for by that name, but it paces no URL: [detect_platform] answers
    one of the four built-in names only, and every URL is paced as if
    the strategy had not been added. *)
Theorem X16_a_strategy_under_a_new_name_paces_nothing
        (m : PlatformStrategyManager.t) (platform : string)
        (s : PlatformStrategy.t) :
  ~ In platform platforms ->
  (forall d, _strategies m !! "default" = Some d ->
             get_strategy (add_custom_strategy m platform s) platform
             = Some s)
  /\ (forall url, detect_platform url <> platform)
  /\ (forall now u url,
         wait_if_needed (add_custom_strategy m platform s) now u url
         = match wait_if_needed m now u url with
           | Some (m', now', evs) =>
               Some (add_custom_strategy m' platform s, now', evs)
           | None => None
           end).
Proof.
  intros Hnew. split; [|split].
  - intros d Hd. unfold get_strategy, add_custom_strategy. simpl.
    rewrite lookup_insert_eq. simpl.
    rewrite lookup_insert_ne
      by (intros ->; apply Hnew; simpl; tauto).
    rewrite Hd. now rewrite lookup_insert_eq.
  - intros url E. apply Hnew. rewrite <- E. apply detect_platform_in.
  - intros now u url. unfold wait_if_needed.
    rewrite (get_strategy_add m platform s _ Hnew (detect_platform_in url)).
    destruct (get_strategy m (detect_platform url)) as [strategy|];
      reflexivity.
Qed.

(** X17.  Whatever manager [__init__], [add_custom_strategy] and
    [wait_if_needed] lead to, it has its default strategy, so that
    [get_strategy] answers for every argument and [wait_if_needed]
    never fails; and the manager of [__init__] answers every URL with
    the strategy named after the platform of the URL. *)
Theorem X17_there_is_always_a_strategy (m : PlatformStrategyManager.t) :
  reachable m ->
  (forall x, exists s, get_strategy m x = Some s)
  /\ (forall now u url,
         exists m' now' evs,
           wait_if_needed m now u url = Some (m', now', evs)
           /\ reachable m')
  /\ (forall url,
         exists s, get_strategy init url = Some s
                   /\ (name s = url \/ name s = detect_platform url)).
Proof.
  intros Hm. destruct (reachable_default m Hm) as [d Hd].
  split; [|split].
  - intros x. now apply (get_strategy_some m x d).
  - intros now u url.
    destruct (get_strategy_some m (detect_platform url) d Hd) as [s Hs].
    destruct (wait_if_needed m now u url) as [[[m' now'] evs]|] eqn:Hw.
    + exists m', now', evs. split; [reflexivity|].
      now apply (reach_wait m now u url m' now' evs).
    + unfold wait_if_needed in Hw. now rewrite Hs in Hw.
  - intros url. unfold get_strategy.
    replace (_strategies init !! "default") with (Some default_strategy)
      by (symmetry; apply init_lookup).
    destruct (_strategies init !! url) as [s|] eqn:Hurl; cbn [present].
    + rewrite Hurl. exists s. split; [reflexivity|]. left.
      rewrite init_lookup in Hurl.
      destruct (String.eqb_spec url "default") as [->|_];
        [now injection Hurl as <-|].
      destruct (String.eqb_spec url "zhihu") as [->|_];
        [now injection Hurl as <-|].
      destruct (String.eqb_spec url "xiaohongshu") as [->|_];
        [now injection Hurl as <-|].
      destruct (String.eqb_spec url "douyin") as [->|_];
        [now injection Hurl as <-|].
      discriminate.
    + unfold detect_platform.
      repeat match goal with
             | |- context [if ?b then _ else _] => destruct b
             end;
        rewrite init_lookup; simpl;
        (eexists; split; [reflexivity | right; reflexivity]).
Qed.

Section WithLib.
Context {lib : Urllib.Lib}.

(** X18.  Where the headers of a strategy come from.  What
    [extra_headers] names always wins.  Otherwise the [User-Agent] is
    the fixed mobile agent when the strategy asks for it, and one of
    [user_agents] when it does not; and the [Referer], present only
    when the strategy asks for it and a URL is given, is made of the
    scheme and the network location of that URL.  An empty
    [user_agents] makes the call raise [IndexError], even when the
    mobile agent would have replaced the choice, and a URL that
    [urlparse] rejects makes it raise [ValueError] when the [Referer]
    is asked for. *)
Theorem X18_where_the_headers_of_a_strategy_come_from
        (s : PlatformStrategy.t) (url : string) (draw : nat) :
  List.NoDup (PyDict.keys (extra_headers s)) ->
  (forall headers,
      get_headers s url draw = Returns headers ->
      (forall k v, PyDict.get k (extra_headers s) = Some v ->
                   PyDict.get k headers = Some v)
      /\ (PyDict.get "User-Agent" (extra_headers s) = None ->
          if requires_mobile_ua s
          then PyDict.get "User-Agent" headers = Some mobile_user_agent
          else exists agent,
                 PyDict.get "User-Agent" headers = Some agent
                 /\ In agent (user_agents s))
      /\ (PyDict.get "Referer" (extra_headers s) = None ->
          if requires_referer s && PyStr.nonempty url
          then exists parsed,
                 Urllib.urlparse url = Some parsed
                 /\ PyDict.get "Referer" headers
                    = Some (Urllib.scheme parsed ++ "://"
                            ++ Urllib.netloc parsed ++ "/")
          else PyDict.get "Referer" headers = None))
  /\ (user_agents s = [] ->
      exists e, get_headers s url draw = Raises e
                /\ exn_kind e = IndexErrorExc)
  /\ (user_agents s <> [] ->
      requires_referer s && PyStr.nonempty url = true ->
      Urllib.urlparse url = None ->
      exists e, get_headers s url draw = Raises e
                /\ exn_kind e = ValueErrorExc).
Proof.
  intros Hnd. split; [|split].
  - intros headers Hget. unfold get_headers in Hget.
    destruct (Py.choice (user_agents s) draw) as [agent|] eqn:Hagent;
      [|discriminate].
    assert (Hin : In agent (user_agents s)).
    { apply list_elem_of_In. eapply list_elem_of_lookup_2, Hagent. }
    destruct (requires_referer s && PyStr.nonempty url);
      [destruct (Urllib.urlparse url) as [parsed|]; [|discriminate]|];
      destruct (requires_mobile_ua s);
      injection Hget as <-;
      (split; [intros k v Hk; now rewrite (get_update _ _ _ Hnd), Hk|]);
      (split; intros Hk; rewrite (get_update _ _ _ Hnd), Hk);
      try reflexivity; eauto.
  - intros Hempty. unfold get_headers, Py.choice. rewrite Hempty.
    eexists. split; reflexivity.
  - intros Hne Href Hparse. unfold get_headers.
    destruct (choice_in (user_agents s) draw Hne) as (agent & -> & _).
    rewrite Href, Hparse. eexists. split; reflexivity.
Qed.

End WithLib.

End PlatformFacts.

(** ** The pauses and the edges of the batch drivers *)

Module BatchMore.
Import Batch BatchFacts.

Lemma pauses_calls urls :
  List.filter (fun e => negb (is_call e)) (map Call urls) = [].
Proof. induction urls; simpl; auto. Qed.

Lemma firstn_skipn_nonempty {A} (l : list A) i b :
  (i < length l)%nat -> (0 < b)%nat -> firstn b (skipn i l) <> [].
Proof.
  intros Hi Hb E.
  apply (f_equal (@length A)) in E.
  rewrite length_firstn, length_skipn in E. simpl in E. lia.
Qed.

Lemma ends_with_call log batch :
  batch <> [] ->
  exists l u, (log ++ map Call batch)%list = (l ++ [Call u])%list.
Proof.
  intros Hne. destruct (exists_last Hne) as (l' & u & ->).
  exists (log ++ map Call l')%list, u.
  now rewrite map_app, app_assoc.
Qed.

Section Sequential.
Context {S A : Type}.
Variable processor_func : string -> S -> outcome A * S.

(** The pauses that the outer loop adds from batch start [i] on, and
    how its log ends. *)
Lemma run_batches_pauses urls batch_size batch_delay fuel :
  0 < batch_size ->
  (0 <= batch_delay)%Q ->
  forall i results s log,
    0 <= i ->
    (Z.to_nat (Z.of_nat (length urls) - i) <= fuel)%nat ->
    let log' :=
      snd (run_batches processor_func urls batch_size batch_delay
             (range_from fuel i (Z.of_nat (length urls)) batch_size)
             results s log) in
    List.filter (fun e => negb (is_call e)) log'
    = (List.filter (fun e => negb (is_call e)) log
       ++ repeat (Pause batch_delay)
            (Z.to_nat ((Z.of_nat (length urls) - 1 - i) / batch_size)))%list
    /\ (i < Z.of_nat (length urls) ->
        exists l u, log' = (l ++ [Call u])%list)
    /\ (Z.of_nat (length urls) <= i -> log' = log).
Proof.
  intros Hbs Hdelay. apply Qltb_false in Hdelay.
  set (n := Z.of_nat (length urls)).
  assert (Hnone : forall i, n <= i -> Z.to_nat ((n - 1 - i) / batch_size) = 0%nat).
  { intros i Hi.
    assert ((n - 1 - i) / batch_size < 0)
      by (apply Z.div_lt_upper_bound; lia).
    lia. }
  induction fuel as [|fuel IH]; intros i results s log Hi Hfuel log'.
  - subst log'. simpl. rewrite Hnone by lia. simpl. rewrite app_nil_r.
    split; [reflexivity|]. split; [intros; lia | reflexivity].
  - subst log'. cbn [range_from].
    destruct (Z.ltb_spec i n) as [Hlt|Hge].
    + cbn [run_batches].
      set (batch := firstn (Z.to_nat batch_size) (skipn (Z.to_nat i) urls)).
      assert (Hbatch : batch <> []).
      { apply firstn_skipn_nonempty; unfold n in Hlt; lia. }
      pose proof (process_batch_events processor_func batch s) as Hev.
      destruct (process_batch processor_func batch s) as [[r1 s1] e1].
      simpl in Hev. subst e1. fold n.
      destruct (Z.ltb_spec (i + batch_size) n) as [Hmore|Hlast].
      * rewrite Hdelay.
        destruct (IH (i + batch_size) (results ++ r1)%list s1
                     ((log ++ map Call batch) ++ [Pause batch_delay])%list)
          as (Hp & Hcall & _); [lia | lia |].
        split; [|split; [|intros; lia]].
        -- rewrite Hp, !List.filter_app, pauses_calls. simpl.
           rewrite app_nil_r, <- app_assoc. f_equal.
           replace (n - 1 - i) with (n - 1 - (i + batch_size) + 1 * batch_size)
             by lia.
           rewrite Z.div_add by lia.
           assert (0 <= (n - 1 - (i + batch_size)) / batch_size)
             by (apply Z.div_pos; lia).
           rewrite Z2Nat.inj_add by lia. rewrite Nat.add_comm. reflexivity.
        -- intros _. now apply Hcall.
      * destruct (IH (i + batch_size) (results ++ r1)%list s1
                     (log ++ map Call batch)%list)
          as (_ & _ & Hsame); [lia | lia |].
        rewrite Hsame by lia.
        split; [|split; [|intros; lia]].
        -- rewrite List.filter_app, pauses_calls, app_nil_r.
           rewrite Z.div_small by lia. simpl. now rewrite app_nil_r.
        -- intros _. now apply ends_with_call.
    + simpl. rewrite Hnone by lia. simpl. rewrite app_nil_r.
      split; [reflexivity|]. split; [intros; lia | reflexivity].
Qed.

(** X19.  The sequential driver pauses between the batches and
    nowhere else: with a batch size of at least one and a delay that
    is not negative, the log of a run holds one pause of [batch_delay]
    less than there are batches, none when everything fits one batch,
    and it never ends with a pause. *)
Theorem X19_the_pauses_fall_between_the_batches
        (urls : list string) (batch_size : Z) (batch_delay : Q) (s : S) :
  0 < batch_size ->
  (0 <= batch_delay)%Q ->
  let n := Z.of_nat (length urls) in
  let total_batches := (n + batch_size - 1) / batch_size in
  exists results s' log,
    batch_process_urls processor_func urls batch_size batch_delay s
    = (Returns results, s', log)
    /\ List.filter (fun e => negb (is_call e)) log
       = repeat (Pause batch_delay) (Z.to_nat (total_batches - 1))
    /\ (n <= batch_size ->
        List.filter (fun e => negb (is_call e)) log = [])
    /\ (forall l d, log <> (l ++ [Pause d])%list).
Proof.
  intros Hbs Hdelay n total_batches.
  destruct (batch_process_urls_all processor_func urls batch_size
              batch_delay s Hbs Hdelay) as (log & E & _).
  assert (Hrun : batch_process_urls processor_func urls batch_size
                                    batch_delay s
                 = run_batches processor_func urls batch_size batch_delay
                     (range_from (Z.to_nat n) 0 n batch_size) [] s []).
  { unfold batch_process_urls, range0.
    destruct (Z.eqb_spec batch_size 0) as [->|_]; [lia|].
    destruct (Z.ltb_spec 0 batch_size) as [_|]; [reflexivity | lia]. }
  destruct (run_batches_pauses urls batch_size batch_delay (Z.to_nat n)
              Hbs Hdelay 0 [] s []) as (Hp & Hcall & Hsame);
    [lia | unfold n; lia |].
  fold n in Hp, Hcall, Hsame. rewrite <- Hrun, E in Hp, Hcall, Hsame.
  simpl in Hp, Hcall, Hsame.
  assert (Hcount : total_batches - 1 = (n - 1 - 0) / batch_size).
  { unfold total_batches.
    replace (n + batch_size - 1) with (n - 1 + 1 * batch_size) by lia.
    rewrite Z.div_add by lia. rewrite Z.sub_0_r. lia. }
  do 3 eexists. split; [exact E|]. split; [|split].
  - rewrite Hcount. exact Hp.
  - intros Hfit.
    destruct (Z.eq_dec n 0) as [Hz|Hnz].
    + now rewrite Hsame by lia.
    + rewrite Hp, Z.div_small by (unfold n in *; lia). reflexivity.
  - intros l d Hl.
    destruct (Z.eq_dec n 0) as [Hz|Hnz].
    + rewrite Hsame in Hl by lia. now destruct l.
    + destruct Hcall as (l' & u & Hu); [unfold n in *; lia|].
      rewrite Hu in Hl. apply app_inj_tail in Hl as [_ Hl]. discriminate.
Qed.

(** X20.  A batch size below one.  With a negative batch size the
    driver runs no unit at all and returns the empty list, whatever
    URLs it is given; with the batch size zero it raises
    [ZeroDivisionError] before it runs anything. *)
Theorem X20_a_batch_size_below_one_processes_nothing
        (urls : list string) (batch_size : Z) (batch_delay : Q) (s : S) :
  (batch_size < 0 ->
   batch_process_urls processor_func urls batch_size batch_delay s
   = (Returns [], s, []))
  /\ (batch_size = 0 ->
      exists e,
        batch_process_urls processor_func urls batch_size batch_delay s
        = (Raises e, s, [])
        /\ exn_kind e = ZeroDivisionErrorExc).
Proof.
  unfold batch_process_urls, range0. split.
  - intros Hneg.
    destruct (Z.eqb_spec batch_size 0) as [->|_]; [lia|].
    destruct (Z.ltb_spec 0 batch_size) as [|_]; [lia | reflexivity].
  - intros ->. simpl. eexists. split; reflexivity.
Qed.

Lemma range_from_past fuel i stop step :
  stop <= i -> range_from fuel i stop step = [].
Proof.
  intros Hi. destruct fuel; simpl; [reflexivity|].
  destruct (Z.ltb_spec i stop); [lia | reflexivity].
Qed.

(** X21.  A negative delay between the batches is an error only when
    there is a pause to make: URLs that fit one batch are processed
    as with any delay, while with more URLs the driver runs the first
    batch and then raises [ValueError], so that the results of that
    batch are lost to the caller. *)
Theorem X21_a_negative_delay_fails_after_the_first_batch
        (urls : list string) (batch_size : Z) (batch_delay : Q) (s : S) :
  0 < batch_size ->
  (batch_delay < 0)%Q ->
  let n := Z.of_nat (length urls) in
  (n <= batch_size ->
   batch_process_urls processor_func urls batch_size batch_delay s
   = (Returns (fst (fst (process_batch processor_func urls s))),
      snd (fst (process_batch processor_func urls s)),
      map Call urls))
  /\ (batch_size < n ->
      exists e,
        batch_process_urls processor_func urls batch_size batch_delay s
        = (Raises e,
           snd (fst (process_batch processor_func
                       (firstn (Z.to_nat batch_size) urls) s)),
           map Call (firstn (Z.to_nat batch_size) urls))
        /\ exn_kind e = ValueErrorExc).
Proof.
  intros Hbs Hdelay n. subst n.
  assert (Hneg : SafeRequester.Qltb batch_delay 0 = true)
    by now apply RequesterFacts.Qltb_true.
  unfold batch_process_urls, range0.
  destruct (Z.eqb_spec batch_size 0) as [->|_]; [lia|].
  destruct (Z.ltb_spec 0 batch_size) as [_|]; [|lia].
  rewrite Nat2Z.id.
  destruct (length urls) as [|k] eqn:Hlen.
  - apply length_zero_iff_nil in Hlen. subst urls.
    split; [reflexivity | simpl; intros; lia].
  - cbn [range_from].
    destruct (Z.ltb_spec 0 (Z.of_nat (Datatypes.S k))) as [_|]; [|lia].
    cbn [run_batches]. rewrite Z.add_0_l, Hlen.
    change (skipn (Z.to_nat 0) urls) with urls.
    split.
    + intros Hfit.
      rewrite firstn_all2 by lia.
      pose proof (process_batch_events processor_func urls s) as Hev.
      destruct (process_batch processor_func urls s) as [[r1 s1] e1].
      simpl in Hev. subst e1.
      destruct (Z.ltb_spec batch_size (Z.of_nat (Datatypes.S k))) as [|_];
        [lia|].
      now rewrite range_from_past by lia.
    + intros Hmore.
      pose proof (process_batch_events processor_func
                    (firstn (Z.to_nat batch_size) urls) s) as Hev.
      destruct (process_batch processor_func
                  (firstn (Z.to_nat batch_size) urls) s) as [[r1 s1] e1].
      simpl in Hev. subst e1.
      destruct (Z.ltb_spec batch_size (Z.of_nat (Datatypes.S k))) as [_|];
        [|lia].
      rewrite Hneg. eexists. split; reflexivity.
Qed.

End Sequential.

Section Cooperative.
Context {A : Type} {pv : PyValue A}.
Variable processor_func : nat -> string -> outcome A.
Variable callback : phase -> string -> Z -> Z -> option exn.

(** X22.  In the cooperative driver a progress callback that raises
    fails the unit it reports on: the slot of the unit holds the error
    record of the callback's exception, with the unit's URL, when the
    callback raises as the unit starts, and also when it raises after
    the processor has returned, whose result is then dropped. *)
Theorem X22_a_failing_callback_fails_its_unit
        (urls : list string) (max_concurrent : Z) :
  0 < max_concurrent ->
  exists results,
    async_batch_process_urls processor_func (Some callback) urls
                             max_concurrent
    = Completed results
    /\ (forall i url e,
           urls !! i = Some url ->
           callback Started url (Z.of_nat i) (Z.of_nat (length urls))
           = Some e ->
           results !! i = Some (ErrorRecord (exn_str e) url))
    /\ (forall i url r e,
           urls !! i = Some url ->
           callback Started url (Z.of_nat i) (Z.of_nat (length urls))
           = None ->
           processor_func i url = Returns r ->
           callback Finished url (Z.of_nat i + 1) (Z.of_nat (length urls))
           = Some e ->
           results !! i = Some (ErrorRecord (exn_str e) url)).
Proof.
  intros Hmc.
  destruct (async_batch_completed processor_func (Some callback) urls
              max_concurrent Hmc) as (results & E & _ & Hslots).
  exists results. split; [exact E|]. split.
  - intros i url e Hu Hstart.
    destruct (Hslots i url Hu) as (x & Hx & ->).
    unfold process_single_url, report in Hx. rewrite Hstart in Hx.
    now injection Hx as <-.
  - intros i url r e Hu Hstart Hret Hend.
    destruct (Hslots i url Hu) as (x & Hx & ->).
    unfold process_single_url, report in Hx.
    rewrite Hstart, Hret, Hend in Hx. now injection Hx as <-.
Qed.

End Cooperative.

End BatchMore.

(** * The theorems at sample inputs *)


(** C3 at a 404 that answers the second request, the first having
    timed out: two requests, and the 404 is returned. *)
Lemma C3_witness :
  exists rq' now' evs,
    SafeRequester.get (lib := Examples.lib) Examples.requester 0
                      "https://a.example/x" (Net.Served Examples.late_404)
    = (Returns (Some (Net.Response 404 false "")), rq', now', evs)
    /\ Net.sends evs = 2%nat.
Proof.
  generalize (RequesterFacts.C3_permanent_status_is_not_retried
                (lib := Examples.lib) Examples.requester 0
                "https://a.example/x" "a.example" Examples.late_404 1
                (Net.Response 404 false "") 1
                ltac:(vm_compute; reflexivity) eq_refl
                ltac:(simpl; lia) ltac:(simpl; lia) ltac:(simpl; lia)
                ltac:(reflexivity)).
  destruct (SafeRequester.get (lib := Examples.lib) Examples.requester 0
              "https://a.example/x" (Net.Served Examples.late_404))
    as [[[o rq'] now'] evs] eqn:E.
  intros [_ H]. exists rq', now', evs.
  assert (Hk : (1 < Net.sends evs)%nat).
  { vm_compute in E. injection E as _ _ _ <-. vm_compute. constructor. }
  destruct (H Hk) as [-> Hn]. split; [reflexivity | exact Hn].
Defined.

(** C3 fails at a 403, which is on the force list: two retries. *)
Lemma C3_counterexample :
  let '(o, _, _, evs) :=
    SafeRequester.get (lib := Examples.lib) Examples.requester 0
                      "https://a.example/x" (Net.Served (Examples.always 403)) in
  o = Returns (Some (Net.Response 403 false "")) /\ Net.sends evs = 3%nat.
Proof. vm_compute. split; reflexivity. Qed.



(** C5 fails at [a.example], although [ts] is among the volatile
    parameters: the two URLs have different keys, and the lookup misses
    what was stored. *)
Lemma C5_counterexample :
  In "ts" DocumentCache.volatile_params
  /\ DocumentCache.save_result (lib := Examples.lib) (os := Examples.os)
       Examples.dump
       Examples.day_cache 0 0 "https://a.example/x?ts=1" "payload"
     = (true,
        DocumentCache.stored Examples.dump Examples.day_cache 0 0
          "https://a.example/x?ts=1" "354db60051902b87213c23b80f3cacb8"
          "payload")
  /\ fst (DocumentCache.get_cached_result (lib := Examples.lib)
            (os := Examples.os)
            (DocumentCache.stored Examples.dump Examples.day_cache 0 0
               "https://a.example/x?ts=1" "354db60051902b87213c23b80f3cacb8"
               "payload")
            1 "https://a.example/x?ts=2")
     = Returns None.
Proof.
  split; [simpl; tauto|]. split; vm_compute; reflexivity.
Qed.

(** C5 at the day cache: the payload stored under [ts=1] is found under
    [ts=2] on douyin, and the keys of two URLs of [v.iesdouyin.com]
    that differ in [_t] and [time] are the same. *)
Lemma C5_witness :
  (exists d,
      fst (DocumentCache.get_cached_result (lib := Examples.lib)
             (os := Examples.os)
             (snd (DocumentCache.save_result (lib := Examples.lib)
                     (os := Examples.os) Examples.dump
                     Examples.day_cache 0 0 "https://www.douyin.com/x?ts=1"
                     "payload"))
             1 "https://www.douyin.com/x?ts=2")
      = Returns (Some d)
      /\ DocumentCache.cd_result d = "payload")
  /\ (exists h,
         DocumentCache._get_url_hash (lib := Examples.lib)
           "https://v.iesdouyin.com/share?id=7&_t=100&time=5"
         = Some h
         /\ DocumentCache._get_url_hash (lib := Examples.lib)
              "https://v.iesdouyin.com/share?timestamp=9&id=7"
            = Some h).
Proof.
  destruct (CacheFacts.C5_volatile_parameters_stripped_for_douyin
              (lib := Examples.lib) (os := Examples.os) Examples.dump)
    as (Hkey & Hfound & _).
  split.
  - apply (Hfound Examples.day_cache "payload" 0%Q 0%Q 1%Q
                  "https://www.douyin.com/x?ts=1"
                  "https://www.douyin.com/x?ts=2"
                  "3bbe3f1dc09d589110037de4006c991d").
    + vm_compute. reflexivity.
    + vm_compute. reflexivity.
    + vm_compute. discriminate.
    + vm_compute. discriminate.
  - eapply (Hkey "https://v.iesdouyin.com/share?id=7&_t=100&time=5"
                 "https://v.iesdouyin.com/share?timestamp=9&id=7").
    + vm_compute. reflexivity.
    + vm_compute. reflexivity.
    + left. vm_compute. reflexivity.
    + reflexivity.
    + reflexivity.
    + reflexivity.
    + reflexivity.
    + vm_compute. reflexivity.
Defined.

(** C6 fails where the operating system does not let the file go: the
    lookup, one and a half seconds after the store into a cache whose
    entries live a second, returns nothing, and the entry is still in
    the index, with its file.  It fails as well at an entry that is an
    empty dict, whose file is missing: the lookup returns nothing and
    leaves the entry where it is. *)
Lemma C6_counterexample :
  (DocumentCache.files Examples.hollow_cache
     !! DocumentCache._get_cache_file_path "c565384b205789329e48af200d0aeb30"
   = None
   /\ DocumentCache.get_cached_result (lib := Examples.lib)
        (os := Examples.os) Examples.hollow_cache 0 "https://a.example/x"
      = (Returns None, Examples.hollow_cache)
   /\ PyDict.get "c565384b205789329e48af200d0aeb30"
        (DocumentCache.entries Examples.hollow_cache)
      <> None)
  /\
  fst (DocumentCache.get_cached_result (lib := Examples.lib)
         (os := Examples.stuck_os)
         (snd (DocumentCache.save_result (lib := Examples.lib)
                 (os := Examples.stuck_os) Examples.dump
                 Examples.second_cache 0 0 "https://a.example/x" "payload"))
         (0 + (3 # 2)) "https://a.example/x")
  = Returns None
  /\ PyDict.get "c565384b205789329e48af200d0aeb30"
       (DocumentCache.entries
          (snd (DocumentCache.get_cached_result (lib := Examples.lib)
                  (os := Examples.stuck_os)
                  (snd (DocumentCache.save_result (lib := Examples.lib)
                          (os := Examples.stuck_os) Examples.dump
                          Examples.second_cache 0 0 "https://a.example/x"
                          "payload"))
                  (0 + (3 # 2)) "https://a.example/x")))
     <> None.
Proof.
  split; [split; [reflexivity|]|];
    split; vm_compute; (reflexivity || discriminate).
Qed.

(** C6 at the cache whose entries live a second. *)
Lemma C6_witness :
  let c1 :=
    snd (DocumentCache.save_result (lib := Examples.lib) (os := Examples.os)
           Examples.dump
           Examples.second_cache 0 0 "https://a.example/x" "payload") in
  fst (DocumentCache.get_cached_result (lib := Examples.lib)
         (os := Examples.os) c1 (0 + (3 # 2))
         "https://a.example/x")
  = Returns None
  /\ PyDict.get "c565384b205789329e48af200d0aeb30"
       (DocumentCache.entries
          (snd (DocumentCache.get_cached_result (lib := Examples.lib)
                  (os := Examples.os) c1
                  (0 + (3 # 2)) "https://a.example/x")))
     = None.
Proof.
  destruct (CacheFacts.C6_lookup_purges_stale_entry
              (lib := Examples.lib) (os := Examples.os) Examples.dump
              "https://a.example/x"
              "c565384b205789329e48af200d0aeb30") as [_ Hexample].
  - vm_compute. reflexivity.
  - apply (Hexample Examples.second_cache "payload" 0%Q).
    + vm_compute. reflexivity.
    + reflexivity.
Defined.



(** C8 fails at the cooperative pacer: [a.example] and [b.example] are
    different hosts on one platform, and a request to the first makes
    the next request to the second wait; and two URLs of one host fall
    under different platforms, hence different records, when the text
    of one of them mentions a platform's domain. *)
Lemma C8_counterexample :
  SafeRequester._get_domain (lib := Examples.lib) "https://a.example/1"
  = Some "a.example"
  /\ SafeRequester._get_domain (lib := Examples.lib) "https://b.example/2"
     = Some "b.example"
  /\ SafeRequester._get_domain (lib := Examples.lib)
       "https://a.example/?ref=douyin.com"
     = SafeRequester._get_domain (lib := Examples.lib) "https://a.example/"
  /\ PlatformStrategyManager.detect_platform "https://a.example/?ref=douyin.com"
     <> PlatformStrategyManager.detect_platform "https://a.example/"
  /\ exists m' evs,
      PlatformStrategyManager.wait_if_needed
        PlatformStrategyManager.init 100 0 "https://a.example/1"
      = Some (m', 100%Q, evs)
      /\ present (PlatformStrategyManager.required_wait
                    PlatformStrategyManager.init
                    PlatformStrategyManager.default_strategy
                    (PlatformStrategyManager.detect_platform
                       "https://b.example/2") 100 0)
         = false
      /\ present (PlatformStrategyManager.required_wait
                    m' PlatformStrategyManager.default_strategy
                    (PlatformStrategyManager.detect_platform
                       "https://b.example/2") 100 0)
         = true.
Proof.
  split; [vm_compute; reflexivity|]. split; [vm_compute; reflexivity|].
  split; [vm_compute; reflexivity|]. split; [vm_compute; discriminate|].
  eexists. eexists. split; [reflexivity|].
  split; vm_compute; reflexivity.
Qed.

(** C8 at the sample requester and the initial pacer: an answer from
    [a.example] leaves [b.example] alone, and makes a request to
    [a.example] half a second later sleep for the other half. *)
Lemma C8_witness :
  (forall t,
      SafeRequester._wait_if_needed
        (SafeRequester._update_last_request_time Examples.requester
           "a.example" (0 + 1)%Q)
        t "b.example"
      = SafeRequester._wait_if_needed Examples.requester t "b.example")
  /\ (exists rest,
         snd (SafeRequester.get (lib := Examples.lib)
                (SafeRequester._update_last_request_time Examples.requester
                   "a.example" (0 + 1)%Q)
                (3 # 2) "https://a.example/y"
                (Net.Served (Examples.always 200)))
         = Net.Sleep (1 - ((3 # 2) - (0 + 1))) :: rest
         /\ List.filter Net.is_sleep rest = [])
  /\ PlatformStrategyManager._last_request_times
       (PlatformStrategyManager.stamp PlatformStrategyManager.init "default"
                                      100%Q)
     !! PlatformStrategyManager.detect_platform "https://b.example/2"
     = Some 100%Q.
Proof.
  destruct (RequesterFacts.C8_one_pacing_record_per_key (lib := Examples.lib))
    as (Hblocking & Hcoop).
  split; [|split].
  - apply (Hblocking Examples.requester 0%Q "https://a.example/x"
                     "https://b.example/y" "a.example" "b.example"
                     (Net.Served (Examples.always 200))
                     (Returns (Some (Net.Response 200 false "")))
                     _ (0 + 1)%Q
                     [Net.Send "https://a.example/x";
                      Net.Stamp "a.example" (0 + 1)%Q]).
    + vm_compute. reflexivity.
    + vm_compute. reflexivity.
    + reflexivity.
    + discriminate.
  - destruct (Hblocking Examples.requester 0%Q "https://a.example/x"
                        "https://a.example/y" "a.example" "a.example"
                        (Net.Served (Examples.always 200))
                        (Returns (Some (Net.Response 200 false "")))
                        (SafeRequester._update_last_request_time
                           Examples.requester "a.example" (0 + 1)%Q)
                        (0 + 1)%Q
                        [Net.Send "https://a.example/x";
                         Net.Stamp "a.example" (0 + 1)%Q])
      as [_ Hsame].
    + vm_compute. reflexivity.
    + vm_compute. reflexivity.
    + reflexivity.
    + destruct (Hsame eq_refl (Net.Response 200 false "") eq_refl)
        as [_ Hnext].
      destruct (Hnext (3 # 2)%Q (Net.Served (Examples.always 200)))
        as [Hwaits _].
      apply Hwaits. vm_compute. reflexivity.
  - apply (Hcoop PlatformStrategyManager.init 100%Q 0%Q "https://a.example/1"
                 "https://b.example/2" _ 100%Q
                 [Net.Stamp "default" 100%Q]).
    + reflexivity.
    + reflexivity.
Defined.

(** C9 fails at two overlapping requests to one host: the second checks
    the record between the check and the update of the first, both read
    the same time of the last request, and both go on at the same
    moment. *)
Lemma C9_counterexample :
  exists st,
    Coop.run Examples.two_requests Examples.overlapping = Some st
    /\ Coop.history st
       = [ Coop.Checked 0 "default"; Coop.Checked 1 "default";
           Coop.Updated 0 "default"; Coop.Updated 1 "default" ]
    /\ Coop.exclusive (Coop.history st) = false
    /\ Coop.tasks st
       = [ Coop.Proceeded "default" 0 (1 - 0) true 3;
           Coop.Proceeded "default" 0 (1 - 0) true 3 ].
Proof. eexists. split; [vm_compute; reflexivity|]. repeat split. Qed.

(** C9 at two requests that come one after the other and do not wait. *)
Lemma C9_witness :
  exists st,
    Coop.run Examples.two_requests Examples.spaced = Some st
    /\ Coop.exclusive (Coop.history st) = true.
Proof.
  destruct CoopFacts.C9_exclusive_unless_suspended as (Hexclusive & _ & _).
  eexists. split; [reflexivity|].
  apply (Hexclusive PlatformStrategyManager.init 1%Q
                    [ "https://a.example/1"; "https://a.example/2" ]
                    Examples.spaced).
  - reflexivity.
  - reflexivity.
Defined.

(** C4 at five URLs the third of which raises, two to a batch. *)
Lemma C4_witness :
  exists results s' log,
    Batch.batch_process_urls Examples.third_raises Examples.five_urls 2 10 tt
    = (Returns results, s', log)
    /\ Batch.succeeded results = 4%nat
    /\ Batch.failed results = 1%nat.
Proof.
  destruct BatchFacts.C4_unit_failures_are_isolated as (_ & _ & Hfive & _).
  apply (Hfive unit string Examples.third_raises "u1" "u2" "u3" "u4" "u5"
               2 10%Q tt).
  - reflexivity.
  - discriminate.
  - intros s. now exists (Exn OtherException "boom"), s.
  - intros u s [<-|[<-|[<-|[<-|[]]]]]; now eexists _, s.
Defined.

(** C10 at the five sample URLs, in both drivers. *)
Lemma C10_witness :
  (exists results s' log,
      Batch.batch_process_urls Examples.third_raises Examples.five_urls 2 10 tt
      = (Returns results, s', log)
      /\ length results = 5%nat
      /\ results !! 0%nat = Some (Batch.Value "u1")
      /\ results !! 2%nat = Some (Batch.ErrorRecord "boom" "u3"))
  /\ (exists results,
         Batch.async_batch_process_urls (pv := Examples.plain_text)
           Examples.third_task_raises None Examples.five_urls 3
         = Batch.Completed results
         /\ length results = 5%nat
         /\ results !! 0%nat = Some (Batch.Value "u1")
         /\ results !! 2%nat = Some (Batch.ErrorRecord "boom" "u3")).
Proof.
  destruct BatchFacts.C10_one_slot_per_url_in_order as (Hseq & Hcoop).
  split.
  - destruct (Hseq unit string Examples.third_raises Examples.five_urls
                   2 10%Q tt)
      as (results & s' & log & E & Hlen & Hslot & _);
      [reflexivity | discriminate |].
    exists results, s', log. split; [exact E|]. split; [exact Hlen|].
    split.
    + destruct (Hslot 0%nat "u1" tt eq_refl eq_refl) as [Hreturn _].
      exact (Hreturn "u1" tt eq_refl).
    + destruct (Hslot 2%nat "u3" tt eq_refl eq_refl) as [_ Hraise].
      exact (Hraise (Exn OtherException "boom") tt eq_refl).
  - destruct (Hcoop string Examples.plain_text Examples.third_task_raises
                    None Examples.five_urls 3)
      as (results & E & Hlen & Hslot & _); [reflexivity|].
    exists results. split; [exact E|]. split; [exact Hlen|]. split.
    + destruct (Hslot 0%nat "u1" eq_refl) as [_ Hrun].
      destruct (Hrun eq_refl) as [_ Hreturn].
      destruct (Hreturn "u1" eq_refl) as [_ Hend].
      destruct (Hend eq_refl) as [_ Hvalue].
      exact (Hvalue eq_refl).
    + destruct (Hslot 2%nat "u3" eq_refl) as [_ Hrun].
      destruct (Hrun eq_refl) as [Hraise _].
      exact (Hraise (Exn OtherException "boom") eq_refl).
Defined.

(** X1 at the day cache. *)
Lemma X1_witness :
  let '(saved, c1) :=
    DocumentCache.save_result (lib := Examples.lib) (os := Examples.os) Examples.dump
      Examples.day_cache 0 0 Examples.new_url "payload" in
  saved = true
  /\ DocumentCache.get_cached_result (lib := Examples.lib) (os := Examples.os) c1 10
       Examples.new_url
     = (Returns (Some (DocumentCache.CacheData Examples.new_url
                         Examples.new_hash 0 "payload")), c1)
  /\ DocumentCache.is_url_cached (lib := Examples.lib) (os := Examples.os) c1 10 Examples.new_url
     = (Returns true, c1).
Proof.
  apply (CacheMore.X1_saved_result_is_found
           (lib := Examples.lib) (os := Examples.os) Examples.dump Examples.day_cache 0 0 10
           Examples.new_url Examples.new_hash "payload").
  - vm_compute. reflexivity.
  - vm_compute. discriminate.
  - vm_compute. discriminate.
Defined.

(** X2 at the day cache: a second payload under the same URL. *)
Lemma X2_witness :
  let after1 :=
    snd (DocumentCache.save_result (lib := Examples.lib) (os := Examples.os) Examples.dump
           Examples.day_cache 0 0 Examples.new_url "first") in
  let after2 :=
    snd (DocumentCache.save_result (lib := Examples.lib) (os := Examples.os) Examples.dump
           after1 5 5 Examples.new_url "second") in
  PyDict.keys (DocumentCache.entries after2)
  = PyDict.keys (DocumentCache.entries after1)
  /\ DocumentCache.get_cached_result (lib := Examples.lib) (os := Examples.os) after2 10
       Examples.new_url
     = (Returns (Some (DocumentCache.CacheData Examples.new_url
                         Examples.new_hash 5 "second")), after2).
Proof.
  apply (CacheMore.X2_saving_again_replaces_the_result
           (lib := Examples.lib) (os := Examples.os) Examples.dump Examples.day_cache 0 0 5 5 10
           Examples.new_url Examples.new_hash "first" "second").
  - vm_compute. reflexivity.
  - vm_compute. discriminate.
  - vm_compute. discriminate.
  - vm_compute. discriminate.
Defined.

(** X3 at the tiny cache: a hundred bytes do not fit. *)
Lemma X3_witness :
  let '(saved, c1) :=
    DocumentCache.save_result (lib := Examples.lib) (os := Examples.os) Examples.dump
      Samples.tiny_cache 0 0 Examples.new_url "payload" in
  saved = true
  /\ DocumentCache.entries c1 = []
  /\ DocumentCache.files c1
     !! DocumentCache._get_cache_file_path Examples.new_hash = None
  /\ DocumentCache.get_cached_result (lib := Examples.lib) (os := Examples.os) c1 1
       Examples.new_url
     = (Returns None, c1).
Proof.
  apply (CacheMore.X3_oversized_result_is_saved_and_evicted
           (lib := Examples.lib) (os := Examples.os) Examples.dump Samples.tiny_cache 0 0 1
           Examples.new_url Examples.new_hash "payload").
  - vm_compute. reflexivity.
  - reflexivity.
  - left. reflexivity.
  - vm_compute. reflexivity.
Defined.

(** X4 at a store into the empty day cache. *)
Lemma X4_witness :
  CacheStats.sound
    (snd (DocumentCache.save_result (lib := Examples.lib) (os := Examples.os) Examples.dump
            Examples.day_cache 0 0 Examples.new_url "payload")).
Proof.
  destruct (CacheStatsFacts.X4_operations_keep_the_cache_sound
              (lib := Examples.lib) (os := Examples.os) Examples.dump) as [Hempty Hops].
  - intros d. reflexivity.
  - destruct (Hops Examples.day_cache (Hempty 24%Q 500%Q)) as (Hsave & _).
    exact (Hsave 0%Q 0%Q Examples.new_url "payload").
Defined.

(** X5 at the small cache, more than a day after its entry was
    cached. *)
Lemma X5_witness :
  DocumentCache.cleanup_expired (os := Examples.os)
    (snd (DocumentCache.cleanup_expired (os := Examples.os)
            Examples.small_cache 100000)) 100000
  = (0, snd (DocumentCache.cleanup_expired (os := Examples.os)
               Examples.small_cache 100000)).
Proof.
  pose proof (CacheMore.X5_sweep_removes_exactly_the_expired
                (os := Examples.os) Examples.small_cache 100000) as H.
  destruct (DocumentCache.cleanup_expired (os := Examples.os)
              Examples.small_cache 100000)
    as [removed c1].
  apply H; [repeat constructor; simpl; tauto | reflexivity].
Defined.

(** X6 at the small cache. *)
Lemma X6_witness :
  CacheStats.expired_entries
    (CacheStats.get_cache_stats Samples.round_down2 Examples.small_cache
                                (fun _ => 100000%Q))
  = fst (DocumentCache.cleanup_expired (os := Examples.os)
           Examples.small_cache 100000).
Proof.
  apply (CacheStatsFacts.X6_statistics_count_the_expired
           (os := Examples.os) Samples.round_down2 Examples.small_cache
           100000).
  split; [split; [|split]|].
  - repeat constructor. simpl. tauto.
  - intros h e [[= <- <-]|[]]. eexists. split; [apply lookup_singleton_eq|].
    reflexivity.
  - intros name f E. unfold Examples.small_cache in E. simpl in E.
    apply lookup_singleton_Some in E as [_ <-]. simpl. lia.
  - intros h e [[= <- <-]|[]]. reflexivity.
Defined.

(** X7 at a lookup in the small cache. *)
Lemma X7_witness :
  DocumentCache._get_url_hash (lib := Examples.lib) Examples.new_url
  = Some Examples.new_hash
  /\ (forall kv,
        In kv (DocumentCache.entries
                 (snd (DocumentCache.get_cached_result (lib := Examples.lib) (os := Examples.os)
                         Examples.small_cache 10 Examples.new_url))) ->
        In kv (DocumentCache.entries Examples.small_cache)).
Proof.
  assert (Hh : DocumentCache._get_url_hash (lib := Examples.lib)
                 Examples.new_url = Some Examples.new_hash)
    by (vm_compute; reflexivity).
  split; [exact Hh|].
  pose proof (CacheMore.X7_lookup_touches_only_its_own_key
                (lib := Examples.lib) (os := Examples.os) Examples.small_cache 10
                Examples.new_url Examples.new_hash Hh) as H.
  destruct (DocumentCache.get_cached_result (lib := Examples.lib) (os := Examples.os)
              Examples.small_cache 10 Examples.new_url) as [r c1].
  apply H.
Defined.

(** X8 at a URL whose bracket is not closed. *)
Lemma X8_witness :
  DocumentCache.save_result (lib := Examples.lib) (os := Examples.os) Examples.dump
    Examples.day_cache 0 0 "http://[::1/x" "payload"
  = (false, Examples.day_cache).
Proof.
  apply (CacheMore.X8_rejected_url_is_not_cached
           (lib := Examples.lib) (os := Examples.os) Examples.dump Examples.day_cache 0 0 1
           "http://[::1/x" "payload").
  vm_compute. reflexivity.
Defined.

(** X9 at a [head] half a second after the answer to a [get]. *)
Lemma X9_witness :
  let rq1 :=
    SafeRequester._update_last_request_time Examples.requester "a.example"
                                            (0 + 1) in
  (0 + 1 + 1
   <= SafeRequester.after_sleep
        (3 # 2) (SafeRequester._wait_if_needed rq1 (3 # 2) "a.example"))%Q.
Proof.
  intros rq1.
  pose proof (CrawlerFacts.X9_requests_to_a_domain_are_spaced
                (lib := Examples.lib) Crawler.GET Crawler.HEAD
                Examples.requester rq1 0 (3 # 2) (0 + 1)
                "https://a.example/x" "https://a.example/y" "a.example"
                (Net.Served (Examples.always 200))
                (Net.Served (Examples.always 200))
                (Net.Response 200 false "")
                [Net.Send "https://a.example/x";
                 Net.Stamp "a.example" (0 + 1)]) as H.
  cbv zeta in H.
  destruct (Crawler.request (lib := Examples.lib) Crawler.HEAD rq1 (3 # 2)
              "https://a.example/y" (Net.Served (Examples.always 200)))
    as [[[r2 rq2] t2] evs2].
  apply H; vm_compute; reflexivity.
Defined.

(** X10 at a server that always answers 503. *)
Lemma X10_witness :
  let '(r, rq', t, evs) :=
    Crawler.request (lib := Examples.lib) Crawler.GET Examples.requester 0
                    "https://a.example/x" (Net.Served (Examples.always 503)) in
  (Net.sends evs <= 3)%nat /\ (1 <= Net.sends evs)%nat.
Proof.
  pose proof (CrawlerFacts.X10_attempts_are_bounded
                (lib := Examples.lib) Crawler.GET Examples.requester 0
                "https://a.example/x" (Net.Served (Examples.always 503)))
    as H.
  destruct (Crawler.request (lib := Examples.lib) Crawler.GET
              Examples.requester 0 "https://a.example/x"
              (Net.Served (Examples.always 503))) as [[[r rq'] t] evs].
  destruct H as [Hle Hge]. split.
  - apply Hle. right. intros server i resp took [= <-] [= <- _]. reflexivity.
  - apply (Hge "a.example" (Examples.always 503));
      [vm_compute; reflexivity | reflexivity].
Defined.

(** X11 at a server that lets every attempt time out. *)
Lemma X11_witness :
  exists t evs,
    SafeRequester.get (lib := Examples.lib) Examples.requester 0
                      "https://a.example/x" (Net.Served Examples.timing_out)
    = (Returns None, Examples.requester, t, evs)
    /\ Crawler.head (lib := Examples.lib) Examples.requester 0
                    "https://a.example/x" (Net.Served Examples.timing_out)
       = (Returns None, Examples.requester, t, evs)
    /\ Crawler.get_with_enhanced_protection
         (lib := Examples.lib) Examples.requester 0 "https://a.example/x"
         (Net.Served Examples.timing_out)
       = (Raises (Exn TimeoutExc "timed out"), Examples.requester, t, evs)
    /\ Net.has_stamp evs = false
    /\ Net.sends evs = 3%nat.
Proof.
  destruct (CrawlerFacts.X11_what_the_entry_points_raise
              (lib := Examples.lib) Examples.requester 0
              "https://a.example/x" (Net.Served Examples.timing_out))
    as [_ H].
  destruct (H "a.example") as (_ & _ & _ & Hraise);
    [vm_compute; reflexivity|].
  apply (Hraise (Exn TimeoutExc "timed out") 3%nat (1 + (1 + 1))%Q).
  reflexivity.
Defined.

(** X12 at a douyin URL and a caller that names an agent of its own. *)
Lemma X12_witness :
  exists sent agent,
    Crawler.request_headers (lib := Examples.lib)
      "https://www.douyin.com/video/1" [("User-Agent", "caller")] 3
    = Returns sent
    /\ PyDict.get "User-Agent" sent = Some agent
    /\ In agent Crawler.mobile_user_agents.
Proof.
  destruct (CrawlerFacts.X12_the_agent_of_a_request_is_the_platforms
              (lib := Examples.lib) "https://www.douyin.com/video/1"
              "www.douyin.com" [("User-Agent", "caller")] 3)
    as (sent & agent & H1 & H2 & _ & H4 & _).
  - vm_compute. reflexivity.
  - exists sent, agent. split; [exact H1|]. split; [exact H2|].
    apply H4. vm_compute. reflexivity.
Defined.

(** X13 at a requester one second after its last request. *)
Lemma X13_witness :
  (5 + (3 # 2)
   <= SafeRequester.after_sleep
        6 (Crawler._simulate_user_behavior Samples.stamped_requester 6
                                           "a.example" (1 # 2)))%Q.
Proof.
  destruct (CrawlerFacts.X13_the_delay_of_a_simulated_reader
              Samples.stamped_requester 6 (1 # 2) "a.example") as [_ H].
  - vm_compute. discriminate.
  - destruct (H 5%Q) as (_ & H2 & _); [apply lookup_singleton_eq|].
    exact H2.
Defined.

(** X14 at a main page that answers 200 and sets a cookie. *)
Lemma X14_witness :
  let '(s', now', evs) :=
    Crawler._establish_session Samples.one_cookie Samples.no_session 0
      "www.douyin.com" (1 # 2) (Net.Served (Examples.always 200)) in
  Crawler.requester s' = Crawler.requester Samples.no_session
  /\ Net.has_stamp evs = false
  /\ Crawler._has_valid_session s' "www.douyin.com" = true.
Proof.
  pose proof (CrawlerFacts.X14_session_setup_is_outside_the_pacing
                Samples.one_cookie Samples.no_session 0 (1 # 2)
                "www.douyin.com" (Net.Served (Examples.always 200))) as H.
  destruct (Crawler._establish_session Samples.one_cookie Samples.no_session
              0 "www.douyin.com" (1 # 2) (Net.Served (Examples.always 200)))
    as [[s' now'] evs].
  destruct H as (H1 & H2 & _ & _ & _ & H6).
  split; [exact H1|]. split; [exact H2|].
  assert (Hplain : Net.never_redirects (Net.Served (Examples.always 200))).
  { intros server i resp took [= <-] [= <- _]. reflexivity. }
  specialize (H6 (Returns (Net.Response 200 false "")) 1%nat 1%Q
                 Hplain eq_refl eq_refl).
  simpl in H6. apply H6.
Defined.

(** X15 at the first request to zhihu, one second into the clock. *)
Lemma X15_witness :
  (0 + 2
   <= 1 + (PlatformStrategy.get_request_interval PlatformStrategyManager.zhihu
             (1 # 2) - (1 - 0)))%Q.
Proof.
  pose proof (PlatformFacts.X15_paced_requests_keep_the_interval
                PlatformStrategyManager.init
                (PlatformStrategyManager.stamp PlatformStrategyManager.init
                   "zhihu"
                   (1 + (PlatformStrategy.get_request_interval
                           PlatformStrategyManager.zhihu (1 # 2) - (1 - 0))))
                1
                (1 + (PlatformStrategy.get_request_interval
                        PlatformStrategyManager.zhihu (1 # 2) - (1 - 0)))
                (1 # 2) "https://www.zhihu.com/question/1"
                PlatformStrategyManager.zhihu
                [Net.Sleep (PlatformStrategy.get_request_interval
                              PlatformStrategyManager.zhihu (1 # 2) - (1 - 0));
                 Net.Stamp "zhihu"
                   (1 + (PlatformStrategy.get_request_interval
                           PlatformStrategyManager.zhihu (1 # 2) - (1 - 0)))])
    as H.
  apply H.
  - vm_compute. reflexivity.
  - split; vm_compute; discriminate.
  - vm_compute. discriminate.
  - vm_compute. reflexivity.
Defined.

(** X16 at a strategy for bilibili. *)
Lemma X16_witness :
  PlatformStrategyManager.get_strategy
    (PlatformStrategyManager.add_custom_strategy PlatformStrategyManager.init
       "bilibili" Samples.bilibili)
    "bilibili"
  = Some Samples.bilibili
  /\ (forall url, PlatformStrategyManager.detect_platform url <> "bilibili").
Proof.
  destruct (PlatformFacts.X16_a_strategy_under_a_new_name_paces_nothing
              PlatformStrategyManager.init "bilibili" Samples.bilibili)
    as (H1 & H2 & _).
  - simpl. intuition discriminate.
  - split; [|exact H2].
    apply (H1 PlatformStrategyManager.default_strategy).
    apply lookup_insert_eq.
Defined.

(** X17 at the manager with the strategy for bilibili added. *)
Lemma X17_witness :
  Reach.reachable
    (PlatformStrategyManager.add_custom_strategy
       PlatformStrategyManager.init "bilibili" Samples.bilibili)
  /\ (forall x,
        exists s,
          PlatformStrategyManager.get_strategy
            (PlatformStrategyManager.add_custom_strategy
               PlatformStrategyManager.init "bilibili" Samples.bilibili) x
          = Some s).
Proof.
  assert (Hr : Reach.reachable
                 (PlatformStrategyManager.add_custom_strategy
                    PlatformStrategyManager.init "bilibili" Samples.bilibili))
    by apply Reach.reach_add, Reach.reach_init.
  split; [exact Hr|].
  apply (PlatformFacts.X17_there_is_always_a_strategy _ Hr).
Defined.

(** X18 at the strategy of douyin. *)
Lemma X18_witness :
  exists headers,
    PlatformStrategy.get_headers (lib := Examples.lib) PlatformStrategyManager.douyin
                                "https://www.douyin.com/video/1" 0
    = Returns headers
    /\ PyDict.get "User-Agent" headers
       = Some PlatformStrategy.mobile_user_agent
    /\ PyDict.get "Referer" headers = Some "https://www.douyin.com/".
Proof.
  destruct (PlatformFacts.X18_where_the_headers_of_a_strategy_come_from
              (lib := Examples.lib) PlatformStrategyManager.douyin
              "https://www.douyin.com/video/1" 0) as (H & _ & _).
  - repeat constructor; simpl; intuition discriminate.
  - eexists. split; [vm_compute; reflexivity|].
    split; vm_compute; reflexivity.
Defined.

(** X19 at five URLs, two to a batch: three batches, two pauses. *)
Lemma X19_witness :
  exists results s' log,
    Batch.batch_process_urls Samples.echo_state Examples.five_urls 2 10 tt
    = (Returns results, s', log)
    /\ List.filter (fun e => negb (Batch.is_call e)) log
       = [Batch.Pause 10; Batch.Pause 10].
Proof.
  destruct (BatchMore.X19_the_pauses_fall_between_the_batches
              Samples.echo_state Examples.five_urls 2 10 tt)
    as (results & s' & log & E & Hp & _).
  - lia.
  - vm_compute. discriminate.
  - exists results, s', log. split; [exact E | exact Hp].
Defined.

(** X20 at a batch size of minus one. *)
Lemma X20_witness :
  Batch.batch_process_urls Samples.echo_state Examples.five_urls (-1) 10 tt
  = (Returns [], tt, []).
Proof.
  apply (BatchMore.X20_a_batch_size_below_one_processes_nothing
           Samples.echo_state Examples.five_urls (-1) 10 tt).
  lia.
Defined.

(** X21 at five URLs, two to a batch, and a delay of minus one. *)
Lemma X21_witness :
  exists e s',
    Batch.batch_process_urls Samples.echo_state Examples.five_urls 2 (-1) tt
    = (Raises e, s', [Batch.Call "u1"; Batch.Call "u2"])
    /\ exn_kind e = ValueErrorExc.
Proof.
  destruct (BatchMore.X21_a_negative_delay_fails_after_the_first_batch
              Samples.echo_state Examples.five_urls 2 (-1) tt) as [_ H].
  - lia.
  - vm_compute. reflexivity.
  - destruct H as (e & E & Hk); [simpl; lia|].
    exists e. eexists. split; [exact E | exact Hk].
Defined.

(** X22 at a callback that fails at the end of every unit. *)
Lemma X22_witness :
  exists results,
    Batch.async_batch_process_urls (pv := Examples.plain_text)
      Samples.echo (Some Samples.fails_at_end) Examples.five_urls 3
    = Batch.Completed results
    /\ results !! 0%nat
       = Some (Batch.ErrorRecord "callback failed" "u1").
Proof.
  destruct (BatchMore.X22_a_failing_callback_fails_its_unit
              (pv := Examples.plain_text)
              Samples.echo Samples.fails_at_end Examples.five_urls 3)
    as (results & E & _ & H).
  - lia.
  - exists results. split; [exact E|].
    apply (H 0%nat "u1" "u1" (Exn OtherException "callback failed"));
      reflexivity.
Defined.
